(** * Dhanam billing: webhook verification, webhook processing, usage metering

    A shallow embedding of the billing SDK's webhook helpers
    (packages/billing-sdk/src/webhook.ts) and of the API's billing module
    (billing.service.ts, billing.controller.ts, stripe.service.ts,
    janua-billing.service.ts), followed by the properties of the billing
    specification checked against that code.

    Conventions.
    - A JS computation that may throw is a [Completion]: [Return v] or
      [Throw e].  Effects performed before a throw persist.
    - Strings are byte strings; the strings that matter here (hex digests,
      header values, host names, plan slugs) are ASCII, where UTF-16 code
      units, code points and UTF-8 bytes coincide.
    - Instants are milliseconds since the epoch, as integers; a handler
      receives as [now] what [new Date()] returns while it runs.
    - What the Stripe SDK, the Janua HTTP API and the URL parser answer is
      a parameter ([Outside]); every request sent is recorded in order.
    - Object literals used as lookup tables ([tierRank], [PLAN_TIER_MAP],
      [TIER_RANK]) answer their own properties and, for the other names
      of [Object.prototype], the inherited member. *)

From Stdlib Require Import ZArith QArith List String Ascii Bool Lia.
Import ListNotations.
Open Scope string_scope.
Open Scope list_scope.
Open Scope Z_scope.

(* ===================================================================== *)
(** ** JavaScript values shared by both packages *)
(* ===================================================================== *)

Module Js.

(** The exception classes the code throws or lets through. *)
Inductive JsError : Type :=
| Error (message : string)
| RangeError (message : string)
| TypeError (message : string)
| SyntaxError (message : string)
| BadRequestException (message : string)
| NotFoundException (message : string)
| DataError (message : string)
| PrismaClientValidationError (message : string).

Inductive Completion (A : Type) : Type :=
| Return (v : A)
| Throw (e : JsError).
Arguments Return {A} v.
Arguments Throw {A} e.

Definition message (e : JsError) : string :=
  match e with
  | Error m | RangeError m | TypeError m | SyntaxError m
  | BadRequestException m | NotFoundException m
  | DataError m | PrismaClientValidationError m => m
  end.

(** Truthiness of an optional string argument: [undefined] and [''] are
    falsy, every other string is truthy. *)
Definition truthy (o : option string) : bool :=
  match o with
  | Some s => negb (String.eqb s "")
  | None => false
  end.

(** [a || b] on optional strings. *)
Definition or_else (o : option string) (d : string) : string :=
  match o with
  | Some s => if String.eqb s "" then d else s
  | None => d
  end.

Definition charCodes (s : string) : list Z :=
  map (fun c => Z.of_N (N_of_ascii c)) (list_ascii_of_string s).

(** *** Property reads on object literals

    An object literal inherits from [Object.prototype]: [table[key]], for
    a [key] that is not an own property, answers the inherited member when
    [key] names one and [undefined] otherwise. *)

(** [Object.getOwnPropertyNames(Object.prototype)]. *)
Definition objectPrototypeKeys : list string :=
  ["constructor"; "__defineGetter__"; "__defineSetter__"; "hasOwnProperty";
   "__lookupGetter__"; "__lookupSetter__"; "isPrototypeOf";
   "propertyIsEnumerable"; "toString"; "valueOf"; "__proto__";
   "toLocaleString"].

Definition inheritedKey (key : string) : bool :=
  existsb (String.eqb key) objectPrototypeKeys.

(** What a read finds: an own value, or the member of [Object.prototype]
    of that name (a function; for [__proto__], [Object.prototype]
    itself). *)
Inductive Member (A : Type) : Type :=
| Own (a : A)
| Proto (key : string).
Arguments Own {A} a.
Arguments Proto {A} key.

(** [table[key]], with [own] the literal's own properties; [None] is
    [undefined]. *)
Definition lookup {A : Type} (own : string -> option A) (key : string)
    : option (Member A) :=
  match own key with
  | Some a => Some (Own a)
  | None => if inheritedKey key then Some (Proto key) else None
  end.

(** [value ?? default]: only [undefined] takes the default. *)
Definition nullish_or {A : Type} (o : option (Member A)) (default : A)
    : Member A :=
  match o with
  | Some v => v
  | None => Own default
  end.

(** The string an inherited member converts to, as V8 prints it: the
    source text of a native function, and [[object Object]] for
    [Object.prototype]. *)
Definition protoText (key : string) : string :=
  if String.eqb key "__proto__" then "[object Object]"
  else "function "
       ++ (if String.eqb key "constructor" then "Object" else key)
       ++ "() { [native code] }".

(** [a >= b] where own values are numbers.  Number against number is the
    usual order; a number against an inherited member compares with [NaN],
    which is false; two inherited members compare as the strings they
    convert to. *)
Definition geb (a b : Member Z) : bool :=
  match a, b with
  | Own x, Own y => x >=? y
  | Proto k1, Proto k2 => negb (String.ltb (protoText k1) (protoText k2))
  | _, _ => false
  end.

End Js.

(* ===================================================================== *)
(** ** Platform primitive: HMAC-SHA256 (FIPS 180-4, RFC 2104)

    Both [crypto.subtle.sign('HMAC', ...)] and
    [crypto.createHmac('sha256', ...)] compute this function. *)
(* ===================================================================== *)

Module Sha256.

Definition w32 (x : Z) : Z := x mod 4294967296.
Definition add32 (a b : Z) : Z := w32 (a + b).
Definition rotr (n x : Z) : Z :=
  w32 (Z.lor (Z.shiftr x n) (Z.shiftl x (32 - n))).
Definition not32 (x : Z) : Z := 4294967295 - x.

Definition Ch (x y z : Z) : Z := Z.lxor (Z.land x y) (Z.land (not32 x) z).
Definition Maj (x y z : Z) : Z :=
  Z.lxor (Z.lxor (Z.land x y) (Z.land x z)) (Z.land y z).
Definition Sigma0 (x : Z) : Z := Z.lxor (Z.lxor (rotr 2 x) (rotr 13 x)) (rotr 22 x).
Definition Sigma1 (x : Z) : Z := Z.lxor (Z.lxor (rotr 6 x) (rotr 11 x)) (rotr 25 x).
Definition sigma0 (x : Z) : Z := Z.lxor (Z.lxor (rotr 7 x) (rotr 18 x)) (Z.shiftr x 3).
Definition sigma1 (x : Z) : Z := Z.lxor (Z.lxor (rotr 17 x) (rotr 19 x)) (Z.shiftr x 10).

(** The round constants and the initial hash value are defined by FIPS
    180-4 as the first 32 bits of the fractional parts of the cube roots of
    the first 64 primes, and of the square roots of the first 8. *)
Definition is_prime (n : Z) : bool :=
  (1 <? n)
  && forallb (fun d => negb (n mod d =? 0) || (n <=? d))
       (map Z.of_nat (seq 2 17)).

Definition primes : list Z := filter is_prime (map Z.of_nat (seq 2 310)).

(** The largest [r] below [2 ^ bits] with [r ^ 3 <= n], bit by bit. *)
Fixpoint icbrt (bits : nat) (n r : Z) : Z :=
  match bits with
  | O => r
  | S b =>
      let r' := r + 2 ^ Z.of_nat b in
      icbrt b n (if r' * r' * r' <=? n then r' else r)
  end.

Definition K : list Z :=
  map (fun p => w32 (icbrt 40 (p * 2 ^ 96) 0)) primes.

Definition H0 : list Z :=
  map (fun p => w32 (Z.sqrt (p * 2 ^ 64))) (firstn 8 primes).

(** Big-endian encoding of [x] on [n] bytes. *)
Fixpoint be_bytes (n : nat) (x : Z) : list Z :=
  match n with
  | O => []
  | S n' => (Z.shiftr x (8 * Z.of_nat n')) mod 256 :: be_bytes n' x
  end.

Definition pad (msg : list Z) : list Z :=
  let len := Z.of_nat (List.length msg) in
  let zeros := Z.to_nat ((55 - len) mod 64) in
  msg ++ [128] ++ repeat 0 zeros ++ be_bytes 8 (8 * len).

Fixpoint words (fuel : nat) (bs : list Z) : list Z :=
  match fuel, bs with
  | S f, a :: b :: c :: d :: rest =>
      (((a * 256 + b) * 256 + c) * 256 + d) :: words f rest
  | _, _ => []
  end.

(** The message schedule, most recent word first. *)
Fixpoint schedule (n : nat) (rev_w : list Z) : list Z :=
  match n with
  | O => rev_w
  | S n' =>
      let w := add32 (add32 (sigma1 (nth 1 rev_w 0)) (nth 6 rev_w 0))
                     (add32 (sigma0 (nth 14 rev_w 0)) (nth 15 rev_w 0)) in
      schedule n' (w :: rev_w)
  end.

Definition round (st : list Z) (kw : Z * Z) : list Z :=
  match st with
  | [a; b; c; d; e; f; g; h] =>
      let t1 := add32 (add32 (add32 h (Sigma1 e)) (add32 (Ch e f g) (fst kw))) (snd kw) in
      let t2 := add32 (Sigma0 a) (Maj a b c) in
      [add32 t1 t2; a; b; c; add32 d t1; e; f; g]
  | _ => st
  end.

Definition compress (h : list Z) (block : list Z) : list Z :=
  let w := rev (schedule 48 (rev (words 16 block))) in
  let st := fold_left round (combine K w) h in
  map (fun p => add32 (fst p) (snd p)) (combine h st).

Fixpoint blocks (fuel : nat) (bs : list Z) : list (list Z) :=
  match fuel, bs with
  | S f, _ :: _ => firstn 64 bs :: blocks f (skipn 64 bs)
  | _, _ => []
  end.

Definition sha256 (msg : list Z) : list Z :=
  let p := pad msg in
  let h := fold_left compress (blocks (List.length p) p) H0 in
  flat_map (be_bytes 4) h.

Definition hmac_sha256 (key msg : list Z) : list Z :=
  let k0 := if Z.of_nat (List.length key) >? 64 then sha256 key else key in
  let k := k0 ++ repeat 0 (64 - List.length k0)%nat in
  let ipad := map (fun b => Z.lxor b 0x36) k in
  let opad := map (fun b => Z.lxor b 0x5c) k in
  sha256 (opad ++ sha256 (ipad ++ msg)).

End Sha256.

(* ===================================================================== *)
(** ** packages/billing-sdk/src/webhook.ts *)
(* ===================================================================== *)

Module Webhook.
Import Js.

(** What the host offers: [globalThis.crypto?.subtle] is present in edge
    runtimes and modern Node, absent in older Node. *)
Record Runtime : Type := { hasSubtle : bool }.

Definition TextEncoder_encode (s : string) : list Z := charCodes s.

(** [Number.prototype.toString(16)] on a byte. *)
Definition hexDigit (d : Z) : ascii :=
  ascii_of_N (Z.to_N (if d <? 10 then 48 + d else 87 + d)).

Definition toString16 (b : Z) : string :=
  if b <? 16 then String (hexDigit b) EmptyString
  else String (hexDigit (b / 16)) (String (hexDigit (b mod 16)) EmptyString).

(** [s.padStart(2, '0')] on the one- or two-character output above. *)
Definition padStart2 (s : string) : string :=
  if (String.length s <? 2)%nat then String "0"%char s else s.

(** [bufferToHex]: map every byte to two hex characters and join. *)
Definition bufferToHex (buffer : list Z) : string :=
  String.concat "" (map (fun b => padStart2 (toString16 b)) buffer).

(** The loop body of [timingSafeEqual]: [result |= a[i] ^ b[i]]. *)
Definition xor_or (result : Z) (p : Z * Z) : Z :=
  Z.lor result (Z.lxor (fst p) (snd p)).

(** [timingSafeEqual(a, b)]: the SDK's own constant-time comparison. *)
Definition timingSafeEqual (a b : string) : bool :=
  if negb (String.length a =? String.length b)%nat then false
  else fold_left xor_or (combine (charCodes a) (charCodes b)) 0 =? 0.

(** Node's [crypto.timingSafeEqual] on two buffers: it throws a
    [RangeError] when the byte lengths differ. *)
Definition crypto_timingSafeEqual (a b : list Z) : Completion bool :=
  if (List.length a =? List.length b)%nat
  then Return (forallb (fun p => fst p =? snd p) (combine a b))
  else Throw (RangeError "Input buffers must have the same byte length").

(** [createHmac('sha256', secret).update(rawBody).digest('hex')]. *)
Definition createHmac_digest_hex (secret rawBody : string) : string :=
  bufferToHex (Sha256.hmac_sha256 (charCodes secret) (charCodes rawBody)).

(** [crypto.subtle.importKey('raw', keyData, { name: 'HMAC', hash:
    'SHA-256' }, false, ['sign'])]: Web Crypto rejects a key of length
    zero with a [DataError]; any other key is imported as it is. *)
Definition subtle_importKey_raw_HMAC (keyData : list Z) : Completion (list Z) :=
  match keyData with
  | [] => Throw (DataError "Zero-length key is not supported")
  | _ :: _ => Return keyData
  end.

Definition verifyWebhookSignature (rt : Runtime)
    (rawBody signature secret : string) : Completion bool :=
  if hasSubtle rt then
    (* Web Crypto path *)
    match subtle_importKey_raw_HMAC (TextEncoder_encode secret) with
    | Throw e => Throw e
    | Return key =>
        let mac := Sha256.hmac_sha256 key (TextEncoder_encode rawBody) in
        let expected := bufferToHex mac in
        Return (timingSafeEqual expected signature)
    end
  else
    (* Node.js crypto fallback *)
    let expected := createHmac_digest_hex secret rawBody in
    crypto_timingSafeEqual (charCodes expected) (charCodes signature).

Section Parse.
(** [JSON.parse] followed by the cast to [DhanamWebhookPayload]; [None]
    stands for the [SyntaxError] it throws on malformed text. *)
Variable Payload : Type.
Variable JSON_parse : string -> option Payload.

Definition parse_body (rawBody : string) : Completion Payload :=
  match JSON_parse rawBody with
  | Some p => Return p
  | None => Throw (SyntaxError "Unexpected token in JSON")
  end.

(** [parseWebhookPayload(rawBody, signature?, secret?)].  The guard
    [signature && secret] is on truthiness: an omitted argument and the
    empty string both skip verification. *)
Definition parseWebhookPayload (rt : Runtime) (rawBody : string)
    (signature secret : option string) : Completion Payload :=
  if truthy signature && truthy secret then
    match verifyWebhookSignature rt rawBody
            (or_else signature "") (or_else secret "") with
    | Throw e => Throw e
    | Return valid =>
        if negb valid then Throw (Error "Invalid webhook signature")
        else parse_body rawBody
    end
  else parse_body rawBody.
End Parse.

End Webhook.

(* ===================================================================== *)
(** ** apps/api/src/modules/billing: data model *)
(* ===================================================================== *)

Module Billing.
Import Js.

(** *** Persisted rows (Prisma models [User], [BillingEvent],
    [UsageMetric]) *)

Record User : Type := {
  id : string;
  email : string;
  name : string;
  countryCode : option string;
  subscriptionTier : string;
  subscriptionStartedAt : option Z;
  subscriptionExpiresAt : option Z;
  stripeCustomerId : option string;
  stripeSubscriptionId : option string;
  januaCustomerId : option string;
  billingProvider : option string
}.

Inductive BillingStatus : Type := succeeded | failed.

Inductive BillingEventType : Type :=
| subscription_created
| subscription_cancelled
| payment_succeeded
| payment_failed
| refund_issued.

(** A JSON object of optional strings, in source order. *)
Definition Metadata : Type := list (string * option string).

Record BillingEvent : Type := {
  userId : string;
  type : BillingEventType;
  amount : Q;
  currency : string;
  status : BillingStatus;
  stripeEventId : string;
  metadata : Metadata
}.

Inductive UsageMetricType : Type :=
| esg_calculation
| monte_carlo_simulation
| goal_probability
| scenario_analysis
| portfolio_rebalance
| api_request.

Record UsageMetric : Type := {
  um_userId : string;
  um_metricType : UsageMetricType;
  um_date : Z;
  um_count : Z
}.

(** *** Effects outside the database *)

(** A value interpolated into a log line or stored in audit metadata: a
    string, a possibly undefined string, a number of cents divided by 100
    ([NaN] when the field is undefined), or a possibly undefined number. *)
Inductive Piece : Type :=
| Txt (s : string)
| Opt (o : option string)
| Cents (c : option Z)
| Num (n : option Q).

Record AuditEntry : Type := {
  audit_userId : string;
  audit_action : string;
  audit_severity : string;
  audit_metadata : list (string * Piece)
}.

Inductive LogLevel : Type := log_info | log_warn | log_error.

(** A log line is kept as the pieces of its template literal. *)
Record LogEntry : Type := { level : LogLevel; pieces : list Piece }.

(** Requests that leave the process, in the order they are issued. *)
Inductive Outbound : Type :=
| StripeCreateCustomer (email name userId : string)
| StripeCreateCheckoutSession (customerId priceId successUrl cancelUrl : string)
                              (md : Metadata)
| StripeRetrieveCheckoutSession (sessionId : string)
| JanuaCreateCustomer (email name country provider : string) (orgId : option string)
| JanuaCreateCheckout (customerId email planId country provider : string)
                      (orgId : option string) (successUrl cancelUrl : string)
                      (md : Metadata)
| JanuaAddRole (apiUrl januaUserId role : string)
| JanuaTierChange (apiUrl orgId customerId : string) (planId : option string).

Record World : Type := {
  users : list User;
  billingEvents : list BillingEvent;
  usageMetrics : list UsageMetric;
  auditLog : list AuditEntry;
  logs : list LogEntry;
  outbound : list Outbound
}.

(** *** Stripe objects carried by webhook events *)

Record SubscriptionItem : Type := {
  price_unit_amount : option Z;
  price_product : option string
}.

Record Subscription : Type := {
  sub_id : string;
  sub_customer : string;
  current_period_start : Z;
  current_period_end : Z;
  items_data : list SubscriptionItem;
  sub_currency : string;
  sub_metadata_janua_user_id : option string
}.

Record Invoice : Type := {
  inv_id : string;
  inv_customer : string;
  amount_paid : option Z;
  amount_due : option Z;
  inv_currency : string;
  inv_subscription : option string
}.

Record CheckoutSession : Type := {
  cs_id : string;
  cs_customer : option string;
  amount_total : option Z;
  cs_currency : option string;
  metadata_janua_user_id : option string;
  metadata_plan : option string;
  metadata_source : option string
}.

(** [Stripe.Event] is a union discriminated by [type]. *)
Inductive EventData : Type :=
| customer_subscription_created (s : Subscription)
| customer_subscription_updated (s : Subscription)
| customer_subscription_deleted (s : Subscription)
| invoice_payment_succeeded (i : Invoice)
| invoice_payment_failed (i : Invoice)
| checkout_session_completed (c : CheckoutSession)
| other_event (type : string).

Record StripeEvent : Type := { event_id : string; event_data : EventData }.

Definition event_type (e : StripeEvent) : string :=
  match event_data e with
  | customer_subscription_created _ => "customer.subscription.created"
  | customer_subscription_updated _ => "customer.subscription.updated"
  | customer_subscription_deleted _ => "customer.subscription.deleted"
  | invoice_payment_succeeded _ => "invoice.payment_succeeded"
  | invoice_payment_failed _ => "invoice.payment_failed"
  | checkout_session_completed _ => "checkout.session.completed"
  | other_event t => t
  end.

(** *** Janua webhook payloads ([JanuaWebhookPayloadDto]) *)

Inductive JanuaWebhookEventType : Type :=
| SUBSCRIPTION_CREATED
| SUBSCRIPTION_UPDATED
| SUBSCRIPTION_CANCELLED
| SUBSCRIPTION_PAUSED
| SUBSCRIPTION_RESUMED
| PAYMENT_SUCCEEDED
| PAYMENT_FAILED
| PAYMENT_REFUNDED
| OTHER_JANUA_EVENT (type : string).

Record JanuaData : Type := {
  customer_id : string;
  subscription_id : option string;
  plan_id : option string;
  data_status : option string;
  data_amount : option Q;
  data_currency : option string;
  data_provider : option string;
  data_metadata_orgId : option string
}.

Record JanuaPayload : Type := {
  payload_id : string;
  payload_type : JanuaWebhookEventType;
  payload_data : JanuaData
}.

Definition janua_event_name (t : JanuaWebhookEventType) : string :=
  match t with
  | SUBSCRIPTION_CREATED => "subscription.created"
  | SUBSCRIPTION_UPDATED => "subscription.updated"
  | SUBSCRIPTION_CANCELLED => "subscription.cancelled"
  | SUBSCRIPTION_PAUSED => "subscription.paused"
  | SUBSCRIPTION_RESUMED => "subscription.resumed"
  | PAYMENT_SUCCEEDED => "payment.succeeded"
  | PAYMENT_FAILED => "payment.failed"
  | PAYMENT_REFUNDED => "payment.refunded"
  | OTHER_JANUA_EVENT t => t
  end.

(** *** Configuration and collaborators *)

Record Config : Type := {
  NODE_ENV : option string;
  WEB_URL : option string;
  STRIPE_WEBHOOK_SECRET : option string;
  STRIPE_ESSENTIALS_PRICE_ID : option string;
  STRIPE_PREMIUM_PRICE_ID : option string;
  STRIPE_FOUNDRY_PRODUCT_ID : option string;
  JANUA_API_URL : option string;
  JANUA_API_KEY : option string;
  JANUA_ADMIN_KEY : option string;
  JANUA_BILLING_ENABLED : bool;
  JANUA_WEBHOOK_SECRET : option string;
  DHANAM_WEBHOOK_SECRET : option string;
  (** The process time zone, as ECMAScript's [LocalTZA]: local time minus
      UTC in milliseconds, in effect at a UTC instant and at a local time
      value.  In a zone without daylight saving both are one constant. *)
  LocalTZA_at_utc : Z -> Z;
  LocalTZA_at_local : Z -> Z
}.

(** The answer to a [fetch]: a 2xx JSON body, a non-2xx text body, or a
    rejected promise. *)
Inductive Http (A : Type) : Type :=
| HttpOk (data : A)
| HttpNotOk (text : string)
| NetworkError (e : JsError).
Arguments HttpOk {A} data.
Arguments HttpNotOk {A} text.
Arguments NetworkError {A} e.

Record StripeSession : Type := { session_id : string; session_url : string }.
Record JanuaCheckout : Type := { checkout_url : string; janua_session_id : string }.

(** What the outside world answers.  None of this is code of the
    repository: the Stripe SDK, the Janua HTTP API and the WHATWG URL
    parser. *)
Record Outside : Type := {
  stripe_constructEvent : string -> string -> string -> Completion StripeEvent;
  stripe_customers_create : string -> string -> Completion string;
  stripe_sessions_create : string -> option string -> Completion StripeSession;
  stripe_sessions_retrieve : string -> Completion (option string);
  janua_post_customers : string -> string -> Http string;
  janua_post_checkout : string -> string -> Http JanuaCheckout;
  janua_post_tier_change : string -> string -> option string -> Http unit;
  URL_hostname : string -> option string
}.

(** *** Effectful computations: world passing with exceptions *)

Definition M (A : Type) : Type := World -> Completion A * World.

Definition ret {A : Type} (a : A) : M A := fun w => (Return a, w).

Definition bind {A B : Type} (c : M A) (k : A -> M B) : M B :=
  fun w =>
    match c w with
    | (Return a, w') => k a w'
    | (Throw e, w') => (Throw e, w')
    end.

Definition throw {A : Type} (e : JsError) : M A := fun w => (Throw e, w).

Definition try_catch {A : Type} (c : M A) (handler : JsError -> M A) : M A :=
  fun w =>
    match c w with
    | (Return a, w') => (Return a, w')
    | (Throw e, w') => handler e w'
    end.

Definition lift {A : Type} (c : Completion A) : M A := fun w => (c, w).

Declare Scope billing_scope.
Delimit Scope billing_scope with M.
Notation "x <- c ;; k" := (bind c (fun x => k))
  (at level 61, c at next level, right associativity) : billing_scope.
Notation "c ;; k" := (bind c (fun _ => k))
  (at level 61, right associativity) : billing_scope.
Open Scope billing_scope.

(** *** Logger, audit trail, outbound requests *)

Definition logger (l : LogLevel) (ps : list Piece) : M unit :=
  fun w => (Return tt,
            {| users := users w; billingEvents := billingEvents w;
               usageMetrics := usageMetrics w; auditLog := auditLog w;
               logs := logs w ++ [{| level := l; pieces := ps |}];
               outbound := outbound w |}).

Definition audit_log (e : AuditEntry) : M unit :=
  fun w => (Return tt,
            {| users := users w; billingEvents := billingEvents w;
               usageMetrics := usageMetrics w; auditLog := auditLog w ++ [e];
               logs := logs w; outbound := outbound w |}).

Definition send (o : Outbound) : M unit :=
  fun w => (Return tt,
            {| users := users w; billingEvents := billingEvents w;
               usageMetrics := usageMetrics w; auditLog := auditLog w;
               logs := logs w; outbound := outbound w ++ [o] |}).

(** *** Prisma client *)

Definition opt_eqb (o : option string) (s : string) : bool :=
  match o with Some x => String.eqb x s | None => false end.

Definition user_findUnique_id (uid : string) : M (option User) :=
  fun w => (Return (find (fun u => String.eqb (id u) uid) (users w)), w).

Definition user_findUnique_stripeCustomerId (cid : string) : M (option User) :=
  fun w => (Return (find (fun u => opt_eqb (stripeCustomerId u) cid) (users w)), w).

(** [prisma.user.findFirst({ where: { januaCustomerId } })]. *)
Definition user_findFirst_januaCustomerId (cid : string) : M (option User) :=
  fun w => (Return (find (fun u => opt_eqb (januaCustomerId u) cid) (users w)), w).

(** The [data] argument of [prisma.user.update]: a field that is absent
    is left alone; a present field is written, [None] writing [null]. *)
Record UserData : Type := {
  set_subscriptionTier : option string;
  set_subscriptionStartedAt : option (option Z);
  set_subscriptionExpiresAt : option (option Z);
  set_stripeCustomerId : option (option string);
  set_stripeSubscriptionId : option (option string);
  set_januaCustomerId : option (option string);
  set_billingProvider : option (option string)
}.

Definition written {A : Type} (new : option A) (old : A) : A :=
  match new with Some v => v | None => old end.

Definition apply_data (d : UserData) (u : User) : User :=
  {| id := id u; email := email u; name := name u;
     countryCode := countryCode u;
     subscriptionTier := written (set_subscriptionTier d) (subscriptionTier u);
     subscriptionStartedAt :=
       written (set_subscriptionStartedAt d) (subscriptionStartedAt u);
     subscriptionExpiresAt :=
       written (set_subscriptionExpiresAt d) (subscriptionExpiresAt u);
     stripeCustomerId := written (set_stripeCustomerId d) (stripeCustomerId u);
     stripeSubscriptionId :=
       written (set_stripeSubscriptionId d) (stripeSubscriptionId u);
     januaCustomerId := written (set_januaCustomerId d) (januaCustomerId u);
     billingProvider := written (set_billingProvider d) (billingProvider u) |}.

Definition update_where_id (uid : string) (d : UserData) (us : list User)
    : list User :=
  map (fun u => if String.eqb (id u) uid then apply_data d u else u) us.

(** [prisma.user.update({ where: { id }, data })]; Prisma rejects when no
    row has that id. *)
Definition user_update (uid : string) (d : UserData) : M unit :=
  fun w =>
    if existsb (fun u => String.eqb (id u) uid) (users w) then
      (Return tt,
       {| users := update_where_id uid d (users w);
          billingEvents := billingEvents w;
          usageMetrics := usageMetrics w; auditLog := auditLog w;
          logs := logs w; outbound := outbound w |})
    else (Throw (Error "Record to update not found."), w).

(** [prisma.user.update] given, for the named field, a value that is not
    of the field's type (here a function or a plain object where the schema
    has a tier name): the client validates [data] before any query is sent
    and throws.  The message is Prisma's own text; no statement below
    depends on it. *)
Definition user_update_rejected (field : string) : M unit :=
  throw (PrismaClientValidationError
           ("Invalid value provided for argument " ++ field)).

(** [prisma.billingEvent.create({ data })]: one more row in the ledger. *)
Definition billingEvent_create (e : BillingEvent) : M unit :=
  fun w => (Return tt,
            {| users := users w; billingEvents := billingEvents w ++ [e];
               usageMetrics := usageMetrics w; auditLog := auditLog w;
               logs := logs w; outbound := outbound w |}).

(** *** String helpers used by the service and the controller *)

Definition toUpperChar (c : ascii) : ascii :=
  let n := N_of_ascii c in
  if ((97 <=? n) && (n <=? 122))%N then ascii_of_N (n - 32) else c.

Fixpoint toUpperCase (s : string) : string :=
  match s with
  | EmptyString => EmptyString
  | String c r => String (toUpperChar c) (toUpperCase r)
  end.

(** [/suffix$/.test(s)] for a literal suffix. *)
Definition endsWith (suffix s : string) : bool :=
  let n := String.length suffix in
  let m := String.length s in
  (n <=? m)%nat && String.eqb (substring (m - n) n s) suffix.

Definition isDigit (c : ascii) : bool :=
  let n := N_of_ascii c in ((48 <=? n) && (n <=? 57))%N.

(** [/^localhost(:\d+)?$/.test(s)]. *)
Definition isLocalhost (s : string) : bool :=
  String.eqb s "localhost"
  || (String.eqb (substring 0 10 s) "localhost:"
      && (10 <? String.length s)%nat
      && forallb isDigit
           (list_ascii_of_string (substring 10 (String.length s - 10) s))).

(** [config.get(key, defaultValue)]. *)
Definition config_get (o : option string) (default : string) : string :=
  match o with Some v => v | None => default end.

Definition or_zero (o : option Z) : Z :=
  match o with Some v => v | None => 0 end.

(** [(cents || 0) / 100]. *)
Definition major_units (cents : option Z) : Q := Qmake (or_zero cents) 100.

(** *** Usage limits per tier *)

Inductive Limit : Type := Finite (n : Z) | Infinity.

Definition usageLimits_community (m : UsageMetricType) : Limit :=
  match m with
  | esg_calculation => Finite 5
  | monte_carlo_simulation => Finite 2
  | goal_probability => Finite 0
  | scenario_analysis => Finite 0
  | portfolio_rebalance => Finite 0
  | api_request => Finite 500
  end.

Definition usageLimits_essentials (m : UsageMetricType) : Limit :=
  match m with
  | esg_calculation => Finite 20
  | monte_carlo_simulation => Finite 10
  | goal_probability => Finite 5
  | scenario_analysis => Finite 3
  | portfolio_rebalance => Finite 0
  | api_request => Finite 5000
  end.

Definition usageLimits_pro (m : UsageMetricType) : Limit := Infinity.

(** The own entries of [this.usageLimits]. *)
Definition usageLimits (tier : string) : option (UsageMetricType -> Limit) :=
  if String.eqb tier "community" then Some usageLimits_community
  else if String.eqb tier "essentials" then Some usageLimits_essentials
  else if String.eqb tier "pro" then Some usageLimits_pro
  else None.

(** [this.usageLimits[tier]?.[metricType] ??
     this.usageLimits.community[metricType]], with
    [tier = user.subscriptionTier || 'community'].  For a [tier] that names
    a member of [Object.prototype] the first read answers that member,
    which has no property named after a metric: the second read is
    [undefined] and the community entry is taken, as for a tier the table
    does not know. *)
Definition limit_for (subscriptionTier : string) (m : UsageMetricType) : Limit :=
  let tier := or_else (Some subscriptionTier) "community" in
  match usageLimits tier with
  | Some table => table m
  | None => usageLimits_community m
  end.

(** The own properties of [{ community: 0, essentials: 1, pro: 2 }]. *)
Definition tierRank_own (key : string) : option Z :=
  if String.eqb key "community" then Some 0
  else if String.eqb key "essentials" then Some 1
  else if String.eqb key "pro" then Some 2
  else None.

(** [tierRank[key]] in [upgradeToPremium]. *)
Definition tierRank (key : string) : option (Member Z) :=
  lookup tierRank_own key.

(** The own properties of [PLAN_TIER_MAP]. *)
Definition PLAN_TIER_MAP_own (plan : string) : option string :=
  if String.eqb plan "essentials" then Some "essentials"
  else if String.eqb plan "essentials_yearly" then Some "essentials"
  else if String.eqb plan "pro" then Some "pro"
  else if String.eqb plan "pro_yearly" then Some "pro"
  else None.

(** [this.PLAN_TIER_MAP[plan]]. *)
Definition PLAN_TIER_MAP (plan : string) : option (Member string) :=
  lookup PLAN_TIER_MAP_own plan.

Definition metric_index (m : UsageMetricType) : Z :=
  match m with
  | esg_calculation => 0
  | monte_carlo_simulation => 1
  | goal_probability => 2
  | scenario_analysis => 3
  | portfolio_rebalance => 4
  | api_request => 5
  end.

Definition metric_eqb (a b : UsageMetricType) : bool :=
  metric_index a =? metric_index b.

(** The unique key [userId_metricType_date]. *)
Definition usage_key (uid : string) (m : UsageMetricType) (date : Z)
    (r : UsageMetric) : bool :=
  String.eqb (um_userId r) uid && metric_eqb (um_metricType r) m
  && (um_date r =? date).

(** [prisma.usageMetric.upsert]: increment the row with that key, or
    create it with count 1. *)
Fixpoint upsert_increment (uid : string) (m : UsageMetricType) (date : Z)
    (rows : list UsageMetric) : list UsageMetric :=
  match rows with
  | [] => [{| um_userId := uid; um_metricType := m; um_date := date;
              um_count := 1 |}]
  | r :: rest =>
      if usage_key uid m date r
      then {| um_userId := um_userId r; um_metricType := um_metricType r;
              um_date := um_date r; um_count := um_count r + 1 |} :: rest
      else r :: upsert_increment uid m date rest
  end.

Definition usageMetric_upsert (uid : string) (m : UsageMetricType) (date : Z)
    : M unit :=
  fun w => (Return tt,
            {| users := users w; billingEvents := billingEvents w;
               usageMetrics := upsert_increment uid m date (usageMetrics w);
               auditLog := auditLog w; logs := logs w;
               outbound := outbound w |}).

Definition usageMetric_findUnique (uid : string) (m : UsageMetricType)
    (date : Z) : M (option UsageMetric) :=
  fun w => (Return (find (usage_key uid m date) (usageMetrics w)), w).

Section Service.
Variable cfg : Config.
Variable out : Outside.

(** *** stripe.service.ts *)

Definition StripeService_createCustomer (email name userId : string)
    : M string :=
  logger log_info [Txt "Creating Stripe customer for email: "; Txt email] ;;
  send (StripeCreateCustomer email name userId) ;;
  lift (stripe_customers_create out email name).

Definition StripeService_createCheckoutSession (customerId : string)
    (priceId : option string) (successUrl cancelUrl : string)
    (md : Metadata) : M StripeSession :=
  logger log_info [Txt "Creating checkout session for customer: "; Txt customerId] ;;
  send (StripeCreateCheckoutSession customerId (or_else priceId "")
          successUrl cancelUrl md) ;;
  lift (stripe_sessions_create out customerId priceId).

Definition StripeService_retrieveCheckoutSession (sessionId : string)
    : M (option string) :=
  send (StripeRetrieveCheckoutSession sessionId) ;;
  lift (stripe_sessions_retrieve out sessionId).

Definition StripeService_constructWebhookEvent
    (payload signature secret : string) : M StripeEvent :=
  try_catch (lift (stripe_constructEvent out payload signature secret))
    (fun error =>
       logger log_error
         [Txt "Webhook signature verification failed: "; Txt (message error)] ;;
       throw error).

(** *** janua-billing.service.ts *)

Definition JanuaBilling_isEnabled : bool :=
  JANUA_BILLING_ENABLED cfg && truthy (JANUA_API_KEY cfg).

Definition getProviderForCountry (countryCode : string) : string :=
  if String.eqb countryCode "MX" then "conekta" else "polar".

Definition JanuaBilling_createCustomer (email name countryCode : string)
    (orgId : option string) : M (string * string) :=
  if negb JanuaBilling_isEnabled
  then throw (Error "Janua billing not enabled")
  else
    let provider := getProviderForCountry countryCode in
    send (JanuaCreateCustomer email name countryCode provider orgId) ;;
    match janua_post_customers out email countryCode with
    | NetworkError e => throw e
    | HttpNotOk error =>
        logger log_error [Txt "Janua customer creation failed: "; Txt error] ;;
        throw (Error ("Failed to create customer: " ++ error))
    | HttpOk customer_id =>
        logger log_info [Txt "Created customer via Janua ("; Txt provider;
                         Txt "): "; Txt customer_id] ;;
        ret (customer_id, provider)
    end.

Definition JanuaBilling_createCheckoutSession
    (customerId customerEmail priceId countryCode successUrl cancelUrl : string)
    (orgId : option string) (md : Metadata)
    : M (JanuaCheckout * string) :=
  if negb JanuaBilling_isEnabled
  then throw (Error "Janua billing not enabled")
  else
    let provider := getProviderForCountry countryCode in
    send (JanuaCreateCheckout customerId customerEmail
            ("dhanam_" ++ priceId) countryCode provider orgId
            successUrl cancelUrl md) ;;
    match janua_post_checkout out customerId ("dhanam_" ++ priceId) with
    | NetworkError e => throw e
    | HttpNotOk error =>
        logger log_error [Txt "Janua checkout creation failed: "; Txt error] ;;
        throw (Error ("Failed to create checkout: " ++ error))
    | HttpOk data =>
        logger log_info [Txt "Created checkout session via Janua (";
                         Txt provider; Txt "): "; Txt (janua_session_id data)] ;;
        ret (data, provider)
    end.

(** *** billing.service.ts: upgrade and checkout *)

Record UpgradeOptions : Type := {
  orgId : option string;
  plan : option string;
  successUrl : option string;
  cancelUrl : option string;
  opt_countryCode : option string
}.

Record CheckoutResult : Type := { checkoutUrl : string; provider : string }.

Definition org_metadata (o : option string) : Metadata :=
  if truthy o then [("orgId", o)] else [].

Definition upgradeToPremiumViaJanua (user : User)
    (countryCode webUrl : string) (options : UpgradeOptions)
    : M CheckoutResult :=
  customerId <-
    (if truthy (januaCustomerId user) then ret (or_else (januaCustomerId user) "")
     else
       result <- JanuaBilling_createCustomer (email user) (name user)
                   countryCode (orgId options) ;;
       user_update (id user)
         {| set_subscriptionTier := None; set_subscriptionStartedAt := None;
            set_subscriptionExpiresAt := None; set_stripeCustomerId := None;
            set_stripeSubscriptionId := None;
            set_januaCustomerId := Some (Some (fst result));
            set_billingProvider := Some (Some (snd result)) |} ;;
       ret (fst result)) ;;
  let md := ("userId", Some (id user)) :: org_metadata (orgId options) in
  result <- JanuaBilling_createCheckoutSession customerId (email user)
              (or_else (plan options) "pro") countryCode
              (or_else (successUrl options)
                 (webUrl ++ "/billing/success?session_id={CHECKOUT_SESSION_ID}"))
              (or_else (cancelUrl options) (webUrl ++ "/billing/cancel"))
              (orgId options) md ;;
  audit_log {| audit_userId := id user;
               audit_action := "BILLING_UPGRADE_INITIATED";
               audit_severity := "medium";
               audit_metadata :=
                 [("sessionId", Txt (janua_session_id (fst result)));
                  ("provider", Txt (snd result));
                  ("orgId", Opt (orgId options)); ("plan", Opt (plan options))] |} ;;
  logger log_info
    ([Txt "Upgrade initiated via Janua ("; Txt (snd result);
      Txt ") for user "; Txt (id user)]
     ++ (if truthy (orgId options)
         then [Txt " (org: "; Opt (orgId options); Txt ")"] else [])) ;;
  ret {| checkoutUrl := checkout_url (fst result); provider := snd result |}.

Definition upgradeToPremiumViaStripe (user : User) (webUrl : string)
    (options : UpgradeOptions) : M CheckoutResult :=
  customerId <-
    (if truthy (stripeCustomerId user)
     then ret (or_else (stripeCustomerId user) "")
     else
       customer <- StripeService_createCustomer (email user) (name user)
                     (id user) ;;
       user_update (id user)
         {| set_subscriptionTier := None; set_subscriptionStartedAt := None;
            set_subscriptionExpiresAt := None;
            set_stripeCustomerId := Some (Some customer);
            set_stripeSubscriptionId := None; set_januaCustomerId := None;
            set_billingProvider := None |} ;;
       ret customer) ;;
  let plan := or_else (plan options) "pro" in
  let priceId := if String.eqb plan "essentials"
                 then STRIPE_ESSENTIALS_PRICE_ID cfg
                 else STRIPE_PREMIUM_PRICE_ID cfg in
  if negb (truthy priceId)
  then throw (Error ("No Stripe price configured for plan: " ++ plan))
  else
    let md := [("userId", Some (id user)); ("plan", Some plan)]
              ++ org_metadata (orgId options) in
    session <- StripeService_createCheckoutSession customerId priceId
                 (or_else (successUrl options)
                    (webUrl ++ "/billing/success?session_id={CHECKOUT_SESSION_ID}"))
                 (or_else (cancelUrl options) (webUrl ++ "/billing/cancel"))
                 md ;;
    audit_log {| audit_userId := id user;
                 audit_action := "BILLING_UPGRADE_INITIATED";
                 audit_severity := "medium";
                 audit_metadata :=
                   [("sessionId", Txt (session_id session));
                    ("provider", Txt "stripe"); ("orgId", Opt (orgId options))] |} ;;
    logger log_info [Txt "Upgrade initiated via Stripe for user "; Txt (id user);
                     Txt ", session: "; Txt (session_id session)] ;;
    ret {| checkoutUrl := session_url session; provider := "stripe" |}.

(** [currentRank] and [requestedRank] of [upgradeToPremium]:
    [tierRank[currentUser.subscriptionTier] ?? 0] and
    [tierRank[options.plan || 'pro'] ?? 2]. *)
Definition currentRank (u : User) : Member Z :=
  nullish_or (tierRank (subscriptionTier u)) 0.

Definition requestedRank (options : UpgradeOptions) : Member Z :=
  nullish_or (tierRank (or_else (plan options) "pro")) 2.

Definition upgradeToPremium (userId : string) (options : UpgradeOptions)
    : M CheckoutResult :=
  let countryCode := or_else (opt_countryCode options) "US" in
  user <- user_findUnique_id userId ;;
  match user with
  | None => throw (Error "User not found")
  | Some user =>
      currentUser <- user_findUnique_id userId ;;
      let current := match currentUser with
                     | Some cu => currentRank cu
                     | None => Own 0
                     end in
      if geb current (requestedRank options) then
        throw (Error ("User is already on "
                      ++ match currentUser with
                         | Some cu => subscriptionTier cu
                         | None => "undefined"
                         end ++ " tier"))
      else
        let webUrl := config_get (WEB_URL cfg) "http://localhost:3000" in
        if JanuaBilling_isEnabled
        then upgradeToPremiumViaJanua user countryCode webUrl options
        else upgradeToPremiumViaStripe user webUrl options
  end.

(** [createExternalCheckout(userId, plan, returnUrl)]. *)
Definition createExternalCheckout (userId plan returnUrl : string)
    : M string :=
  user <- user_findUnique_id userId ;;
  match user with
  | None => throw (NotFoundException "User not found")
  | Some user =>
      let countryCode := or_else (countryCode user) "US" in
      let webUrl := config_get (WEB_URL cfg) "http://localhost:3000" in
      if JanuaBilling_isEnabled then
        result <- upgradeToPremiumViaJanua user countryCode webUrl
                    {| orgId := None; plan := Some plan;
                       successUrl := Some returnUrl;
                       cancelUrl := Some returnUrl;
                       opt_countryCode := None |} ;;
        ret (checkoutUrl result)
      else
        customerId <-
          (if truthy (stripeCustomerId user)
           then ret (or_else (stripeCustomerId user) "")
           else
             customer <- StripeService_createCustomer (email user)
                           (name user) (id user) ;;
             user_update (id user)
               {| set_subscriptionTier := None;
                  set_subscriptionStartedAt := None;
                  set_subscriptionExpiresAt := None;
                  set_stripeCustomerId := Some (Some customer);
                  set_stripeSubscriptionId := None;
                  set_januaCustomerId := None;
                  set_billingProvider := None |} ;;
             ret customer) ;;
        let priceId := if String.eqb plan "essentials"
                       then STRIPE_ESSENTIALS_PRICE_ID cfg
                       else STRIPE_PREMIUM_PRICE_ID cfg in
        session <- StripeService_createCheckoutSession customerId priceId
                     returnUrl returnUrl
                     [("janua_user_id", Some userId); ("plan", Some plan);
                      ("source", Some "external")] ;;
        audit_log {| audit_userId := id user;
                     audit_action := "BILLING_UPGRADE_INITIATED";
                     audit_severity := "medium";
                     audit_metadata :=
                       [("sessionId", Txt (session_id session));
                        ("provider", Txt "stripe"); ("plan", Txt plan);
                        ("source", Txt "external")] |} ;;
        ret (session_url session)
  end.

(** *** billing.service.ts: usage metering *)

Definition MS_PER_DAY : Z := 86400000.

(** [const today = new Date(); today.setHours(0, 0, 0, 0)]: midnight of
    the current day in the process's local time zone, as an instant.  As
    ECMAScript computes it: the local time of [now], cut to the start of
    its day, taken back to UTC with the offset in effect at that local
    midnight. *)
Definition setHours0 (now : Z) : Z :=
  let localTime := now + LocalTZA_at_utc cfg now in
  let localMidnight := localTime - localTime mod MS_PER_DAY in
  localMidnight - LocalTZA_at_local cfg localMidnight.

Definition recordUsage (userId : string) (metricType : UsageMetricType)
    (now : Z) : M unit :=
  let today := setHours0 now in
  usageMetric_upsert userId metricType today.

Definition checkUsageLimit (userId : string) (metricType : UsageMetricType)
    (now : Z) : M bool :=
  user <- user_findUnique_id userId ;;
  match user with
  | None => ret false
  | Some user =>
      if String.eqb (subscriptionTier user) "pro" then ret true
      else
        match limit_for (subscriptionTier user) metricType with
        | Infinity => ret true
        | Finite limit =>
            if limit =? 0 then ret false
            else
              let today := setHours0 now in
              usage <- usageMetric_findUnique userId metricType today ;;
              let currentCount := match usage with
                                  | Some r => um_count r
                                  | None => 0
                                  end in
              ret (currentCount <? limit)
        end
  end.

(** *** billing.service.ts: Stripe webhook handlers *)

(** The synchronous part of [dispatchJanuaRoleUpgrade]: everything up
    to and including the [fetch] call.  The caller does not await the
    promise, so the response is handled after the caller has moved on;
    that part only writes log lines. *)
Definition dispatchJanuaRoleUpgrade (januaUserId : string)
    (productId : option string) : M unit :=
  if negb (truthy (JANUA_API_URL cfg)) || negb (truthy (JANUA_ADMIN_KEY cfg))
  then logger log_warn
         [Txt "Cannot dispatch Janua role upgrade: missing JANUA_API_URL or JANUA_ADMIN_KEY"]
  else
    let foundryProductId :=
      config_get (STRIPE_FOUNDRY_PRODUCT_ID cfg) "prod_foundry" in
    let role := if truthy productId && opt_eqb productId foundryProductId
                then Some "foundry_tier" else None in
    match role with
    | None =>
        logger log_info [Txt "No Janua role mapping for product ";
                         Txt (config_get productId "unknown");
                         Txt ", skipping dispatch"]
    | Some role =>
        send (JanuaAddRole (or_else (JANUA_API_URL cfg) "") januaUserId role)
    end.

Definition user_not_found (customerId : string) : M unit :=
  logger log_error [Txt "User not found for Stripe customer: "; Txt customerId].

Definition handleSubscriptionCreated (eventId : string)
    (subscription : Subscription) : M unit :=
  let customerId := sub_customer subscription in
  user <- user_findUnique_stripeCustomerId customerId ;;
  match user with
  | None => user_not_found customerId
  | Some user =>
      user_update (id user)
        {| set_subscriptionTier := Some "pro";
           set_subscriptionStartedAt :=
             Some (Some (current_period_start subscription * 1000));
           set_subscriptionExpiresAt :=
             Some (Some (current_period_end subscription * 1000));
           set_stripeCustomerId := None;
           set_stripeSubscriptionId := Some (Some (sub_id subscription));
           set_januaCustomerId := None; set_billingProvider := None |} ;;
      item0 <- match items_data subscription with
               | i :: _ => ret i
               | [] => throw (TypeError
                         "Cannot read properties of undefined (reading 'price')")
               end ;;
      billingEvent_create
        {| userId := id user; type := subscription_created;
           amount := major_units (price_unit_amount item0);
           currency := or_else (Some (toUpperCase (sub_currency subscription))) "USD";
           status := succeeded; stripeEventId := eventId;
           metadata := [("subscriptionId", Some (sub_id subscription))] |} ;;
      audit_log {| audit_userId := id user;
                   audit_action := "SUBSCRIPTION_ACTIVATED";
                   audit_severity := "high";
                   audit_metadata :=
                     [("tier", Txt "pro");
                      ("subscriptionId", Txt (sub_id subscription))] |} ;;
      (if truthy (sub_metadata_janua_user_id subscription)
       then dispatchJanuaRoleUpgrade
              (or_else (sub_metadata_janua_user_id subscription) "")
              (price_product item0)
       else ret tt) ;;
      logger log_info [Txt "Subscription created for user "; Txt (id user)]
  end.

Definition handleSubscriptionUpdated (eventId : string)
    (subscription : Subscription) : M unit :=
  let customerId := sub_customer subscription in
  user <- user_findUnique_stripeCustomerId customerId ;;
  match user with
  | None => user_not_found customerId
  | Some user =>
      user_update (id user)
        {| set_subscriptionTier := None; set_subscriptionStartedAt := None;
           set_subscriptionExpiresAt :=
             Some (Some (current_period_end subscription * 1000));
           set_stripeCustomerId := None; set_stripeSubscriptionId := None;
           set_januaCustomerId := None; set_billingProvider := None |} ;;
      logger log_info [Txt "Subscription updated for user "; Txt (id user)]
  end.

Definition handleSubscriptionCancelled (eventId : string)
    (subscription : Subscription) : M unit :=
  let customerId := sub_customer subscription in
  user <- user_findUnique_stripeCustomerId customerId ;;
  match user with
  | None => user_not_found customerId
  | Some user =>
      user_update (id user)
        {| set_subscriptionTier := Some "community";
           set_subscriptionStartedAt := None;
           set_subscriptionExpiresAt := Some None;
           set_stripeCustomerId := None;
           set_stripeSubscriptionId := Some None;
           set_januaCustomerId := None; set_billingProvider := None |} ;;
      billingEvent_create
        {| userId := id user; type := subscription_cancelled;
           amount := 0%Q; currency := "USD"; status := succeeded;
           stripeEventId := eventId;
           metadata := [("subscriptionId", Some (sub_id subscription))] |} ;;
      audit_log {| audit_userId := id user;
                   audit_action := "SUBSCRIPTION_CANCELLED";
                   audit_severity := "medium";
                   audit_metadata :=
                     [("subscriptionId", Txt (sub_id subscription))] |} ;;
      logger log_info [Txt "Subscription cancelled for user "; Txt (id user)]
  end.

Definition handlePaymentSucceeded (eventId : string) (invoice : Invoice)
    : M unit :=
  let customerId := inv_customer invoice in
  user <- user_findUnique_stripeCustomerId customerId ;;
  match user with
  | None => user_not_found customerId
  | Some user =>
      billingEvent_create
        {| userId := id user; type := payment_succeeded;
           amount := major_units (amount_paid invoice);
           currency := or_else (Some (toUpperCase (inv_currency invoice))) "USD";
           status := succeeded; stripeEventId := eventId;
           metadata := [("invoiceId", Some (inv_id invoice));
                        ("subscriptionId", inv_subscription invoice)] |} ;;
      logger log_info [Txt "Payment succeeded for user "; Txt (id user);
                       Txt ", amount: "; Cents (amount_paid invoice)]
  end.

Definition handlePaymentFailed (eventId : string) (invoice : Invoice)
    : M unit :=
  let customerId := inv_customer invoice in
  user <- user_findUnique_stripeCustomerId customerId ;;
  match user with
  | None => user_not_found customerId
  | Some user =>
      billingEvent_create
        {| userId := id user; type := payment_failed;
           amount := major_units (amount_due invoice);
           currency := or_else (Some (toUpperCase (inv_currency invoice))) "USD";
           status := failed; stripeEventId := eventId;
           metadata := [("invoiceId", Some (inv_id invoice));
                        ("subscriptionId", inv_subscription invoice)] |} ;;
      audit_log {| audit_userId := id user;
                   audit_action := "PAYMENT_FAILED";
                   audit_severity := "high";
                   audit_metadata := [("amount", Cents (amount_due invoice));
                                       ("invoiceId", Txt (inv_id invoice))] |} ;;
      logger log_warn [Txt "Payment failed for user "; Txt (id user);
                       Txt ", amount: "; Cents (amount_due invoice)]
  end.

(** [(plan && this.PLAN_TIER_MAP[plan]) || 'pro']: an own entry is a
    tier name; an inherited member is truthy, so it is what the
    expression evaluates to. *)
Definition checkout_tier (plan : option string) : Member string :=
  if truthy plan then
    match PLAN_TIER_MAP (or_else plan "") with
    | Some (Own tier) => Own (or_else (Some tier) "pro")
    | Some (Proto key) => Proto key
    | None => Own "pro"
    end
  else Own "pro".

Definition handleCheckoutCompleted (eventId : string)
    (session : CheckoutSession) (now : Z) : M unit :=
  let januaUserId := metadata_janua_user_id session in
  let plan := metadata_plan session in
  if negb (truthy januaUserId) then
    logger log_info
      [Txt "checkout.session.completed without janua_user_id metadata, skipping"]
  else
    let januaUserId := or_else januaUserId "" in
    user <- user_findUnique_id januaUserId ;;
    match user with
    | None =>
        logger log_error [Txt "User not found for janua_user_id: "; Txt januaUserId]
    | Some user =>
        match checkout_tier plan with
        | Proto _ => user_update_rejected "subscriptionTier"
        | Own tier =>
            user_update (id user)
              {| set_subscriptionTier := Some tier;
                 set_subscriptionStartedAt := Some (Some now);
                 set_subscriptionExpiresAt := None;
                 set_stripeCustomerId :=
                   Some (if truthy (cs_customer session) then cs_customer session
                         else stripeCustomerId user);
                 set_stripeSubscriptionId := None;
                 set_januaCustomerId := None; set_billingProvider := None |} ;;
            billingEvent_create
              {| userId := id user; type := subscription_created;
                 amount := major_units (amount_total session);
                 currency :=
                   or_else (option_map toUpperCase (cs_currency session)) "USD";
                 status := succeeded; stripeEventId := eventId;
                 metadata := [("plan", plan); ("source", metadata_source session)] |} ;;
            productId <-
              try_catch (StripeService_retrieveCheckoutSession (cs_id session))
                (fun err =>
                   logger log_warn
                     [Txt "Failed to retrieve checkout session line_items: ";
                      Txt (message err)] ;;
                   ret None) ;;
            dispatchJanuaRoleUpgrade januaUserId productId ;;
            logger log_info [Txt "Checkout completed for user "; Txt (id user);
                             Txt ", tier: "; Txt tier]
        end
    end.

(** *** billing.service.ts: Janua webhook handlers *)

(** [value || 0] on an optional amount. *)
Definition amount_or_zero (a : option Q) : Q :=
  match a with
  | Some q => q
  | None => 0%Q
  end.

(** [notifyJanuaOfTierChange(orgId, customerId, planId)]: a signed POST to
    the identity system; every failure ends in a log line. *)
Definition notifyJanuaOfTierChange (orgId customerId : string)
    (planId : option string) : M unit :=
  if negb (truthy (JANUA_API_URL cfg)) || negb (truthy (DHANAM_WEBHOOK_SECRET cfg))
  then logger log_warn
         [Txt "Cannot notify Janua: missing JANUA_API_URL or DHANAM_WEBHOOK_SECRET"]
  else
    send (JanuaTierChange (or_else (JANUA_API_URL cfg) "") orgId customerId planId) ;;
    match janua_post_tier_change out orgId customerId planId with
    | HttpOk _ =>
        logger log_info [Txt "Notified Janua of tier change for org "; Txt orgId;
                         Txt " (plan: "; Opt planId; Txt ")"]
    | HttpNotOk errorText =>
        logger log_error [Txt "Failed to notify Janua of tier change: ";
                          Txt errorText]
    | NetworkError e =>
        logger log_error [Txt "Error notifying Janua of tier change: ";
                          Txt (message e)]
    end.

Definition janua_user_not_found (customerId : string) : M unit :=
  logger log_warn [Txt "User not found for Janua customer: "; Txt customerId].

Definition handleJanuaSubscriptionCreated (payload : JanuaPayload) (now : Z)
    : M unit :=
  let data := payload_data payload in
  user <- user_findFirst_januaCustomerId (customer_id data) ;;
  match user with
  | None => janua_user_not_found (customer_id data)
  | Some user =>
      user_update (id user)
        {| set_subscriptionTier := Some "pro";
           set_subscriptionStartedAt := Some (Some now);
           set_subscriptionExpiresAt := None;
           set_stripeCustomerId := None; set_stripeSubscriptionId := None;
           set_januaCustomerId := None;
           set_billingProvider := option_map Some (data_provider data) |} ;;
      billingEvent_create
        {| userId := id user; type := subscription_created;
           amount := 0%Q;
           currency := or_else (data_currency data) "USD";
           status := succeeded; stripeEventId := payload_id payload;
           metadata := [("subscription_id", subscription_id data);
                        ("plan_id", plan_id data);
                        ("provider", data_provider data)] |} ;;
      logger log_info [Txt "Janua subscription created for user "; Txt (id user);
                       Txt " via "; Opt (data_provider data)] ;;
      if truthy (data_metadata_orgId data)
      then notifyJanuaOfTierChange (or_else (data_metadata_orgId data) "")
             (customer_id data) (plan_id data)
      else ret tt
  end.

Definition handleJanuaSubscriptionUpdated (payload : JanuaPayload) : M unit :=
  let data := payload_data payload in
  user <- user_findFirst_januaCustomerId (customer_id data) ;;
  match user with
  | None => janua_user_not_found (customer_id data)
  | Some user =>
      let tier := if opt_eqb (data_status data) "active"
                  then "pro" else "community" in
      user_update (id user)
        {| set_subscriptionTier := Some tier;
           set_subscriptionStartedAt := None; set_subscriptionExpiresAt := None;
           set_stripeCustomerId := None; set_stripeSubscriptionId := None;
           set_januaCustomerId := None; set_billingProvider := None |} ;;
      logger log_info [Txt "Janua subscription updated for user "; Txt (id user);
                       Txt ": "; Opt (data_status data)]
  end.

Definition handleJanuaSubscriptionCancelled (payload : JanuaPayload) (now : Z)
    : M unit :=
  let data := payload_data payload in
  user <- user_findFirst_januaCustomerId (customer_id data) ;;
  match user with
  | None => janua_user_not_found (customer_id data)
  | Some user =>
      user_update (id user)
        {| set_subscriptionTier := Some "community";
           set_subscriptionStartedAt := None;
           set_subscriptionExpiresAt := Some (Some now);
           set_stripeCustomerId := None; set_stripeSubscriptionId := None;
           set_januaCustomerId := None; set_billingProvider := None |} ;;
      billingEvent_create
        {| userId := id user; type := subscription_cancelled;
           amount := 0%Q;
           currency := or_else (data_currency data) "USD";
           status := succeeded; stripeEventId := payload_id payload;
           metadata := [("provider", data_provider data)] |} ;;
      logger log_info [Txt "Janua subscription cancelled for user "; Txt (id user)]
  end.

Definition handleJanuaSubscriptionPaused (payload : JanuaPayload) : M unit :=
  user <- user_findFirst_januaCustomerId (customer_id (payload_data payload)) ;;
  match user with
  | None => ret tt
  | Some user =>
      logger log_info [Txt "Janua subscription paused for user "; Txt (id user)]
  end.

Definition handleJanuaSubscriptionResumed (payload : JanuaPayload) : M unit :=
  user <- user_findFirst_januaCustomerId (customer_id (payload_data payload)) ;;
  match user with
  | None => ret tt
  | Some user =>
      user_update (id user)
        {| set_subscriptionTier := Some "pro";
           set_subscriptionStartedAt := None; set_subscriptionExpiresAt := None;
           set_stripeCustomerId := None; set_stripeSubscriptionId := None;
           set_januaCustomerId := None; set_billingProvider := None |} ;;
      logger log_info [Txt "Janua subscription resumed for user "; Txt (id user)]
  end.

Definition janua_ledger_row (user : User) (payload : JanuaPayload)
    (t : BillingEventType) (st : BillingStatus) : BillingEvent :=
  let data := payload_data payload in
  {| userId := id user; type := t;
     amount := amount_or_zero (data_amount data);
     currency := or_else (data_currency data) "USD";
     status := st; stripeEventId := payload_id payload;
     metadata := [("provider", data_provider data)] |}.

Definition handleJanuaPaymentSucceeded (payload : JanuaPayload) : M unit :=
  let data := payload_data payload in
  user <- user_findFirst_januaCustomerId (customer_id data) ;;
  match user with
  | None => janua_user_not_found (customer_id data)
  | Some user =>
      billingEvent_create (janua_ledger_row user payload payment_succeeded succeeded) ;;
      user_update (id user)
        {| set_subscriptionTier := Some "pro";
           set_subscriptionStartedAt := None; set_subscriptionExpiresAt := None;
           set_stripeCustomerId := None; set_stripeSubscriptionId := None;
           set_januaCustomerId := None; set_billingProvider := None |} ;;
      logger log_info [Txt "Janua payment succeeded for user "; Txt (id user);
                       Txt ": "; Opt (data_currency data); Txt " ";
                       Num (data_amount data)]
  end.

Definition handleJanuaPaymentFailed (payload : JanuaPayload) : M unit :=
  let data := payload_data payload in
  user <- user_findFirst_januaCustomerId (customer_id data) ;;
  match user with
  | None => janua_user_not_found (customer_id data)
  | Some user =>
      billingEvent_create (janua_ledger_row user payload payment_failed failed) ;;
      logger log_warn [Txt "Janua payment failed for user "; Txt (id user)]
  end.

Definition handleJanuaPaymentRefunded (payload : JanuaPayload) : M unit :=
  let data := payload_data payload in
  user <- user_findFirst_januaCustomerId (customer_id data) ;;
  match user with
  | None => ret tt
  | Some user =>
      billingEvent_create (janua_ledger_row user payload refund_issued succeeded) ;;
      logger log_info [Txt "Janua refund processed for user "; Txt (id user);
                       Txt ": "; Opt (data_currency data); Txt " ";
                       Num (data_amount data)]
  end.

(** [JanuaBillingService.verifyWebhookSignature(payload, signature)]: it
    compares with Node's [crypto.timingSafeEqual], which throws when the
    two buffers differ in length. *)
Definition JanuaBilling_verifyWebhookSignature (payload signature : string)
    : M bool :=
  let webhookSecret := config_get (JANUA_WEBHOOK_SECRET cfg) "" in
  if String.eqb webhookSecret "" then
    logger log_warn [Txt "JANUA_WEBHOOK_SECRET not configured"] ;;
    ret false
  else
    let expectedSignature := Webhook.createHmac_digest_hex webhookSecret payload in
    lift (Webhook.crypto_timingSafeEqual (charCodes signature)
            (charCodes expectedSignature)).

(** *** billing.controller.ts *)

Record WebhookResponse : Type := { received : bool; error : option string }.

(** The [switch (event.type)] of [handleWebhook]. *)
Definition dispatch_event (event : StripeEvent) (now : Z) : M unit :=
  match event_data event with
  | customer_subscription_created s =>
      handleSubscriptionCreated (event_id event) s
  | customer_subscription_updated s =>
      handleSubscriptionUpdated (event_id event) s
  | customer_subscription_deleted s =>
      handleSubscriptionCancelled (event_id event) s
  | invoice_payment_succeeded i => handlePaymentSucceeded (event_id event) i
  | invoice_payment_failed i => handlePaymentFailed (event_id event) i
  | checkout_session_completed c =>
      handleCheckoutCompleted (event_id event) c now
  | other_event t => logger log_info [Txt "Unhandled event type: "; Txt t]
  end.

(** [handleWebhook(req, signature)], with [body] the raw request body;
    [now] is what [new Date()] returns while the event is handled. *)
Definition handleWebhook (body signature : string) (now : Z)
    : M WebhookResponse :=
  let webhookSecret := STRIPE_WEBHOOK_SECRET cfg in
  if negb (truthy webhookSecret) then
    logger log_error [Txt "STRIPE_WEBHOOK_SECRET not configured"] ;;
    ret {| received := false; error := Some "Webhook secret not configured" |}
  else
    verified <-
      try_catch
        (event <- StripeService_constructWebhookEvent body signature
                    (or_else webhookSecret "") ;;
         ret (Some event))
        (fun err =>
           logger log_error
             [Txt "Webhook signature verification failed: "; Txt (message err)] ;;
           ret None) ;;
    match verified with
    | None => ret {| received := false; error := Some "Invalid signature" |}
    | Some event =>
        logger log_info [Txt "Received Stripe webhook: "; Txt (event_type event)] ;;
        try_catch
          (dispatch_event event now ;;
           ret {| received := true; error := None |})
          (fun err =>
             logger log_error [Txt "Error processing webhook: "; Txt (message err)] ;;
             ret {| received := false; error := Some (message err) |})
    end.

Record JanuaWebhookResponse : Type := {
  janua_received : bool;
  janua_error : option string;
  janua_event : option string
}.

Definition dispatch_janua (payload : JanuaPayload) (now : Z) : M unit :=
  match payload_type payload with
  | SUBSCRIPTION_CREATED => handleJanuaSubscriptionCreated payload now
  | SUBSCRIPTION_UPDATED => handleJanuaSubscriptionUpdated payload
  | SUBSCRIPTION_CANCELLED => handleJanuaSubscriptionCancelled payload now
  | SUBSCRIPTION_PAUSED => handleJanuaSubscriptionPaused payload
  | SUBSCRIPTION_RESUMED => handleJanuaSubscriptionResumed payload
  | PAYMENT_SUCCEEDED => handleJanuaPaymentSucceeded payload
  | PAYMENT_FAILED => handleJanuaPaymentFailed payload
  | PAYMENT_REFUNDED => handleJanuaPaymentRefunded payload
  | OTHER_JANUA_EVENT t =>
      logger log_info [Txt "Unhandled Janua event type: "; Txt t]
  end.

(** [handleJanuaWebhook(req, signature, payload)], with [rawBody] the text
    that is verified and [signature] the [x-janua-signature] header. *)
Definition handleJanuaWebhook (rawBody : string) (signature : option string)
    (payload : JanuaPayload) (now : Z) : M JanuaWebhookResponse :=
  valid <- JanuaBilling_verifyWebhookSignature rawBody (or_else signature "") ;;
  if negb valid then
    logger log_error [Txt "Janua webhook signature verification failed"] ;;
    ret {| janua_received := false; janua_error := Some "Invalid signature";
           janua_event := None |}
  else
    logger log_info [Txt "Received Janua webhook: ";
                     Txt (janua_event_name (payload_type payload));
                     Txt " from provider ";
                     Opt (data_provider (payload_data payload))] ;;
    try_catch
      (dispatch_janua payload now ;;
       ret {| janua_received := true; janua_error := None;
              janua_event := Some (janua_event_name (payload_type payload)) |})
      (fun err =>
         logger log_error [Txt "Error processing Janua webhook: ";
                           Txt (message err)] ;;
         ret {| janua_received := false; janua_error := Some (message err);
                janua_event := None |}).

Record CheckoutQuery : Type := {
  q_plan : string;
  q_user_id : string;
  q_return_url : string;
  q_product : option string
}.

Inductive Reply : Type := Redirect (status : Z) (location : string).

Definition allowedHosts : list (string -> bool) :=
  [endsWith ".madfam.io"; endsWith ".dhan.am"; endsWith ".enclii.com"]
  ++ (if opt_eqb (NODE_ENV cfg) "production" then [] else [isLocalhost]).

(** [publicCheckout(query, reply)]. *)
Definition publicCheckout (query : CheckoutQuery) : M Reply :=
  match URL_hostname out (q_return_url query) with
  | None => throw (BadRequestException "return_url is not a valid URL")
  | Some returnHost =>
      if negb (existsb (fun re => re returnHost) allowedHosts)
      then throw (BadRequestException "return_url host is not allowed")
      else
        checkoutUrl <- createExternalCheckout (q_user_id query)
                         (q_plan query) (q_return_url query) ;;
        ret (Redirect 302 checkoutUrl)
  end.

End Service.

End Billing.


(* ===================================================================== *)
(** ** Vocabulary of the statements, and the test suites' fixtures *)
(* ===================================================================== *)

Module Spec.
Import Js Billing.

(** The stored record of the subscriber with primary key [uid]. *)
Definition subscriber (uid : string) (w : World) : option User :=
  find (fun u => String.eqb (id u) uid) (users w).

(** The ledger rows written for provider event [eid]. *)
Definition ledger_rows_of (eid : string) (w : World) : list BillingEvent :=
  filter (fun e => String.eqb (stripeEventId e) eid) (billingEvents w).

(** One more line at the end of the log. *)
Definition logged (l : LogLevel) (ps : list Piece) (w : World) : World :=
  {| users := users w; billingEvents := billingEvents w;
     usageMetrics := usageMetrics w; auditLog := auditLog w;
     logs := logs w ++ [{| level := l; pieces := ps |}];
     outbound := outbound w |}.

(** [n] calls of [recordUsage] in a row, at the instants [times]. *)
Fixpoint recordUsage_each (cfg : Config) (uid : string) (m : UsageMetricType)
    (times : list Z) (w : World) : World :=
  match times with
  | [] => w
  | t :: rest => recordUsage_each cfg uid m rest (snd (recordUsage cfg uid m t w))
  end.

(** The UTC calendar day of an instant, as a day number. *)
Definition utc_day (t : Z) : Z := t / MS_PER_DAY.

(** What each handler writes into the user row. *)
Definition created_data (s : Subscription) : UserData :=
  {| set_subscriptionTier := Some "pro";
     set_subscriptionStartedAt := Some (Some (current_period_start s * 1000));
     set_subscriptionExpiresAt := Some (Some (current_period_end s * 1000));
     set_stripeCustomerId := None;
     set_stripeSubscriptionId := Some (Some (sub_id s));
     set_januaCustomerId := None; set_billingProvider := None |}.

Definition cancelled_data : UserData :=
  {| set_subscriptionTier := Some "community";
     set_subscriptionStartedAt := None;
     set_subscriptionExpiresAt := Some None;
     set_stripeCustomerId := None;
     set_stripeSubscriptionId := Some None;
     set_januaCustomerId := None; set_billingProvider := None |}.

Definition checkout_data (tier : string) (c : CheckoutSession) (u : User)
    (now : Z) : UserData :=
  {| set_subscriptionTier := Some tier;
     set_subscriptionStartedAt := Some (Some now);
     set_subscriptionExpiresAt := None;
     set_stripeCustomerId :=
       Some (if truthy (cs_customer c) then cs_customer c else stripeCustomerId u);
     set_stripeSubscriptionId := None;
     set_januaCustomerId := None; set_billingProvider := None |}.

(** The ledger row each handler appends. *)
Definition created_row (uid eid : string) (s : Subscription)
    (item0 : SubscriptionItem) : BillingEvent :=
  {| userId := uid; type := subscription_created;
     amount := major_units (price_unit_amount item0);
     currency := or_else (Some (toUpperCase (sub_currency s))) "USD";
     status := succeeded; stripeEventId := eid;
     metadata := [("subscriptionId", Some (sub_id s))] |}.

Definition cancelled_row (uid eid : string) (s : Subscription) : BillingEvent :=
  {| userId := uid; type := subscription_cancelled; amount := 0%Q;
     currency := "USD"; status := succeeded; stripeEventId := eid;
     metadata := [("subscriptionId", Some (sub_id s))] |}.

Definition payment_failed_row (uid eid : string) (i : Invoice) : BillingEvent :=
  {| userId := uid; type := payment_failed;
     amount := major_units (amount_due i);
     currency := or_else (Some (toUpperCase (inv_currency i))) "USD";
     status := failed; stripeEventId := eid;
     metadata := [("invoiceId", Some (inv_id i));
                  ("subscriptionId", inv_subscription i)] |}.

Definition checkout_row (uid eid : string) (c : CheckoutSession) : BillingEvent :=
  {| userId := uid; type := subscription_created;
     amount := major_units (amount_total c);
     currency := or_else (option_map toUpperCase (cs_currency c)) "USD";
     status := succeeded; stripeEventId := eid;
     metadata := [("plan", metadata_plan c); ("source", metadata_source c)] |}.

(** The lookup a Stripe handler starts with. *)
Definition by_customer (cid : string) (w : World) : option User :=
  find (fun u => opt_eqb (stripeCustomerId u) cid) (users w).

(** Two worlds with the same persisted billing records and audit trail;
    they may differ in log lines and outbound requests. *)
Definition same_records (w w' : World) : Prop :=
  users w' = users w /\ billingEvents w' = billingEvents w
  /\ usageMetrics w' = usageMetrics w /\ auditLog w' = auditLog w.

(** The count stored for (subscriber, metric) on the day of [now], 0 when
    there is no row. *)
Definition todays_count (cfg : Config) (uid : string) (m : UsageMetricType)
    (now : Z) (w : World) : Z :=
  match find (usage_key uid m (setHours0 cfg now)) (usageMetrics w) with
  | Some r => um_count r
  | None => 0
  end.

(** What [checkUsageLimit] answers for a subscriber on [tier] whose counter
    for the day stands at [count]. *)
Definition allowed (tier : string) (m : UsageMetricType) (count : Z) : bool :=
  if String.eqb tier "pro" then true
  else match limit_for tier m with
       | Infinity => true
       | Finite cap => if cap =? 0 then false else count <? cap
       end.

(** The world [w] with the rows [L] already in the ledger, ahead of its
    own. *)
Definition prefix_ledger (L : list BillingEvent) (w : World) : World :=
  {| users := users w; billingEvents := L ++ billingEvents w;
     usageMetrics := usageMetrics w; auditLog := auditLog w;
     logs := logs w; outbound := outbound w |}.

(** A computation that never reads the ledger: whatever rows are already
    there, it completes the same way, leaves them in place and makes the
    same changes. *)
Definition ledger_blind {A : Type} (c : M A) : Prop :=
  forall (L : list BillingEvent) (w : World),
    c (prefix_ledger L w) = (fst (c w), prefix_ledger L (snd (c w))).

End Spec.

Module Fixtures.
Import Js Billing.

(** The configuration of the test modules: direct Stripe, Janua disabled. *)
Definition testConfig : Config :=
  {| NODE_ENV := Some "test";
     WEB_URL := Some "http://localhost:3000";
     STRIPE_WEBHOOK_SECRET := Some "whsec_test_secret";
     STRIPE_ESSENTIALS_PRICE_ID := None;
     STRIPE_PREMIUM_PRICE_ID := Some "price_premium123";
     STRIPE_FOUNDRY_PRODUCT_ID := None;
     JANUA_API_URL := None; JANUA_API_KEY := None; JANUA_ADMIN_KEY := None;
     JANUA_BILLING_ENABLED := false;
     JANUA_WEBHOOK_SECRET := Some "jwh_test_secret";
     DHANAM_WEBHOOK_SECRET := None;
     LocalTZA_at_utc := fun _ => 0; LocalTZA_at_local := fun _ => 0 |}.

(** The same deployment on a host whose time zone is America/Mexico_City
    (UTC-6 all year). *)
Definition mexicoCityConfig : Config :=
  {| NODE_ENV := Some "test";
     WEB_URL := Some "http://localhost:3000";
     STRIPE_WEBHOOK_SECRET := Some "whsec_test_secret";
     STRIPE_ESSENTIALS_PRICE_ID := None;
     STRIPE_PREMIUM_PRICE_ID := Some "price_premium123";
     STRIPE_FOUNDRY_PRODUCT_ID := None;
     JANUA_API_URL := None; JANUA_API_KEY := None; JANUA_ADMIN_KEY := None;
     JANUA_BILLING_ENABLED := false;
     JANUA_WEBHOOK_SECRET := Some "jwh_test_secret";
     DHANAM_WEBHOOK_SECRET := None;
     LocalTZA_at_utc := fun _ => -21600000;
     LocalTZA_at_local := fun _ => -21600000 |}.

Definition mockUser : User :=
  {| id := "user-123"; email := "test@example.com"; name := "Test User";
     countryCode := None; subscriptionTier := "community";
     subscriptionStartedAt := None; subscriptionExpiresAt := None;
     stripeCustomerId := None; stripeSubscriptionId := None;
     januaCustomerId := None; billingProvider := None |}.

Definition userWithStripe : User :=
  {| id := "user-123"; email := "test@example.com"; name := "Test User";
     countryCode := None; subscriptionTier := "community";
     subscriptionStartedAt := None; subscriptionExpiresAt := None;
     stripeCustomerId := Some "cus_test123"; stripeSubscriptionId := None;
     januaCustomerId := None; billingProvider := None |}.

Definition mockProUser : User :=
  {| id := "user-pro"; email := "test@example.com"; name := "Test User";
     countryCode := None; subscriptionTier := "pro";
     subscriptionStartedAt := Some 1704067200000;
     subscriptionExpiresAt := Some 1735689600000;
     stripeCustomerId := Some "cus_pro123";
     stripeSubscriptionId := Some "sub_pro123";
     januaCustomerId := None; billingProvider := None |}.

Definition world_of (us : list User) : World :=
  {| users := us; billingEvents := []; usageMetrics := []; auditLog := [];
     logs := []; outbound := [] |}.

Definition mockSubscription : Subscription :=
  {| sub_id := "sub_new123"; sub_customer := "cus_test123";
     current_period_start := 1609459200; current_period_end := 1640995200;
     items_data := [{| price_unit_amount := Some 1999; price_product := None |}];
     sub_currency := "usd"; sub_metadata_janua_user_id := None |}.

Definition unknownCustomerSubscription : Subscription :=
  {| sub_id := "sub_new123"; sub_customer := "cus_nonexistent";
     current_period_start := 1609459200; current_period_end := 1640995200;
     items_data := [{| price_unit_amount := Some 1999; price_product := None |}];
     sub_currency := "usd"; sub_metadata_janua_user_id := None |}.

Definition mockInvoice : Invoice :=
  {| inv_id := "in_test123"; inv_customer := "cus_test123";
     amount_paid := Some 0; amount_due := Some 1999; inv_currency := "usd";
     inv_subscription := Some "sub_new123" |}.

Definition mockSession : CheckoutSession :=
  {| cs_id := "cs_test123"; cs_customer := Some "cus_test123";
     amount_total := Some 1999; cs_currency := Some "usd";
     metadata_janua_user_id := Some "user-123";
     metadata_plan := Some "unknown_plan";
     metadata_source := Some "external" |}.

Definition mockEvent (d : EventData) : StripeEvent :=
  {| event_id := "evt_test123"; event_data := d |}.

(** A stand-in for [new URL(s).hostname] on plain http(s) URLs: the
    characters between the scheme and the first of [/ : ? #]. *)
Fixpoint take_host (s : string) : string :=
  match s with
  | EmptyString => EmptyString
  | String c r =>
      if (Ascii.eqb c "/" || Ascii.eqb c ":" || Ascii.eqb c "?" || Ascii.eqb c "#")%char
      then EmptyString else String c (take_host r)
  end.

Definition simple_hostname (url : string) : option string :=
  let after :=
    if String.eqb (substring 0 8 url) "https://"
    then Some (substring 8 (String.length url - 8) url)
    else if String.eqb (substring 0 7 url) "http://"
    then Some (substring 7 (String.length url - 7) url)
    else None in
  match after with
  | Some r => if String.eqb (take_host r) "" then None else Some (take_host r)
  | None => None
  end.

(** The collaborators as the test modules mock them: [constructEvent]
    returns [event] for the signature ['valid_signature'] and throws
    otherwise; Stripe hands out fixed customer and session ids. *)
Definition mockOutside (event : StripeEvent) : Outside :=
  {| stripe_constructEvent := fun _ signature _ =>
       if String.eqb signature "valid_signature" then Return event
       else Throw (Error "Invalid signature");
     stripe_customers_create := fun _ _ => Return "cus_new123";
     stripe_sessions_create := fun _ _ =>
       Return {| session_id := "cs_test123";
                 session_url := "https://checkout.stripe.com/pay/cs_test123" |};
     stripe_sessions_retrieve := fun _ => Return (Some "prod_abc");
     janua_post_customers := fun _ _ => HttpNotOk "unavailable";
     janua_post_checkout := fun _ _ => HttpNotOk "unavailable";
     janua_post_tier_change := fun _ _ _ => HttpOk tt;
     URL_hostname := simple_hostname |}.

(** A completed checkout for the yearly essentials plan, started through
    the external checkout. *)
Definition yearlyEssentialsSession : CheckoutSession :=
  {| cs_id := "cs_test123"; cs_customer := Some "cus_test123";
     amount_total := Some 4990; cs_currency := Some "usd";
     metadata_janua_user_id := Some "user-123";
     metadata_plan := Some "essentials_yearly";
     metadata_source := Some "external" |}.

(** The same, with a plan that names a member of [Object.prototype]. *)
Definition constructorPlanSession : CheckoutSession :=
  {| cs_id := "cs_test123"; cs_customer := Some "cus_test123";
     amount_total := Some 4990; cs_currency := Some "usd";
     metadata_janua_user_id := Some "user-123";
     metadata_plan := Some "constructor";
     metadata_source := Some "external" |}.

End Fixtures.


(* ===================================================================== *)
(** ** Read paths and callers: usage report, history, portal, status and
       the web gate *)
(* ===================================================================== *)

Module Queries.
Import Js Billing.

(** [Object.keys(this.usageLimits.community)], in source order. *)
Definition metricTypes : list UsageMetricType :=
  [esg_calculation; monte_carlo_simulation; goal_probability;
   scenario_analysis; portfolio_rebalance; api_request].

Record UsageBucket : Type := { used : Z; limit : Z }.

Record UserUsage : Type := {
  usage_date : Z;
  usage_tier : string;
  usage : list (UsageMetricType * UsageBucket)
}.

(** [limit === Infinity ? -1 : limit]. *)
Definition reported_limit (l : Limit) : Z :=
  match l with
  | Infinity => -1
  | Finite n => n
  end.

(** [getUserUsage(userId)]. *)
Definition getUserUsage (cfg : Config) (userId : string) (now : Z)
    : M UserUsage :=
  let today := setHours0 cfg now in
  user <- user_findUnique_id userId ;;
  fun w =>
    let metrics :=
      filter (fun r => String.eqb (um_userId r) userId && (um_date r =? today))
        (usageMetrics w) in
    let tier_field := match user with
                      | Some u => subscriptionTier u
                      | None => ""
                      end in
    let usageByType :=
      map (fun metricType =>
             let metric :=
               find (fun r => metric_eqb (um_metricType r) metricType) metrics in
             (metricType,
              {| used := match metric with
                         | Some r => um_count r
                         | None => 0
                         end;
                 limit := reported_limit (limit_for tier_field metricType) |}))
        metricTypes in
    (Return {| usage_date := today;
               usage_tier := or_else (Some tier_field) "community";
               usage := usageByType |}, w).

(** [getBillingHistory(userId, limit = 20)]: the subscriber's rows, newest
    first, at most [limit] of them.  Rows get their [createdAt] when they
    are created, so the ledger's order is the order of creation. *)
Definition getBillingHistory (uid : string) (limit : nat)
    : M (list BillingEvent) :=
  fun w =>
    (Return (firstn limit
               (rev (filter (fun e => String.eqb (userId e) uid)
                       (billingEvents w)))), w).

Section Portal.
(** [stripe.billingPortal.sessions.create({ customer, return_url })]. *)
Variable billingPortal_sessions_create : string -> string -> Completion string.
Variable cfg : Config.

(** [StripeService.createPortalSession]. *)
Definition StripeService_createPortalSession (customerId returnUrl : string)
    : M string :=
  logger log_info [Txt "Creating portal session for customer: "; Txt customerId] ;;
  lift (billingPortal_sessions_create customerId returnUrl).

(** [BillingService.createPortalSession(userId)]. *)
Definition createPortalSession (userId : string) : M string :=
  user <- user_findUnique_id userId ;;
  let customer := match user with
                  | Some u => stripeCustomerId u
                  | None => None
                  end in
  if negb (truthy customer)
  then throw (Error "No Stripe customer found for this user")
  else
    let webUrl := config_get (WEB_URL cfg) "http://localhost:3000" in
    StripeService_createPortalSession (or_else customer "")
      (webUrl ++ "/billing").
End Portal.

Record SubscriptionStatus : Type := {
  status_tier : string;
  status_startedAt : option Z;
  status_expiresAt : option Z;
  isActive : bool
}.

(** [BillingController.getSubscriptionStatus], on the authenticated user's
    record. *)
Definition getSubscriptionStatus (user : User) (now : Z) : SubscriptionStatus :=
  {| status_tier := subscriptionTier user;
     status_startedAt := subscriptionStartedAt user;
     status_expiresAt := subscriptionExpiresAt user;
     isActive :=
       negb (String.eqb (subscriptionTier user) "community")
       && match subscriptionExpiresAt user with
          | None => true
          | Some expires => now <? expires
          end |}.

(** The own properties of the web app's [TIER_RANK]. *)
Definition TIER_RANK_own (tier : string) : option Z :=
  if String.eqb tier "community" then Some 0
  else if String.eqb tier "essentials" then Some 1
  else if String.eqb tier "pro" then Some 2
  else None.

(** [TIER_RANK[tier]] of [PremiumGate]. *)
Definition TIER_RANK (tier : string) : option (Member Z) :=
  lookup TIER_RANK_own tier.

(** [a >= b] on two table lookups: a missing entry is [undefined], and a
    comparison with [undefined] is false. *)
Definition rank_geb (a b : option (Member Z)) : bool :=
  match a, b with
  | Some x, Some y => geb x y
  | _, _ => false
  end.

(** [hasAccess] of [PremiumGate]: the user's tier ([community] when the
    user or the field is missing) against the required tier. *)
Definition hasAccess (userTier : option string) (requiredTier : string) : bool :=
  rank_geb (TIER_RANK (or_else userTier "community")) (TIER_RANK requiredTier).

End Queries.

(* ===================================================================== *)
(** ** Vocabulary of the invariants *)
(* ===================================================================== *)

Module Invariants.
Import Js Billing.

(** What identifies an account. *)
Definition identity (u : User) : string * string * string * option string :=
  (id u, email u, name u, countryCode u).

(** What a subscriber is entitled to. *)
Definition entitlement (u : User)
    : string * option Z * option Z * option string :=
  (subscriptionTier u, subscriptionStartedAt u, subscriptionExpiresAt u,
   stripeSubscriptionId u).

(** What every webhook request keeps: the accounts and their identity, the
    usage counters, and the rows already in the ledger and in the audit
    trail. *)
Definition webhook_frame (w w' : World) : Prop :=
  map identity (users w') = map identity (users w)
  /\ usageMetrics w' = usageMetrics w
  /\ (exists rows, billingEvents w' = billingEvents w ++ rows)
  /\ (exists entries, auditLog w' = auditLog w ++ entries).

(** What every checkout initiation keeps: the accounts, their identity and
    their entitlement, the usage counters and the ledger. *)
Definition checkout_frame (w w' : World) : Prop :=
  map identity (users w') = map identity (users w)
  /\ map entitlement (users w') = map entitlement (users w)
  /\ usageMetrics w' = usageMetrics w
  /\ billingEvents w' = billingEvents w.

(** An update that writes none of the four entitlement fields. *)
Definition leaves_entitlement (d : UserData) : Prop :=
  set_subscriptionTier d = None /\ set_subscriptionStartedAt d = None
  /\ set_subscriptionExpiresAt d = None /\ set_stripeSubscriptionId d = None.

(** A computation that keeps relation [R] between the world it starts in
    and the world it ends in, whether it returns or throws. *)
Definition keeps (R : World -> World -> Prop) {A : Type} (c : M A) : Prop :=
  forall w, R w (snd (c w)).

(** The customer a Stripe event is about, for the events that carry one. *)
Definition stripe_customer_of (d : EventData) : option string :=
  match d with
  | customer_subscription_created s
  | customer_subscription_updated s
  | customer_subscription_deleted s => Some (sub_customer s)
  | invoice_payment_succeeded i
  | invoice_payment_failed i => Some (inv_customer i)
  | checkout_session_completed _ => None
  | other_event _ => None
  end.

(** No two usage rows share the key (subscriber, metric, day). *)
Definition usage_keys_unique (rows : list UsageMetric) : Prop :=
  forall uid m date,
    (List.length (filter (usage_key uid m date) rows) <= 1)%nat.

(** The requests of a trace that create a Stripe customer. *)
Definition customer_creations (trace : list Outbound) : list Outbound :=
  filter (fun o => match o with
                   | StripeCreateCustomer _ _ _ => true
                   | _ => false
                   end) trace.

(** The lookup a Janua handler starts with. *)
Definition by_janua_customer (cid : string) (w : World) : option User :=
  find (fun u => opt_eqb (januaCustomerId u) cid) (users w).

(** A subscriber billed through Janua, on the essentials tier. *)
Definition januaSubscriber : User :=
  {| id := "user-janua"; email := "test@example.com"; name := "Test User";
     countryCode := Some "MX"; subscriptionTier := "essentials";
     subscriptionStartedAt := Some 1704067200000;
     subscriptionExpiresAt := None;
     stripeCustomerId := None; stripeSubscriptionId := None;
     januaCustomerId := Some "cus_abc";
     billingProvider := Some "conekta" |}.

(** A Janua webhook payload about that subscriber. *)
Definition januaPayload (t : JanuaWebhookEventType) (status : option string)
    : JanuaPayload :=
  {| payload_id := "evt_123"; payload_type := t;
     payload_data :=
       {| customer_id := "cus_abc"; subscription_id := Some "sub_xyz";
          plan_id := Some "essentials"; data_status := status;
          data_amount := Some 99%Q; data_currency := Some "MXN";
          data_provider := Some "conekta";
          data_metadata_orgId := None |} |}.

(** The price [upgradeToPremiumViaStripe] and [createExternalCheckout]
    pick for a plan. *)
Definition price_for (cfg : Config) (plan : string) : option string :=
  if String.eqb plan "essentials" then STRIPE_ESSENTIALS_PRICE_ID cfg
  else STRIPE_PREMIUM_PRICE_ID cfg.

(** [data: { stripeCustomerId: customerId }]. *)
Definition customer_data (customer : string) : UserData :=
  {| set_subscriptionTier := None; set_subscriptionStartedAt := None;
     set_subscriptionExpiresAt := None;
     set_stripeCustomerId := Some (Some customer);
     set_stripeSubscriptionId := None; set_januaCustomerId := None;
     set_billingProvider := None |}.

(** A Stripe whose customer API is down. *)
Definition stripeCustomersDown : Outside :=
  {| stripe_constructEvent := fun _ _ _ => Throw (Error "Invalid signature");
     stripe_customers_create := fun _ _ => Throw (Error "Stripe API error");
     stripe_sessions_create := fun _ _ =>
       Return {| session_id := "cs_test123";
                 session_url := "https://checkout.stripe.com/pay/cs_test123" |};
     stripe_sessions_retrieve := fun _ => Return None;
     janua_post_customers := fun _ _ => HttpNotOk "unavailable";
     janua_post_checkout := fun _ _ => HttpNotOk "unavailable";
     janua_post_tier_change := fun _ _ _ => HttpOk tt;
     URL_hostname := fun _ => None |}.

(** The test configuration without the premium price. *)
Definition configWithoutPremiumPrice : Config :=
  {| NODE_ENV := Some "test";
     WEB_URL := Some "http://localhost:3000";
     STRIPE_WEBHOOK_SECRET := Some "whsec_test_secret";
     STRIPE_ESSENTIALS_PRICE_ID := Some "price_essentials_test";
     STRIPE_PREMIUM_PRICE_ID := None;
     STRIPE_FOUNDRY_PRODUCT_ID := None;
     JANUA_API_URL := None; JANUA_API_KEY := None; JANUA_ADMIN_KEY := None;
     JANUA_BILLING_ENABLED := false;
     JANUA_WEBHOOK_SECRET := None; DHANAM_WEBHOOK_SECRET := None;
     LocalTZA_at_utc := fun _ => 0; LocalTZA_at_local := fun _ => 0 |}.

(** [upgradeToPremium] called with no options. *)
Definition noOptions : UpgradeOptions :=
  {| orgId := None; plan := None; successUrl := None; cancelUrl := None;
     opt_countryCode := None |}.

(** The bucket a usage report shows for a metric. *)
Definition bucket_of (report : Queries.UserUsage) (m : UsageMetricType)
    : option Queries.UsageBucket :=
  option_map snd
    (find (fun p => metric_eqb (fst p) m) (Queries.usage report)).

(** The count stored under a key, 0 when there is no row. *)
Definition count_at (uid : string) (m : UsageMetricType) (date : Z)
    (rows : list UsageMetric) : Z :=
  match find (usage_key uid m date) rows with
  | Some r => um_count r
  | None => 0
  end.

(** A subscription object without items. *)
Definition subscriptionWithoutItems : Subscription :=
  {| sub_id := "sub_new123"; sub_customer := "cus_test123";
     current_period_start := 1609459200; current_period_end := 1640995200;
     items_data := [];
     sub_currency := "usd"; sub_metadata_janua_user_id := None |}.

(** The rows of a subscriber in the ledger, newest first. *)
Definition history_of (uid : string) (w : World) : list BillingEvent :=
  rev (filter (fun e => String.eqb (userId e) uid) (billingEvents w)).

End Invariants.

(* ===================================================================== *)
(** ** Properties *)
(* ===================================================================== *)

Import Js Billing Spec Fixtures.

(** *** The user table *)

Lemma found_user_has_row (f : User -> bool) (us : list User) (u : User) :
  find f us = Some u ->
  existsb (fun x => String.eqb (id x) (id u)) us = true.
Proof.
  intros Hf. apply find_some in Hf. destruct Hf as [Hin _].
  apply existsb_exists. exists u. split; [assumption | apply String.eqb_refl].
Qed.

Lemma apply_data_id (d : UserData) (u : User) : id (apply_data d u) = id u.
Proof. reflexivity. Qed.

Lemma find_id_update (uid : string) (d : UserData) (us : list User) :
  find (fun x => String.eqb (id x) uid) (update_where_id uid d us)
  = option_map (apply_data d) (find (fun x => String.eqb (id x) uid) us).
Proof.
  induction us as [| a us IH]; simpl; [reflexivity |].
  destruct (String.eqb (id a) uid) eqn:E; simpl.
  - rewrite E. reflexivity.
  - rewrite E. exact IH.
Qed.

Lemma find_id_update_other (uid other : string) (d : UserData) (us : list User) :
  String.eqb other uid = false ->
  find (fun x => String.eqb (id x) other) (update_where_id uid d us)
  = find (fun x => String.eqb (id x) other) us.
Proof.
  intros Hne. induction us as [| a us IH]; simpl; [reflexivity |].
  destruct (String.eqb (id a) uid) eqn:E; simpl.
  - apply String.eqb_eq in E. rewrite E.
    rewrite String.eqb_sym, Hne. exact IH.
  - destruct (String.eqb (id a) other); [reflexivity | exact IH].
Qed.

Lemma In_update_where_id (uid : string) (d : UserData) (us : list User) (r : User) :
  In r (update_where_id uid d us) -> id r = uid ->
  exists r0, In r0 us /\ id r0 = uid /\ r = apply_data d r0.
Proof.
  unfold update_where_id. intros Hin Hid.
  apply in_map_iff in Hin. destruct Hin as [r0 [Heq Hin0]].
  destruct (String.eqb (id r0) uid) eqn:E.
  - exists r0. apply String.eqb_eq in E. auto.
  - subst r. apply String.eqb_neq in E. contradiction.
Qed.

(** A write that leaves [stripeCustomerId] alone does not change which row
    a customer id resolves to. *)
Lemma find_customer_update (cid uid : string) (d : UserData) (us : list User) :
  set_stripeCustomerId d = None ->
  find (fun x => opt_eqb (stripeCustomerId x) cid) (update_where_id uid d us)
  = option_map (fun x => if String.eqb (id x) uid then apply_data d x else x)
      (find (fun x => opt_eqb (stripeCustomerId x) cid) us).
Proof.
  intros Hd. induction us as [| a us IH]; simpl; [reflexivity |].
  assert (Hsame : opt_eqb (stripeCustomerId
                    (if String.eqb (id a) uid then apply_data d a else a)) cid
                  = opt_eqb (stripeCustomerId a) cid).
  { destruct (String.eqb (id a) uid); [| reflexivity].
    simpl. rewrite Hd. reflexivity. }
  rewrite Hsame. destruct (opt_eqb (stripeCustomerId a) cid); [reflexivity | exact IH].
Qed.

(** *** Cancellation *)

Lemma handleSubscriptionCancelled_found (eid : string) (s : Subscription)
    (w : World) (u : User) :
  by_customer (sub_customer s) w = Some u ->
  handleSubscriptionCancelled eid s w
  = (Return tt,
     {| users := update_where_id (id u) cancelled_data (users w);
        billingEvents := billingEvents w ++ [cancelled_row (id u) eid s];
        usageMetrics := usageMetrics w;
        auditLog := auditLog w ++
          [{| audit_userId := id u; audit_action := "SUBSCRIPTION_CANCELLED";
              audit_severity := "medium";
              audit_metadata := [("subscriptionId", Txt (sub_id s))] |}];
        logs := logs w ++
          [{| level := log_info;
              pieces := [Txt "Subscription cancelled for user "; Txt (id u)] |}];
        outbound := outbound w |}).
Proof.
  unfold by_customer. intros Hf.
  unfold handleSubscriptionCancelled, bind, user_findUnique_stripeCustomerId.
  rewrite Hf. unfold user_update.
  rewrite (found_user_has_row _ _ _ Hf). reflexivity.
Qed.

Lemma row_exists_found (uid : string) (us : list User) :
  existsb (fun x => String.eqb (id x) uid) us = true ->
  exists r0, find (fun x => String.eqb (id x) uid) us = Some r0.
Proof.
  induction us as [| a us IH]; simpl; [discriminate |].
  destruct (String.eqb (id a) uid); [intros _; eauto | exact IH].
Qed.

(** After a write to the rows with key [id u], the subscriber's stored
    record is the old one with the written fields replaced. *)
Lemma subscriber_after_update (f : User -> bool) (d : UserData) (w w' : World)
    (u : User) :
  find f (users w) = Some u ->
  users w' = update_where_id (id u) d (users w) ->
  exists r0, subscriber (id u) w = Some r0
             /\ subscriber (id u) w' = Some (apply_data d r0).
Proof.
  intros Hf Hu. unfold subscriber. rewrite Hu, find_id_update.
  destruct (row_exists_found _ _ (found_user_has_row _ _ _ Hf)) as [r0 Hr0].
  exists r0. rewrite Hr0. split; reflexivity.
Qed.

(** C2.  For the Stripe handler, [handleSubscriptionCancelled]; the Janua
    handler differs and is treated on its own further down.  When the
    customer of a subscription-cancelled event resolves to a subscriber,
    the handler completes normally, the subscriber's stored
    record has tier ['community'], no expiry and no Stripe subscription id
    (and so has every row carrying the subscriber's id), and the ledger gains
    exactly one row, with amount 0 and status succeeded.  The world [w] is
    arbitrary: in particular it may be the one a subscription-created event
    left behind. *)
Theorem subscription_cancelled_reverts_to_community
    (eid : string) (s : Subscription) (w : World) (u : User) :
  by_customer (sub_customer s) w = Some u ->
  let w' := snd (handleSubscriptionCancelled eid s w) in
  fst (handleSubscriptionCancelled eid s w) = Return tt
  /\ (exists r, subscriber (id u) w' = Some r
                /\ subscriptionTier r = "community"
                /\ subscriptionExpiresAt r = None
                /\ stripeSubscriptionId r = None)
  /\ (forall r, In r (users w') -> id r = id u ->
                subscriptionTier r = "community"
                /\ subscriptionExpiresAt r = None
                /\ stripeSubscriptionId r = None)
  /\ billingEvents w'
     = billingEvents w ++
       [{| userId := id u; type := subscription_cancelled; amount := 0%Q;
           currency := "USD"; status := succeeded; stripeEventId := eid;
           metadata := [("subscriptionId", Some (sub_id s))] |}].
Proof.
  intros Hf. rewrite (handleSubscriptionCancelled_found eid s w u Hf). simpl.
  split; [reflexivity |]. split; [| split; [| reflexivity]].
  - destruct (subscriber_after_update _ cancelled_data w
                {| users := update_where_id (id u) cancelled_data (users w);
                   billingEvents := []; usageMetrics := []; auditLog := [];
                   logs := []; outbound := [] |} u Hf eq_refl) as [r0 [_ Hr]].
    exists (apply_data cancelled_data r0). unfold subscriber in *. simpl in *.
    rewrite Hr. repeat split; reflexivity.
  - intros r Hin Hid.
    destruct (In_update_where_id _ _ _ _ Hin Hid) as [r0 [_ [_ Hr]]].
    subst r. repeat split; reflexivity.
Qed.

(** C2, on the test suite's subscriber: a subscription-created event grants
    ['pro'], and the cancellation that follows takes it back. *)
Lemma subscription_cancelled_reverts_to_community_witness :
  let w1 := snd (handleSubscriptionCreated testConfig "evt_created"
                   mockSubscription (world_of [userWithStripe])) in
  option_map subscriptionTier (subscriber "user-123" w1) = Some "pro"
  /\ (let w' := snd (handleSubscriptionCancelled "evt_test123" mockSubscription w1) in
      fst (handleSubscriptionCancelled "evt_test123" mockSubscription w1) = Return tt
      /\ (exists r, subscriber "user-123" w' = Some r
                    /\ subscriptionTier r = "community"
                    /\ subscriptionExpiresAt r = None
                    /\ stripeSubscriptionId r = None)
      /\ (forall r, In r (users w') -> id r = "user-123" ->
                    subscriptionTier r = "community"
                    /\ subscriptionExpiresAt r = None
                    /\ stripeSubscriptionId r = None)
      /\ billingEvents w'
         = billingEvents w1 ++
           [{| userId := "user-123"; type := subscription_cancelled;
               amount := 0%Q; currency := "USD"; status := succeeded;
               stripeEventId := "evt_test123";
               metadata := [("subscriptionId", Some "sub_new123")] |}]).
Proof.
  split; [reflexivity |].
  exact (subscription_cancelled_reverts_to_community "evt_test123"
           mockSubscription
           (snd (handleSubscriptionCreated testConfig "evt_created"
                   mockSubscription (world_of [userWithStripe])))
           (apply_data (created_data mockSubscription) userWithStripe)
           eq_refl).
Defined.

(** *** Failed payments *)

(** C7.  When the customer of a payment-failed event resolves to a
    subscriber, the handler completes normally and leaves the user table
    (every field of every record) and the usage counters untouched; the
    ledger gains exactly one row, whose amount is the invoice's amount due
    (in major units) and whose status is failed.  Besides the ledger the
    handler only reports: one PAYMENT_FAILED audit entry and one log line;
    it sends nothing. *)
Theorem payment_failed_only_appends_to_ledger
    (eid : string) (i : Invoice) (w : World) (u : User) :
  by_customer (inv_customer i) w = Some u ->
  let w' := snd (handlePaymentFailed eid i w) in
  fst (handlePaymentFailed eid i w) = Return tt
  /\ users w' = users w
  /\ usageMetrics w' = usageMetrics w
  /\ outbound w' = outbound w
  /\ billingEvents w'
     = billingEvents w ++
       [{| userId := id u; type := payment_failed;
           amount := major_units (amount_due i);
           currency := or_else (Some (toUpperCase (inv_currency i))) "USD";
           status := failed; stripeEventId := eid;
           metadata := [("invoiceId", Some (inv_id i));
                        ("subscriptionId", inv_subscription i)] |}]
  /\ auditLog w'
     = auditLog w ++
       [{| audit_userId := id u; audit_action := "PAYMENT_FAILED";
           audit_severity := "high";
           audit_metadata := [("amount", Cents (amount_due i));
                              ("invoiceId", Txt (inv_id i))] |}].
Proof.
  unfold by_customer. intros Hf.
  unfold handlePaymentFailed, bind, user_findUnique_stripeCustomerId.
  rewrite Hf. simpl. repeat split; reflexivity.
Qed.

(** C7, on the test suite's pro subscriber: the record stays as it was. *)
Lemma payment_failed_only_appends_to_ledger_witness :
  let w := world_of [mockProUser] in
  let i := {| inv_id := "in_test123"; inv_customer := "cus_pro123";
              amount_paid := Some 0; amount_due := Some 1999;
              inv_currency := "usd"; inv_subscription := Some "sub_pro123" |} in
  let w' := snd (handlePaymentFailed "evt_test123" i w) in
  fst (handlePaymentFailed "evt_test123" i w) = Return tt
  /\ users w' = [mockProUser]
  /\ usageMetrics w' = usageMetrics w
  /\ outbound w' = outbound w
  /\ billingEvents w'
     = billingEvents w ++
       [{| userId := "user-pro"; type := payment_failed;
           amount := major_units (Some 1999);
           currency := "USD";
           status := failed; stripeEventId := "evt_test123";
           metadata := [("invoiceId", Some "in_test123");
                        ("subscriptionId", Some "sub_pro123")] |}]
  /\ auditLog w'
     = auditLog w ++
       [{| audit_userId := "user-pro"; audit_action := "PAYMENT_FAILED";
           audit_severity := "high";
           audit_metadata := [("amount", Cents (Some 1999));
                              ("invoiceId", Txt "in_test123")] |}].
Proof.
  exact (payment_failed_only_appends_to_ledger "evt_test123"
           {| inv_id := "in_test123"; inv_customer := "cus_pro123";
              amount_paid := Some 0; amount_due := Some 1999;
              inv_currency := "usd"; inv_subscription := Some "sub_pro123" |}
           (world_of [mockProUser]) mockProUser eq_refl).
Defined.

(** *** The Stripe webhook endpoint *)

Lemma constructWebhookEvent_returns (out : Outside)
    (body signature secret : string) (event : StripeEvent) (w : World) :
  stripe_constructEvent out body signature secret = Return event ->
  StripeService_constructWebhookEvent out body signature secret w
  = (Return event, w).
Proof.
  intros H. unfold StripeService_constructWebhookEvent, try_catch, lift.
  rewrite H. reflexivity.
Qed.

Lemma constructWebhookEvent_throws (out : Outside)
    (body signature secret : string) (e : JsError) (w : World) :
  stripe_constructEvent out body signature secret = Throw e ->
  StripeService_constructWebhookEvent out body signature secret w
  = (Throw e,
     logged log_error
       [Txt "Webhook signature verification failed: "; Txt (message e)] w).
Proof.
  intros H. unfold StripeService_constructWebhookEvent, try_catch, lift.
  rewrite H. reflexivity.
Qed.

(** A verified event reaches the [switch]; the response reflects whether
    the handler threw. *)
Lemma handleWebhook_verified (cfg : Config) (out : Outside)
    (body signature : string) (now : Z) (w : World) (event : StripeEvent) :
  truthy (STRIPE_WEBHOOK_SECRET cfg) = true ->
  stripe_constructEvent out body signature
    (or_else (STRIPE_WEBHOOK_SECRET cfg) "") = Return event ->
  handleWebhook cfg out body signature now w
  = match dispatch_event cfg out event now
            (logged log_info
               [Txt "Received Stripe webhook: "; Txt (event_type event)] w) with
    | (Return _, w') => (Return {| received := true; error := None |}, w')
    | (Throw err, w') =>
        (Return {| received := false; error := Some (message err) |},
         logged log_error [Txt "Error processing webhook: "; Txt (message err)] w')
    end.
Proof.
  intros Hs He. unfold handleWebhook. rewrite Hs. simpl.
  unfold bind at 1. unfold try_catch at 1. unfold bind at 1.
  rewrite (constructWebhookEvent_returns _ _ _ _ _ _ He). simpl.
  unfold bind at 1. simpl. unfold try_catch, bind. fold (logged log_info
    [Txt "Received Stripe webhook: "; Txt (event_type event)] w).
  destruct (dispatch_event cfg out event now _) as [[[] | err] w']; reflexivity.
Qed.

(** C4.  A subscription-created event whose customer id resolves to no
    subscriber: the handler returns without throwing, the endpoint answers
    [{received: true}], and the whole world (users, ledger, usage counters,
    audit trail, outbound requests) is as before except for two log lines,
    the second being the error that reports the unknown customer. *)
Theorem unknown_customer_is_logged_and_acknowledged
    (cfg : Config) (out : Outside) (body signature : string) (now : Z)
    (w : World) (eid : string) (s : Subscription) :
  truthy (STRIPE_WEBHOOK_SECRET cfg) = true ->
  stripe_constructEvent out body signature
    (or_else (STRIPE_WEBHOOK_SECRET cfg) "")
  = Return {| event_id := eid; event_data := customer_subscription_created s |} ->
  by_customer (sub_customer s) w = None ->
  handleSubscriptionCreated cfg eid s w
  = (Return tt,
     logged log_error
       [Txt "User not found for Stripe customer: "; Txt (sub_customer s)] w)
  /\ handleWebhook cfg out body signature now w
     = (Return {| received := true; error := None |},
        logged log_error
          [Txt "User not found for Stripe customer: "; Txt (sub_customer s)]
          (logged log_info
             [Txt "Received Stripe webhook: ";
              Txt "customer.subscription.created"] w)).
Proof.
  unfold by_customer. intros Hs He Hnone. split.
  - unfold handleSubscriptionCreated, bind, user_findUnique_stripeCustomerId.
    rewrite Hnone. reflexivity.
  - rewrite (handleWebhook_verified cfg out body signature now w _ Hs He).
    unfold dispatch_event. simpl.
    unfold handleSubscriptionCreated, bind, user_findUnique_stripeCustomerId.
    simpl. rewrite Hnone. reflexivity.
Qed.

(** C4, on the test suite's missing-user case: customer [cus_nonexistent]. *)
Lemma unknown_customer_is_logged_and_acknowledged_witness :
  let out := mockOutside
               (mockEvent (customer_subscription_created unknownCustomerSubscription)) in
  let w := world_of [userWithStripe; mockProUser] in
  handleSubscriptionCreated testConfig "evt_test123" unknownCustomerSubscription w
  = (Return tt,
     logged log_error
       [Txt "User not found for Stripe customer: "; Txt "cus_nonexistent"] w)
  /\ handleWebhook testConfig out "{}" "valid_signature" 0 w
     = (Return {| received := true; error := None |},
        logged log_error
          [Txt "User not found for Stripe customer: "; Txt "cus_nonexistent"]
          (logged log_info
             [Txt "Received Stripe webhook: ";
              Txt "customer.subscription.created"] w)).
Proof.
  exact (unknown_customer_is_logged_and_acknowledged testConfig
           (mockOutside
              (mockEvent (customer_subscription_created unknownCustomerSubscription)))
           "{}" "valid_signature" 0 (world_of [userWithStripe; mockProUser])
           "evt_test123" unknownCustomerSubscription eq_refl eq_refl eq_refl).
Defined.

(** C3, as stated, fails on the controller test's own case: for the
    signature the mocked Stripe SDK rejects, the endpoint answers
    [received: false] with the error ['Invalid signature']. *)
Lemma invalid_signature_answers_received_false :
  fst (handleWebhook testConfig
         (mockOutside (mockEvent (customer_subscription_created mockSubscription)))
         "{}" "invalid_signature" 0 (world_of [userWithStripe]))
  = Return {| received := false; error := Some "Invalid signature" |}
  /\ stripe_constructEvent
       (mockOutside (mockEvent (customer_subscription_created mockSubscription)))
       "{}" "invalid_signature" "whsec_test_secret"
     = Throw (Error "Invalid signature").
Proof. split; reflexivity. Qed.

(** On the Janua endpoint a signature check that returns false ends the
    request the same way; nothing but log lines is added. *)
Lemma handleJanuaWebhook_unverified (cfg : Config) (out : Outside)
    (rawBody : string) (signature : option string) (payload : JanuaPayload)
    (now : Z) (w w1 : World) :
  JanuaBilling_verifyWebhookSignature cfg rawBody (or_else signature "") w
  = (Return false, w1) ->
  handleJanuaWebhook cfg out rawBody signature payload now w
  = (Return {| janua_received := false; janua_error := Some "Invalid signature";
               janua_event := None |},
     logged log_error [Txt "Janua webhook signature verification failed"] w1)
  /\ same_records w w1.
Proof.
  intros Hv. split.
  - unfold handleJanuaWebhook. unfold bind at 1. rewrite Hv. reflexivity.
  - unfold JanuaBilling_verifyWebhookSignature in Hv.
    destruct (String.eqb (config_get (JANUA_WEBHOOK_SECRET cfg) "") "").
    + injection Hv as <-. unfold same_records. simpl. auto.
    + unfold lift in Hv. injection Hv as _ <-. unfold same_records. auto.
Qed.

(** C3, amended.  When signature verification fails, no handler runs and
    the endpoint answers [{received: false, error: 'Invalid signature'}];
    the world is as before except for error log lines.  On the Stripe
    endpoint this is the case whenever the webhook secret is configured and
    [constructEvent] throws; on the Janua endpoint whenever
    [verifyWebhookSignature] returns false. *)
Theorem invalid_signature_is_refused
    (cfg : Config) (out : Outside) (body signature : string) (now : Z)
    (w : World) (e : JsError) :
  truthy (STRIPE_WEBHOOK_SECRET cfg) = true ->
  stripe_constructEvent out body signature
    (or_else (STRIPE_WEBHOOK_SECRET cfg) "") = Throw e ->
  handleWebhook cfg out body signature now w
  = (Return {| received := false; error := Some "Invalid signature" |},
     logged log_error
       [Txt "Webhook signature verification failed: "; Txt (message e)]
       (logged log_error
          [Txt "Webhook signature verification failed: "; Txt (message e)] w))
  /\ (forall (header : option string) (payload : JanuaPayload) (w1 : World),
        JanuaBilling_verifyWebhookSignature cfg body (or_else header "") w
        = (Return false, w1) ->
        handleJanuaWebhook cfg out body header payload now w
        = (Return {| janua_received := false;
                     janua_error := Some "Invalid signature";
                     janua_event := None |},
           logged log_error [Txt "Janua webhook signature verification failed"] w1)
        /\ same_records w w1).
Proof.
  intros Hs He. split.
  - unfold handleWebhook. rewrite Hs. simpl.
    unfold bind at 1. unfold try_catch at 1. unfold bind at 1.
    rewrite (constructWebhookEvent_throws _ _ _ _ _ _ He). reflexivity.
  - intros header payload w1. apply handleJanuaWebhook_unverified.
Qed.

(** C3, on the controller test's rejected signature. *)
Lemma invalid_signature_is_refused_witness :
  let out := mockOutside (mockEvent (customer_subscription_created mockSubscription)) in
  let w := world_of [userWithStripe] in
  handleWebhook testConfig out "{}" "invalid_signature" 0 w
  = (Return {| received := false; error := Some "Invalid signature" |},
     logged log_error
       [Txt "Webhook signature verification failed: "; Txt "Invalid signature"]
       (logged log_error
          [Txt "Webhook signature verification failed: "; Txt "Invalid signature"] w)).
Proof.
  exact (proj1 (invalid_signature_is_refused testConfig
           (mockOutside (mockEvent (customer_subscription_created mockSubscription)))
           "{}" "invalid_signature" 0 (world_of [userWithStripe])
           (Error "Invalid signature") eq_refl eq_refl)).
Defined.

(** The Janua endpoint on three signatures: the digest under another
    secret is refused with [received: false]; the digest under the
    configured secret is accepted; a header of another length than the
    digest makes [crypto.timingSafeEqual] throw, and the exception leaves
    the controller. *)
Example handleJanuaWebhook_signature_cases :
  let out := mockOutside (mockEvent (other_event "customer.created")) in
  let w := world_of [userWithStripe] in
  let payload := {| payload_id := "evt_123"; payload_type := SUBSCRIPTION_CREATED;
                    payload_data :=
                      {| customer_id := "cus_abc"; subscription_id := Some "sub_xyz";
                         plan_id := Some "pro"; data_status := Some "active";
                         data_amount := None; data_currency := None;
                         data_provider := Some "stripe";
                         data_metadata_orgId := None |} |} in
  fst (handleJanuaWebhook testConfig out "{}"
         (Some (Webhook.createHmac_digest_hex "wrong_secret" "{}")) payload 0 w)
  = Return {| janua_received := false; janua_error := Some "Invalid signature";
              janua_event := None |}
  /\ fst (handleJanuaWebhook testConfig out "{}"
            (Some (Webhook.createHmac_digest_hex "jwh_test_secret" "{}")) payload 0 w)
     = Return {| janua_received := true; janua_error := None;
                 janua_event := Some "subscription.created" |}
  /\ fst (handleJanuaWebhook testConfig out "{}" (Some "bad_signature_hex") payload 0 w)
     = Throw (RangeError "Input buffers must have the same byte length").
Proof.
  split; [| split]; vm_compute; reflexivity.
Qed.


(** *** Subscription-created and checkout-completed events *)

(** Role dispatch never throws and only logs or sends. *)
Lemma dispatchJanuaRoleUpgrade_reports (cfg : Config) (uid : string)
    (productId : option string) (w : World) :
  fst (dispatchJanuaRoleUpgrade cfg uid productId w) = Return tt
  /\ same_records w (snd (dispatchJanuaRoleUpgrade cfg uid productId w)).
Proof.
  unfold dispatchJanuaRoleUpgrade, same_records.
  destruct (negb (truthy (JANUA_API_URL cfg)) || negb (truthy (JANUA_ADMIN_KEY cfg)));
    [simpl; auto |].
  destruct (truthy productId && opt_eqb productId _); simpl; auto.
Qed.

Lemma handleSubscriptionCreated_found (cfg : Config) (eid : string)
    (s : Subscription) (w : World) (u : User) (i : SubscriptionItem)
    (rest : list SubscriptionItem) :
  by_customer (sub_customer s) w = Some u ->
  items_data s = i :: rest ->
  let w' := snd (handleSubscriptionCreated cfg eid s w) in
  fst (handleSubscriptionCreated cfg eid s w) = Return tt
  /\ users w' = update_where_id (id u) (created_data s) (users w)
  /\ billingEvents w' = billingEvents w ++ [created_row (id u) eid s i]
  /\ usageMetrics w' = usageMetrics w
  /\ auditLog w'
     = auditLog w ++
       [{| audit_userId := id u; audit_action := "SUBSCRIPTION_ACTIVATED";
           audit_severity := "high";
           audit_metadata := [("tier", Txt "pro");
                              ("subscriptionId", Txt (sub_id s))] |}].
Proof.
  unfold by_customer. intros Hf Hi.
  unfold handleSubscriptionCreated, bind, user_findUnique_stripeCustomerId.
  rewrite Hf. unfold user_update.
  rewrite (found_user_has_row _ _ _ Hf), Hi. simpl.
  destruct (truthy (sub_metadata_janua_user_id s)); simpl.
  - match goal with
    | |- context [dispatchJanuaRoleUpgrade cfg ?a ?b ?x] =>
        destruct (dispatchJanuaRoleUpgrade_reports cfg a b x) as [Hr [Hu [Hb [Hm Ha]]]];
        destruct (dispatchJanuaRoleUpgrade cfg a b x) as [r x']
    end.
    simpl in *. subst r. simpl. rewrite Hu, Hb, Hm, Ha. repeat split; reflexivity.
  - repeat split; reflexivity.
Qed.

Lemma handleCheckoutCompleted_found (cfg : Config) (out : Outside)
    (eid : string) (c : CheckoutSession) (now : Z) (w : World) (u : User)
    (tier : string) :
  truthy (metadata_janua_user_id c) = true ->
  subscriber (or_else (metadata_janua_user_id c) "") w = Some u ->
  checkout_tier (metadata_plan c) = Own tier ->
  let w' := snd (handleCheckoutCompleted cfg out eid c now w) in
  fst (handleCheckoutCompleted cfg out eid c now w) = Return tt
  /\ users w' = update_where_id (id u) (checkout_data tier c u now) (users w)
  /\ billingEvents w' = billingEvents w ++ [checkout_row (id u) eid c]
  /\ usageMetrics w' = usageMetrics w
  /\ auditLog w' = auditLog w.
Proof.
  unfold subscriber. intros Ht Hf Htier.
  unfold handleCheckoutCompleted. rewrite Ht, Htier. simpl.
  unfold bind, user_findUnique_id. rewrite Hf.
  unfold user_update. rewrite (found_user_has_row _ _ _ Hf).
  unfold try_catch, StripeService_retrieveCheckoutSession, bind, send, lift,
    dispatchJanuaRoleUpgrade.
  simpl.
  destruct (stripe_sessions_retrieve out (cs_id c)) as [pid | err]; simpl;
    destruct (negb (truthy (JANUA_API_URL cfg)) || negb (truthy (JANUA_ADMIN_KEY cfg)));
    simpl; try (repeat split; reflexivity).
  match goal with
  | |- context [truthy pid && ?b] => destruct (truthy pid && b)
  end; simpl; repeat split; reflexivity.
Qed.

Lemma by_customer_after_created (cfg : Config) (eid : string) (s : Subscription)
    (w : World) (u : User) (i : SubscriptionItem) (rest : list SubscriptionItem) :
  by_customer (sub_customer s) w = Some u ->
  items_data s = i :: rest ->
  by_customer (sub_customer s) (snd (handleSubscriptionCreated cfg eid s w))
  = Some (apply_data (created_data s) u).
Proof.
  intros Hf Hi.
  destruct (handleSubscriptionCreated_found cfg eid s w u i rest Hf Hi)
    as [_ [Hu _]].
  unfold by_customer in *. rewrite Hu.
  rewrite find_customer_update by reflexivity.
  rewrite Hf. simpl. rewrite String.eqb_refl. reflexivity.
Qed.

Lemma subscriber_id (uid : string) (w : World) (u : User) :
  subscriber uid w = Some u -> id u = uid.
Proof.
  unfold subscriber. intros Hf. apply find_some in Hf.
  destruct Hf as [_ He]. apply String.eqb_eq. exact He.
Qed.

Lemma subscriber_after_checkout (cfg : Config) (out : Outside) (eid : string)
    (c : CheckoutSession) (now : Z) (w : World) (u : User) (tier : string) :
  truthy (metadata_janua_user_id c) = true ->
  subscriber (or_else (metadata_janua_user_id c) "") w = Some u ->
  checkout_tier (metadata_plan c) = Own tier ->
  subscriber (or_else (metadata_janua_user_id c) "")
    (snd (handleCheckoutCompleted cfg out eid c now w))
  = Some (apply_data (checkout_data tier c u now) u).
Proof.
  intros Ht Hf Htier.
  destruct (handleCheckoutCompleted_found cfg out eid c now w u tier Ht Hf Htier)
    as [_ [Hu _]].
  pose proof (subscriber_id _ _ _ Hf) as Hid.
  unfold subscriber in *. rewrite Hu, Hid, find_id_update, Hf. reflexivity.
Qed.

(** *** No handler reads the ledger *)

Section LedgerBlind.
Context {A B : Type}.

Lemma ledger_blind_ret (a : A) : ledger_blind (ret a).
Proof. intros L w. reflexivity. Qed.

Lemma ledger_blind_throw (e : JsError) : ledger_blind (@throw A e).
Proof. intros L w. reflexivity. Qed.

Lemma ledger_blind_lift (c : Completion A) : ledger_blind (lift c).
Proof. intros L w. reflexivity. Qed.

Lemma ledger_blind_bind (c : M A) (k : A -> M B) :
  ledger_blind c -> (forall a, ledger_blind (k a)) -> ledger_blind (bind c k).
Proof.
  intros Hc Hk L w. unfold bind. rewrite Hc.
  destruct (c w) as [[a | e] w']; simpl; [apply Hk | reflexivity].
Qed.

Lemma ledger_blind_try_catch (c : M A) (h : JsError -> M A) :
  ledger_blind c -> (forall e, ledger_blind (h e)) -> ledger_blind (try_catch c h).
Proof.
  intros Hc Hh L w. unfold try_catch. rewrite Hc.
  destruct (c w) as [[a | e] w']; simpl; [reflexivity | apply Hh].
Qed.

End LedgerBlind.

Lemma ledger_blind_logger (l : LogLevel) (ps : list Piece) :
  ledger_blind (logger l ps).
Proof. intros L w. reflexivity. Qed.

Lemma ledger_blind_audit_log (e : AuditEntry) : ledger_blind (audit_log e).
Proof. intros L w. reflexivity. Qed.

Lemma ledger_blind_send (o : Outbound) : ledger_blind (send o).
Proof. intros L w. reflexivity. Qed.

Lemma ledger_blind_user_findUnique_id (uid : string) :
  ledger_blind (user_findUnique_id uid).
Proof. intros L w. reflexivity. Qed.

Lemma ledger_blind_user_findUnique_stripeCustomerId (cid : string) :
  ledger_blind (user_findUnique_stripeCustomerId cid).
Proof. intros L w. reflexivity. Qed.

Lemma ledger_blind_user_findFirst_januaCustomerId (cid : string) :
  ledger_blind (user_findFirst_januaCustomerId cid).
Proof. intros L w. reflexivity. Qed.

Lemma ledger_blind_user_update (uid : string) (d : UserData) :
  ledger_blind (user_update uid d).
Proof.
  intros L w. unfold user_update. simpl.
  destruct (existsb _ (users w)); reflexivity.
Qed.

(** The one place that touches the ledger appends to it. *)
Lemma ledger_blind_billingEvent_create (e : BillingEvent) :
  ledger_blind (billingEvent_create e).
Proof.
  intros L w. unfold billingEvent_create, prefix_ledger. simpl.
  rewrite app_assoc. reflexivity.
Qed.

Ltac ledger_blind_step :=
  first
    [ apply ledger_blind_bind; [| intros ?]
    | apply ledger_blind_try_catch; [| intros ?]
    | apply ledger_blind_ret
    | apply ledger_blind_throw
    | apply ledger_blind_lift
    | apply ledger_blind_logger
    | apply ledger_blind_audit_log
    | apply ledger_blind_send
    | apply ledger_blind_user_findUnique_id
    | apply ledger_blind_user_findUnique_stripeCustomerId
    | apply ledger_blind_user_findFirst_januaCustomerId
    | apply ledger_blind_user_update
    | apply ledger_blind_billingEvent_create
    | match goal with
      | |- ledger_blind (match ?x with _ => _ end) => destruct x
      end ].

Ltac ledger_blind_auto := cbv zeta; repeat ledger_blind_step.

Lemma ledger_blind_dispatchJanuaRoleUpgrade (cfg : Config) (uid : string)
    (productId : option string) :
  ledger_blind (dispatchJanuaRoleUpgrade cfg uid productId).
Proof. unfold dispatchJanuaRoleUpgrade. ledger_blind_auto. Qed.

Lemma ledger_blind_dispatch_event (cfg : Config) (out : Outside)
    (event : StripeEvent) (now : Z) :
  ledger_blind (dispatch_event cfg out event now).
Proof.
  unfold dispatch_event.
  destruct (event_data event);
    unfold handleSubscriptionCreated, handleSubscriptionUpdated,
      handleSubscriptionCancelled, handlePaymentSucceeded, handlePaymentFailed,
      handleCheckoutCompleted, user_not_found,
      StripeService_retrieveCheckoutSession;
    ledger_blind_auto;
    apply ledger_blind_dispatchJanuaRoleUpgrade.
Qed.

Lemma ledger_blind_handleWebhook (cfg : Config) (out : Outside)
    (body signature : string) (now : Z) :
  ledger_blind (handleWebhook cfg out body signature now).
Proof.
  unfold handleWebhook, StripeService_constructWebhookEvent.
  ledger_blind_auto.
  apply ledger_blind_dispatch_event.
Qed.

Lemma ledger_blind_dispatch_janua (cfg : Config) (out : Outside)
    (payload : JanuaPayload) (now : Z) :
  ledger_blind (dispatch_janua cfg out payload now).
Proof.
  unfold dispatch_janua.
  destruct (payload_type payload);
    unfold handleJanuaSubscriptionCreated, handleJanuaSubscriptionUpdated,
      handleJanuaSubscriptionCancelled, handleJanuaSubscriptionPaused,
      handleJanuaSubscriptionResumed, handleJanuaPaymentSucceeded,
      handleJanuaPaymentFailed, handleJanuaPaymentRefunded,
      janua_user_not_found, notifyJanuaOfTierChange;
    ledger_blind_auto.
Qed.

Lemma ledger_blind_handleJanuaWebhook (cfg : Config) (out : Outside)
    (rawBody : string) (signature : option string) (payload : JanuaPayload)
    (now : Z) :
  ledger_blind (handleJanuaWebhook cfg out rawBody signature payload now).
Proof.
  unfold handleJanuaWebhook, JanuaBilling_verifyWebhookSignature.
  ledger_blind_auto.
  apply ledger_blind_dispatch_janua.
Qed.

(** C1, as stated, fails: the test suite's subscription-created event,
    delivered twice through the endpoint with a valid signature, is
    acknowledged twice and leaves two ledger rows with the same Stripe
    event id. *)
Lemma same_event_twice_writes_two_ledger_rows :
  let out := mockOutside (mockEvent (customer_subscription_created mockSubscription)) in
  let w0 := world_of [userWithStripe] in
  let w1 := snd (handleWebhook testConfig out "{}" "valid_signature" 0 w0) in
  let w2 := snd (handleWebhook testConfig out "{}" "valid_signature" 0 w1) in
  fst (handleWebhook testConfig out "{}" "valid_signature" 0 w0)
  = Return {| received := true; error := None |}
  /\ fst (handleWebhook testConfig out "{}" "valid_signature" 0 w1)
     = Return {| received := true; error := None |}
  /\ List.length (ledger_rows_of "evt_test123" w1) = 1%nat
  /\ List.length (ledger_rows_of "evt_test123" w2) = 2%nat.
Proof. repeat split; reflexivity. Qed.

(** A verified event whose handler completes is acknowledged, and the
    world the endpoint leaves is the one the handler left. *)
Lemma handleWebhook_acknowledged (cfg : Config) (out : Outside)
    (body signature : string) (now : Z) (w : World) (event : StripeEvent) :
  truthy (STRIPE_WEBHOOK_SECRET cfg) = true ->
  stripe_constructEvent out body signature
    (or_else (STRIPE_WEBHOOK_SECRET cfg) "") = Return event ->
  fst (dispatch_event cfg out event now
         (logged log_info
            [Txt "Received Stripe webhook: "; Txt (event_type event)] w))
  = Return tt ->
  handleWebhook cfg out body signature now w
  = (Return {| received := true; error := None |},
     snd (dispatch_event cfg out event now
            (logged log_info
               [Txt "Received Stripe webhook: "; Txt (event_type event)] w))).
Proof.
  intros Hs He Hd.
  rewrite (handleWebhook_verified cfg out body signature now w event Hs He).
  destruct (dispatch_event cfg out event now _) as [[[] | err] w'];
    [reflexivity | discriminate].
Qed.

Lemma ledger_rows_of_app (eid : string) (w w' : World) (rows : list BillingEvent) :
  billingEvents w' = billingEvents w ++ rows ->
  forallb (fun e => String.eqb (stripeEventId e) eid) rows = true ->
  ledger_rows_of eid w' = ledger_rows_of eid w ++ rows.
Proof.
  intros Hb Hall. unfold ledger_rows_of. rewrite Hb, filter_app. f_equal.
  clear Hb. induction rows as [| r rows IH]; [reflexivity |].
  simpl in *. apply andb_true_iff in Hall. destruct Hall as [Hr Hrest].
  rewrite Hr, (IH Hrest). reflexivity.
Qed.

(** C1, amended.  No handler of either webhook endpoint consults the
    ledger: whatever rows it already holds, a request is answered the same
    way and makes the same changes.  So a verified event delivered twice
    through the Stripe endpoint is processed twice.  For a
    subscription-created event whose subscriber is found and whose
    subscription carries at least one item, and for a checkout-completed
    event whose subscriber is found and whose plan resolves to a tier name
    (an entry of [PLAN_TIER_MAP], or the default), both deliveries are
    answered [received: true], the subscriber's row is written both times,
    and the same ledger row is appended twice, so that two more rows carry
    the event's id.  After the second delivery the tier is the one the
    first granted; for checkout-completed, tier-started-at is the second
    delivery's clock reading. *)
Theorem redelivered_event_is_processed_again
    (cfg : Config) (out : Outside) (body signature : string)
    (event : StripeEvent) (now1 now2 : Z) (w : World) :
  truthy (STRIPE_WEBHOOK_SECRET cfg) = true ->
  stripe_constructEvent out body signature
    (or_else (STRIPE_WEBHOOK_SECRET cfg) "") = Return event ->
  let acknowledged := Return {| received := true; error := None |} in
  let w1 := snd (handleWebhook cfg out body signature now1 w) in
  let w2 := snd (handleWebhook cfg out body signature now2 w1) in
  (forall (s : Subscription) (i : SubscriptionItem)
          (rest : list SubscriptionItem) (u : User),
      event_data event = customer_subscription_created s ->
      items_data s = i :: rest ->
      by_customer (sub_customer s) w = Some u ->
      fst (handleWebhook cfg out body signature now1 w) = acknowledged
      /\ fst (handleWebhook cfg out body signature now2 w1) = acknowledged
      /\ billingEvents w2
         = billingEvents w
           ++ [created_row (id u) (event_id event) s i;
               created_row (id u) (event_id event) s i]
      /\ ledger_rows_of (event_id event) w2
         = ledger_rows_of (event_id event) w
           ++ [created_row (id u) (event_id event) s i;
               created_row (id u) (event_id event) s i]
      /\ users w1 = update_where_id (id u) (created_data s) (users w)
      /\ users w2 = update_where_id (id u) (created_data s) (users w1)
      /\ option_map subscriptionTier (by_customer (sub_customer s) w2)
         = Some "pro")
  /\ (forall (c : CheckoutSession) (v : User) (tier : string),
         event_data event = checkout_session_completed c ->
         truthy (metadata_janua_user_id c) = true ->
         subscriber (or_else (metadata_janua_user_id c) "") w = Some v ->
         checkout_tier (metadata_plan c) = Own tier ->
         fst (handleWebhook cfg out body signature now1 w) = acknowledged
         /\ fst (handleWebhook cfg out body signature now2 w1) = acknowledged
         /\ billingEvents w2
            = billingEvents w
              ++ [checkout_row (id v) (event_id event) c;
                  checkout_row (id v) (event_id event) c]
         /\ ledger_rows_of (event_id event) w2
            = ledger_rows_of (event_id event) w
              ++ [checkout_row (id v) (event_id event) c;
                  checkout_row (id v) (event_id event) c]
         /\ option_map subscriptionStartedAt
              (subscriber (or_else (metadata_janua_user_id c) "") w1)
            = Some (Some now1)
         /\ option_map subscriptionStartedAt
              (subscriber (or_else (metadata_janua_user_id c) "") w2)
            = Some (Some now2)
         /\ option_map subscriptionTier
              (subscriber (or_else (metadata_janua_user_id c) "") w2)
            = Some tier)
  /\ (forall (body' signature' : string) (now : Z),
        ledger_blind (handleWebhook cfg out body' signature' now))
  /\ (forall (rawBody : string) (signature' : option string)
             (payload : JanuaPayload) (now : Z),
        ledger_blind (handleJanuaWebhook cfg out rawBody signature' payload now)).
Proof.
  intros Hs He. cbv zeta.
  split; [| split; [| split;
    [intros; apply ledger_blind_handleWebhook
    | intros; apply ledger_blind_handleJanuaWebhook]]].
  - intros s i rest u Hd Hi Hf.
    set (l := fun x => logged log_info
                [Txt "Received Stripe webhook: "; Txt (event_type event)] x).
    assert (Hrun : forall x,
               dispatch_event cfg out event now1 (l x)
               = handleSubscriptionCreated cfg (event_id event) s (l x)
               /\ dispatch_event cfg out event now2 (l x)
                  = handleSubscriptionCreated cfg (event_id event) s (l x)).
    { intros x. unfold dispatch_event. rewrite Hd. split; reflexivity. }
    assert (Hf0 : by_customer (sub_customer s) (l w) = Some u) by exact Hf.
    destruct (handleSubscriptionCreated_found cfg (event_id event) s (l w) u
                i rest Hf0 Hi) as [Hr1 [Hu1 [Hb1 _]]].
    pose proof (by_customer_after_created cfg (event_id event) s (l w) u
                  i rest Hf0 Hi) as Hf1.
    assert (Hw1 : handleWebhook cfg out body signature now1 w
                  = (Return {| received := true; error := None |},
                     snd (handleSubscriptionCreated cfg (event_id event) s (l w)))).
    { rewrite (handleWebhook_acknowledged cfg out body signature now1 w event
                 Hs He).
      - fold (l w). rewrite (proj1 (Hrun w)). reflexivity.
      - fold (l w). rewrite (proj1 (Hrun w)). exact Hr1. }
    rewrite Hw1. cbn [fst snd].
    set (w1 := snd (handleSubscriptionCreated cfg (event_id event) s (l w))) in *.
    assert (Hf1' : by_customer (sub_customer s) (l w1)
                   = Some (apply_data (created_data s) u)) by exact Hf1.
    destruct (handleSubscriptionCreated_found cfg (event_id event) s (l w1) _
                i rest Hf1' Hi) as [Hr2 [Hu2 [Hb2 _]]].
    pose proof (by_customer_after_created cfg (event_id event) s (l w1) _
                  i rest Hf1' Hi) as Hf2.
    assert (Hw2 : handleWebhook cfg out body signature now2 w1
                  = (Return {| received := true; error := None |},
                     snd (handleSubscriptionCreated cfg (event_id event) s (l w1)))).
    { rewrite (handleWebhook_acknowledged cfg out body signature now2 w1 event
                 Hs He).
      - fold (l w1). rewrite (proj2 (Hrun w1)). reflexivity.
      - fold (l w1). rewrite (proj2 (Hrun w1)). exact Hr2. }
    rewrite Hw2. cbn [fst snd].
    set (w2 := snd (handleSubscriptionCreated cfg (event_id event) s (l w1))) in *.
    assert (Hb : billingEvents w2
                 = billingEvents w
                   ++ [created_row (id u) (event_id event) s i;
                       created_row (id u) (event_id event) s i]).
    { rewrite Hb2. change (billingEvents (l w1)) with (billingEvents w1).
      rewrite Hb1. rewrite <- app_assoc. reflexivity. }
    split; [reflexivity |]. split; [reflexivity |]. split; [exact Hb |].
    split.
    { apply ledger_rows_of_app; [exact Hb |].
      simpl. rewrite String.eqb_refl. reflexivity. }
    split; [exact Hu1 |]. split; [exact Hu2 |].
    rewrite Hf2. reflexivity.
  - intros c v tier Hd Ht Hv Htier.
    set (l := fun x => logged log_info
                [Txt "Received Stripe webhook: "; Txt (event_type event)] x).
    assert (Hrun : forall now x,
               dispatch_event cfg out event now (l x)
               = handleCheckoutCompleted cfg out (event_id event) c now (l x)).
    { intros now x. unfold dispatch_event. rewrite Hd. reflexivity. }
    assert (Hv0 : subscriber (or_else (metadata_janua_user_id c) "") (l w)
                  = Some v) by exact Hv.
    destruct (handleCheckoutCompleted_found cfg out (event_id event) c now1
                (l w) v tier Ht Hv0 Htier) as [Hr1 [_ [Hb1 _]]].
    pose proof (subscriber_after_checkout cfg out (event_id event) c now1
                  (l w) v tier Ht Hv0 Htier) as Hv1.
    assert (Hw1 : handleWebhook cfg out body signature now1 w
                  = (Return {| received := true; error := None |},
                     snd (handleCheckoutCompleted cfg out (event_id event) c
                            now1 (l w)))).
    { rewrite (handleWebhook_acknowledged cfg out body signature now1 w event
                 Hs He).
      - fold (l w). rewrite (Hrun now1 w). reflexivity.
      - fold (l w). rewrite (Hrun now1 w). exact Hr1. }
    rewrite Hw1. cbn [fst snd].
    set (w1 := snd (handleCheckoutCompleted cfg out (event_id event) c now1
                      (l w))) in *.
    assert (Hv1' : subscriber (or_else (metadata_janua_user_id c) "") (l w1)
                   = Some (apply_data (checkout_data tier c v now1) v))
      by exact Hv1.
    destruct (handleCheckoutCompleted_found cfg out (event_id event) c now2
                (l w1) _ tier Ht Hv1' Htier) as [Hr2 [_ [Hb2 _]]].
    pose proof (subscriber_after_checkout cfg out (event_id event) c now2
                  (l w1) _ tier Ht Hv1' Htier) as Hv2.
    assert (Hw2 : handleWebhook cfg out body signature now2 w1
                  = (Return {| received := true; error := None |},
                     snd (handleCheckoutCompleted cfg out (event_id event) c
                            now2 (l w1)))).
    { rewrite (handleWebhook_acknowledged cfg out body signature now2 w1 event
                 Hs He).
      - fold (l w1). rewrite (Hrun now2 w1). reflexivity.
      - fold (l w1). rewrite (Hrun now2 w1). exact Hr2. }
    rewrite Hw2. cbn [fst snd].
    set (w2 := snd (handleCheckoutCompleted cfg out (event_id event) c now2
                      (l w1))) in *.
    assert (Hb : billingEvents w2
                 = billingEvents w
                   ++ [checkout_row (id v) (event_id event) c;
                       checkout_row (id v) (event_id event) c]).
    { rewrite Hb2. change (billingEvents (l w1)) with (billingEvents w1).
      rewrite Hb1. rewrite <- app_assoc. reflexivity. }
    split; [reflexivity |]. split; [reflexivity |]. split; [exact Hb |].
    split.
    { apply ledger_rows_of_app; [exact Hb |].
      simpl. rewrite String.eqb_refl. reflexivity. }
    rewrite Hv1, Hv2. repeat split; reflexivity.
Qed.

(** C1, on the test suite's subscription-created event and on a
    checkout-completed event for the yearly essentials plan, each delivered
    twice with a valid signature. *)
Lemma redelivered_event_is_processed_again_witness :
  let acknowledged := Return {| received := true; error := None |} in
  let twice (event : StripeEvent) (now1 now2 : Z) :=
    let out := mockOutside event in
    let w := world_of [userWithStripe] in
    let r1 := handleWebhook testConfig out "{}" "valid_signature" now1 w in
    let r2 := handleWebhook testConfig out "{}" "valid_signature" now2 (snd r1) in
    (fst r1, fst r2,
     List.length (ledger_rows_of "evt_test123" (snd r2)),
     option_map (fun r => (subscriptionTier r, subscriptionStartedAt r))
       (subscriber "user-123" (snd r2))) in
  twice (mockEvent (customer_subscription_created mockSubscription)) 1000 2000
  = (acknowledged, acknowledged, 2%nat, Some ("pro", Some 1609459200000))
  /\ twice (mockEvent (checkout_session_completed yearlyEssentialsSession))
       1000 2000
     = (acknowledged, acknowledged, 2%nat, Some ("essentials", Some 2000)).
Proof.
  cbv zeta. split.
  - destruct (proj1 (redelivered_event_is_processed_again testConfig
                       (mockOutside
                          (mockEvent (customer_subscription_created mockSubscription)))
                       "{}" "valid_signature"
                       (mockEvent (customer_subscription_created mockSubscription))
                       1000 2000 (world_of [userWithStripe]) eq_refl eq_refl)
                mockSubscription
                {| price_unit_amount := Some 1999; price_product := None |} []
                userWithStripe eq_refl eq_refl eq_refl)
      as [H1 [H2 [_ [Hl _]]]].
    change (event_id (mockEvent _)) with "evt_test123" in Hl.
    rewrite H1, H2, Hl. reflexivity.
  - destruct (proj1 (proj2 (redelivered_event_is_processed_again testConfig
                       (mockOutside
                          (mockEvent
                             (checkout_session_completed yearlyEssentialsSession)))
                       "{}" "valid_signature"
                       (mockEvent
                          (checkout_session_completed yearlyEssentialsSession))
                       1000 2000 (world_of [userWithStripe]) eq_refl eq_refl))
                yearlyEssentialsSession userWithStripe "essentials"
                eq_refl eq_refl eq_refl eq_refl)
      as [H1 [H2 [_ [Hl _]]]].
    change (event_id (mockEvent _)) with "evt_test123" in Hl.
    rewrite H1, H2, Hl. reflexivity.
Defined.

(** *** Names inherited from [Object.prototype] *)

Lemma inheritedKey_In (key : string) :
  inheritedKey key = true -> In key objectPrototypeKeys.
Proof.
  unfold inheritedKey. intros H. apply existsb_exists in H.
  destruct H as [k [Hin Hk]]. apply String.eqb_eq in Hk. subst k. exact Hin.
Qed.

Ltac each_inherited_key H :=
  apply inheritedKey_In in H; simpl in H;
  repeat (destruct H as [<- | H]; [reflexivity |]); contradiction.

(** No table of the service has an own entry under such a name. *)
Lemma inherited_key_is_not_a_tier (key : string) :
  inheritedKey key = true -> tierRank key = Some (Proto key).
Proof. intros H. each_inherited_key H. Qed.

Lemma inherited_key_is_not_a_plan (key : string) :
  inheritedKey key = true -> PLAN_TIER_MAP key = Some (Proto key).
Proof. intros H. each_inherited_key H. Qed.

(** The tier a checkout-completed event resolves to: the plan's entry in
    [PLAN_TIER_MAP]; ['pro'] when the plan is absent, empty or has no
    entry; and, for a plan that names a member of [Object.prototype], that
    member. *)
Lemma checkout_tier_spec (plan : option string) :
  checkout_tier plan
  = match plan with
    | Some p =>
        match PLAN_TIER_MAP_own p with
        | Some t => Own t
        | None => if inheritedKey p then Proto p else Own "pro"
        end
    | None => Own "pro"
    end.
Proof.
  unfold checkout_tier, truthy. destruct plan as [p |]; [| reflexivity].
  destruct (String.eqb p "") eqn:E.
  - apply String.eqb_eq in E. subst p. reflexivity.
  - unfold or_else at 1. rewrite E. cbn [negb].
    unfold PLAN_TIER_MAP, lookup, PLAN_TIER_MAP_own.
    destruct (String.eqb p "essentials"); [reflexivity |].
    destruct (String.eqb p "essentials_yearly"); [reflexivity |].
    destruct (String.eqb p "pro"); [reflexivity |].
    destruct (String.eqb p "pro_yearly"); [reflexivity |].
    destruct (inheritedKey p); reflexivity.
Qed.

(** C6.  A checkout-completed event whose metadata carries the id of a
    stored subscriber.  When the plan slug is absent or is not a name
    inherited from [Object.prototype], the handler completes normally; the
    subscriber's record gets the tier mapped from the slug -- ['pro']
    whenever the slug is absent or not in the map -- and tier-started-at
    set to the current instant; the ledger gains exactly one row, with
    amount the session total (in major units) and status succeeded.  When
    the slug is such a name ([constructor], [toString], ...), the lookup
    answers the inherited member instead of nothing, the default does not
    apply, and the handler fails at the write: no tier is granted and no
    ledger row is written. *)
Theorem checkout_completed_grants_mapped_tier
    (cfg : Config) (out : Outside) (eid : string) (c : CheckoutSession)
    (now : Z) (w : World) (u : User) :
  truthy (metadata_janua_user_id c) = true ->
  subscriber (or_else (metadata_janua_user_id c) "") w = Some u ->
  let w' := snd (handleCheckoutCompleted cfg out eid c now w) in
  (match metadata_plan c with
   | Some p => inheritedKey p = false
   | None => True
   end ->
   fst (handleCheckoutCompleted cfg out eid c now w) = Return tt
   /\ (exists r, subscriber (id u) w' = Some r
                 /\ subscriptionTier r
                    = match metadata_plan c with
                      | Some p => match PLAN_TIER_MAP_own p with
                                  | Some t => t
                                  | None => "pro"
                                  end
                      | None => "pro"
                      end
                 /\ subscriptionStartedAt r = Some now)
   /\ billingEvents w'
      = billingEvents w ++
        [{| userId := id u; type := subscription_created;
            amount := major_units (amount_total c);
            currency := or_else (option_map toUpperCase (cs_currency c)) "USD";
            status := succeeded; stripeEventId := eid;
            metadata := [("plan", metadata_plan c);
                         ("source", metadata_source c)] |}])
  /\ (forall p,
         metadata_plan c = Some p -> inheritedKey p = true ->
         checkout_tier (metadata_plan c) = Proto p
         /\ (exists e, fst (handleCheckoutCompleted cfg out eid c now w) = Throw e)
         /\ w' = w).
Proof.
  intros Ht Hf. cbv zeta. split.
  - intros Hplan.
    assert (Htier : checkout_tier (metadata_plan c)
                    = Own match metadata_plan c with
                          | Some p => match PLAN_TIER_MAP_own p with
                                      | Some t => t
                                      | None => "pro"
                                      end
                          | None => "pro"
                          end).
    { rewrite checkout_tier_spec. destruct (metadata_plan c) as [p |];
        [| reflexivity].
      rewrite Hplan. destruct (PLAN_TIER_MAP_own p); reflexivity. }
    destruct (handleCheckoutCompleted_found cfg out eid c now w u _ Ht Hf Htier)
      as [Hr [_ [Hb _]]].
    pose proof (subscriber_after_checkout cfg out eid c now w u _ Ht Hf Htier)
      as Hs.
    rewrite <- (subscriber_id _ _ _ Hf) in Hs at 1.
    split; [exact Hr |]. split; [| exact Hb].
    eexists. split; [exact Hs |]. split; reflexivity.
  - intros p Hp Hin.
    assert (Htier : checkout_tier (metadata_plan c) = Proto p).
    { rewrite checkout_tier_spec, Hp, Hin.
      pose proof (inherited_key_is_not_a_plan p Hin) as Hl.
      unfold PLAN_TIER_MAP, lookup in Hl.
      destruct (PLAN_TIER_MAP_own p); [discriminate | reflexivity]. }
    split; [exact Htier |].
    unfold subscriber in Hf.
    unfold handleCheckoutCompleted. rewrite Ht, Htier. cbn [negb]. cbv zeta.
    unfold bind, user_findUnique_id. rewrite Hf.
    split; [eexists; reflexivity | reflexivity].
Qed.

(** C6, on a slug of the map and on a slug [Object.prototype] answers:
    the yearly essentials plan grants ['essentials'] and records 49.90;
    the plan [constructor] grants nothing, where the default would have
    granted ['pro']. *)
Lemma checkout_completed_grants_mapped_tier_witness :
  let out := mockOutside (mockEvent (checkout_session_completed mockSession)) in
  let w := world_of [mockUser] in
  let run c := handleCheckoutCompleted testConfig out "evt_test123" c
                 1700000000000 w in
  (fst (run yearlyEssentialsSession) = Return tt
   /\ option_map (fun r => (subscriptionTier r, subscriptionStartedAt r))
        (subscriber "user-123" (snd (run yearlyEssentialsSession)))
      = Some ("essentials", Some 1700000000000)
   /\ map (fun e => (amount e, currency e, status e))
        (billingEvents (snd (run yearlyEssentialsSession)))
      = [(4990 # 100, "USD", succeeded)])
  /\ (checkout_tier (Some "constructor") = Proto "constructor"
      /\ (exists e, fst (run constructorPlanSession) = Throw e)
      /\ snd (run constructorPlanSession) = w).
Proof.
  cbv zeta. split.
  - destruct (proj1 (checkout_completed_grants_mapped_tier testConfig
                       (mockOutside (mockEvent (checkout_session_completed mockSession)))
                       "evt_test123" yearlyEssentialsSession 1700000000000
                       (world_of [mockUser]) mockUser eq_refl eq_refl) eq_refl)
      as [Hr [[r [Hs [Ht Hn]]] Hb]].
    split; [exact Hr |]. split.
    + simpl id in Hs. rewrite Hs. simpl. rewrite Ht, Hn. reflexivity.
    + rewrite Hb. reflexivity.
  - exact (proj2 (checkout_completed_grants_mapped_tier testConfig
                    (mockOutside (mockEvent (checkout_session_completed mockSession)))
                    "evt_test123" constructorPlanSession 1700000000000
                    (world_of [mockUser]) mockUser eq_refl eq_refl)
             "constructor" eq_refl eq_refl).
Defined.

(** *** Upgrade and public checkout *)

(** Whether [upgradeToPremium] refuses: the comparison
    [currentRank >= requestedRank] as the code evaluates it. *)
Lemma upgradeToPremium_decides (cfg : Config) (out : Outside)
    (userId : string) (options : UpgradeOptions) (w : World) (u : User) :
  subscriber userId w = Some u ->
  upgradeToPremium cfg out userId options w
  = if geb (currentRank u) (requestedRank options)
    then (Throw (Error ("User is already on " ++ subscriptionTier u ++ " tier")), w)
    else if JanuaBilling_isEnabled cfg
         then upgradeToPremiumViaJanua cfg out u
                (or_else (opt_countryCode options) "US")
                (config_get (WEB_URL cfg) "http://localhost:3000") options w
         else upgradeToPremiumViaStripe cfg out u
                (config_get (WEB_URL cfg) "http://localhost:3000") options w.
Proof.
  unfold subscriber. intros Hf.
  unfold upgradeToPremium, bind, user_findUnique_id. rewrite Hf.
  cbv beta iota zeta. rewrite Hf. cbv beta iota zeta.
  destruct (geb (currentRank u) (requestedRank options)); [reflexivity |].
  destruct (JanuaBilling_isEnabled cfg); reflexivity.
Qed.

(** C8.  For a stored subscriber, [upgradeToPremium] throws the
    already-on-tier error whenever its comparison of the current rank with
    the requested rank holds, and then returns the world it was given: no
    user row is written, nothing is sent to Stripe or Janua (no customer, no
    checkout session), nothing is audited or logged.  The comparison holds
    whenever both ranks are numbers and the current one is at least the
    requested one; a plan the table does not know ranks as ['pro'].  When
    the comparison does not hold the request goes on to provider routing.
    It does not hold for a requested plan that names a member of
    [Object.prototype]: the lookup answers that member, the default is not
    taken and the comparison with a number is false, whatever tier the
    subscriber is on. *)
Theorem upgrade_rejected_at_or_above_tier
    (cfg : Config) (out : Outside) (userId : string)
    (options : UpgradeOptions) (w : World) (u : User) :
  subscriber userId w = Some u ->
  (geb (currentRank u) (requestedRank options) = true ->
   upgradeToPremium cfg out userId options w
   = (Throw (Error ("User is already on " ++ subscriptionTier u ++ " tier")), w))
  /\ (forall current requested,
         tierRank_own (subscriptionTier u) = Some current ->
         requestedRank options = Own requested ->
         current >= requested ->
         geb (currentRank u) (requestedRank options) = true)
  /\ (inheritedKey (or_else (plan options) "pro") = false ->
      tierRank_own (or_else (plan options) "pro") = None ->
      requestedRank options = Own 2)
  /\ (geb (currentRank u) (requestedRank options) = false ->
      upgradeToPremium cfg out userId options w
      = if JanuaBilling_isEnabled cfg
        then upgradeToPremiumViaJanua cfg out u
               (or_else (opt_countryCode options) "US")
               (config_get (WEB_URL cfg) "http://localhost:3000") options w
        else upgradeToPremiumViaStripe cfg out u
               (config_get (WEB_URL cfg) "http://localhost:3000") options w)
  /\ (forall current,
         tierRank_own (subscriptionTier u) = Some current ->
         inheritedKey (or_else (plan options) "pro") = true ->
         geb (currentRank u) (requestedRank options) = false).
Proof.
  intros Hf. pose proof (upgradeToPremium_decides cfg out userId options w u Hf)
    as Hrun.
  split; [| split; [| split; [| split]]].
  - intros Hge. rewrite Hrun, Hge. reflexivity.
  - intros current requested Hc Hr Hle.
    unfold currentRank, tierRank, lookup. rewrite Hc, Hr. simpl.
    apply Z.geb_le. lia.
  - intros Hin Hown. unfold requestedRank, tierRank, lookup.
    rewrite Hown, Hin. reflexivity.
  - intros Hlt. rewrite Hrun, Hlt. reflexivity.
  - intros current Hc Hin.
    unfold currentRank, requestedRank.
    rewrite (inherited_key_is_not_a_tier _ Hin).
    unfold tierRank, lookup. rewrite Hc. reflexivity.
Qed.

(** C8, on the test suite's pro subscriber: asking for the mid plan is
    refused; asking for the plan [constructor] is not, and a checkout
    session at the premium price is requested from Stripe. *)
Lemma upgrade_rejected_at_or_above_tier_witness :
  let out := mockOutside (mockEvent (other_event "customer.created")) in
  let w := world_of [mockUser; mockProUser] in
  let asking p := {| orgId := None; plan := Some p;
                     successUrl := None; cancelUrl := None;
                     opt_countryCode := None |} in
  upgradeToPremium testConfig out "user-pro" (asking "essentials") w
  = (Throw (Error "User is already on pro tier"), w)
  /\ fst (upgradeToPremium testConfig out "user-pro" (asking "constructor") w)
     = Return {| checkoutUrl := "https://checkout.stripe.com/pay/cs_test123";
                 provider := "stripe" |}
  /\ outbound (snd (upgradeToPremium testConfig out "user-pro"
                      (asking "constructor") w))
     = [StripeCreateCheckoutSession "cus_pro123" "price_premium123"
          "http://localhost:3000/billing/success?session_id={CHECKOUT_SESSION_ID}"
          "http://localhost:3000/billing/cancel"
          [("userId", Some "user-pro"); ("plan", Some "constructor")]].
Proof.
  cbv zeta. split.
  - apply (proj1 (upgrade_rejected_at_or_above_tier testConfig
                    (mockOutside (mockEvent (other_event "customer.created")))
                    "user-pro"
                    {| orgId := None; plan := Some "essentials";
                       successUrl := None; cancelUrl := None;
                       opt_countryCode := None |}
                    (world_of [mockUser; mockProUser]) mockProUser eq_refl)).
    reflexivity.
  - pose proof (upgrade_rejected_at_or_above_tier testConfig
                  (mockOutside (mockEvent (other_event "customer.created")))
                  "user-pro"
                  {| orgId := None; plan := Some "constructor";
                     successUrl := None; cancelUrl := None;
                     opt_countryCode := None |}
                  (world_of [mockUser; mockProUser]) mockProUser eq_refl)
      as [_ [_ [_ [Hgo Hfalse]]]].
    rewrite (Hgo (Hfalse 2 eq_refl eq_refl)).
    split; reflexivity.
Defined.

Lemma substring_all_of_suffix (p s : string) :
  substring (String.length p) (String.length s) (p ++ s) = s.
Proof.
  induction p as [| c p IH]; simpl.
  - induction s as [| c s IHs]; simpl; [reflexivity | rewrite IHs; reflexivity].
  - exact IH.
Qed.

Lemma length_append (p s : string) :
  String.length (p ++ s) = (String.length p + String.length s)%nat.
Proof. induction p as [| c p IH]; simpl; [reflexivity | rewrite IH; reflexivity]. Qed.

(** Every host obtained by prefixing a suffix passes that suffix's test. *)
Lemma endsWith_append (suffix p : string) : endsWith suffix (p ++ suffix) = true.
Proof.
  unfold endsWith. rewrite length_append.
  replace (String.length p + String.length suffix - String.length suffix)%nat
    with (String.length p) by lia.
  rewrite substring_all_of_suffix, String.eqb_refl.
  rewrite andb_true_r. apply Nat.leb_le. lia.
Qed.




(** *** SDK: webhook payload parsing *)

(** [verifyWebhookSignature] throws nothing but the [DataError] of
    [importKey] and the [RangeError] of [crypto.timingSafeEqual]. *)
Lemma verifyWebhookSignature_throws_RangeError_or_DataError (rt : Webhook.Runtime)
    (rawBody signature secret : string) (e : JsError) :
  Webhook.verifyWebhookSignature rt rawBody signature secret = Throw e ->
  exists m, e = RangeError m \/ e = DataError m.
Proof.
  unfold Webhook.verifyWebhookSignature, Webhook.crypto_timingSafeEqual,
    Webhook.subtle_importKey_raw_HMAC.
  destruct (Webhook.hasSubtle rt).
  - destruct (Webhook.TextEncoder_encode secret); [| discriminate].
    intros H. injection H as <-. eexists. right. reflexivity.
  - destruct (Nat.eqb _ _); [discriminate |].
    intros H. injection H as <-. eexists. left. reflexivity.
Qed.

Lemma parse_body_never_throws_Error (Payload : Type)
    (JSON_parse : string -> option Payload) (rawBody m : string) :
  Webhook.parse_body Payload JSON_parse rawBody <> Throw (Error m).
Proof. unfold Webhook.parse_body. destruct (JSON_parse rawBody); discriminate. Qed.

Lemma truthy_Some (o : option string) :
  truthy o = true <-> exists s, o = Some s /\ s <> "".
Proof.
  unfold truthy. destruct o as [s |].
  - destruct (String.eqb s "") eqn:E; simpl; split.
    + discriminate.
    + intros [s' [Hs Hne]]. injection Hs as <-.
      apply String.eqb_eq in E. contradiction.
    + intros _. exists s. split; [reflexivity |]. apply String.eqb_neq. exact E.
    + reflexivity.
  - split; [discriminate | intros [s [H _]]; discriminate].
Qed.

(** C10, as stated, fails at the empty signature: it is supplied, it does
    not verify (the comparison with the 64-character digest returns
    false), and yet nothing is thrown: the body goes straight to
    [JSON.parse]. *)
Lemma empty_signature_skips_verification :
  Webhook.verifyWebhookSignature {| Webhook.hasSubtle := true |}
    "{}" "" "whsec_parse_test" = Return false
  /\ (forall (Payload : Type) (JSON_parse : string -> option Payload),
        Webhook.parseWebhookPayload Payload JSON_parse
          {| Webhook.hasSubtle := true |} "{}" (Some "") (Some "whsec_parse_test")
        = Webhook.parse_body Payload JSON_parse "{}")
  /\ (forall (Payload : Type) (JSON_parse : string -> option Payload),
        Webhook.parseWebhookPayload Payload JSON_parse
          {| Webhook.hasSubtle := true |} "{}" (Some "") (Some "whsec_parse_test")
        <> Throw (Error "Invalid webhook signature")).
Proof.
  split; [vm_compute; reflexivity |]. split.
  - intros. reflexivity.
  - intros. apply parse_body_never_throws_Error.
Qed.

(** C10, amended.  [parseWebhookPayload] throws the error ['Invalid webhook
    signature'] exactly when the signature and the secret are both
    non-empty strings and [verifyWebhookSignature] returns false on them.
    When either argument is omitted or is the empty string, verification is
    skipped and the outcome is that of [JSON.parse] on the raw body. *)
Theorem parseWebhookPayload_throws_invalid_signature_iff
    (Payload : Type) (JSON_parse : string -> option Payload)
    (rt : Webhook.Runtime) (rawBody : string) (signature secret : option string) :
  (Webhook.parseWebhookPayload Payload JSON_parse rt rawBody signature secret
   = Throw (Error "Invalid webhook signature")
   <-> exists sig sec,
         signature = Some sig /\ secret = Some sec /\ sig <> "" /\ sec <> ""
         /\ Webhook.verifyWebhookSignature rt rawBody sig sec = Return false)
  /\ Webhook.parseWebhookPayload Payload JSON_parse rt rawBody None secret
     = Webhook.parse_body Payload JSON_parse rawBody
  /\ Webhook.parseWebhookPayload Payload JSON_parse rt rawBody signature None
     = Webhook.parse_body Payload JSON_parse rawBody
  /\ Webhook.parseWebhookPayload Payload JSON_parse rt rawBody (Some "") secret
     = Webhook.parse_body Payload JSON_parse rawBody
  /\ Webhook.parseWebhookPayload Payload JSON_parse rt rawBody signature (Some "")
     = Webhook.parse_body Payload JSON_parse rawBody.
Proof.
  split; [| repeat split; unfold Webhook.parseWebhookPayload; simpl;
            try rewrite andb_false_r; reflexivity].
  unfold Webhook.parseWebhookPayload. split.
  - destruct (truthy signature) eqn:Hs; simpl.
    + destruct (truthy secret) eqn:Hk; simpl.
      * apply truthy_Some in Hs. destruct Hs as [sig [-> Hsig]].
        apply truthy_Some in Hk. destruct Hk as [sec [-> Hsec]].
        unfold or_else.
        destruct (String.eqb sig "") eqn:E1;
          [apply String.eqb_eq in E1; contradiction |].
        destruct (String.eqb sec "") eqn:E2;
          [apply String.eqb_eq in E2; contradiction |].
        destruct (Webhook.verifyWebhookSignature rt rawBody sig sec)
          as [valid | e] eqn:Hv.
        -- destruct valid; simpl.
           ++ intros H. exfalso.
              exact (parse_body_never_throws_Error _ _ _ _ H).
           ++ intros _. exists sig, sec. repeat split; assumption.
        -- intros H. injection H as ->.
           destruct (verifyWebhookSignature_throws_RangeError_or_DataError _ _ _ _ _ Hv)
             as [m [Hm | Hm]]; discriminate.
      * intros H. exfalso. exact (parse_body_never_throws_Error _ _ _ _ H).
    + intros H. exfalso. exact (parse_body_never_throws_Error _ _ _ _ H).
  - intros [sig [sec [-> [-> [Hsig [Hsec Hv]]]]]].
    apply String.eqb_neq in Hsig. apply String.eqb_neq in Hsec.
    unfold truthy, or_else. rewrite Hsig, Hsec. simpl. rewrite Hv. reflexivity.
Qed.

(** *** Usage metering *)

Lemma usage_key_new_row (uid : string) (m : UsageMetricType) (date : Z) :
  usage_key uid m date
    {| um_userId := uid; um_metricType := m; um_date := date; um_count := 1 |}
  = true.
Proof.
  unfold usage_key, metric_eqb. simpl.
  rewrite String.eqb_refl, !Z.eqb_refl. reflexivity.
Qed.

(** An upsert raises the keyed count by one, creating the row at 1. *)
Lemma find_upsert_increment (uid : string) (m : UsageMetricType) (date : Z)
    (rows : list UsageMetric) :
  exists r, find (usage_key uid m date) (upsert_increment uid m date rows) = Some r
            /\ um_count r
               = match find (usage_key uid m date) rows with
                 | Some r0 => um_count r0
                 | None => 0
                 end + 1.
Proof.
  induction rows as [| a rows IH]; simpl.
  - rewrite usage_key_new_row. eexists. split; reflexivity.
  - destruct (usage_key uid m date a) eqn:E; simpl.
    + unfold usage_key in *. simpl. rewrite E. eexists. split; reflexivity.
    + rewrite E. exact IH.
Qed.

Lemma recordUsage_effect (cfg : Config) (uid : string) (m : UsageMetricType)
    (t : Z) (w : World) :
  fst (recordUsage cfg uid m t w) = Return tt
  /\ users (snd (recordUsage cfg uid m t w)) = users w
  /\ billingEvents (snd (recordUsage cfg uid m t w)) = billingEvents w
  /\ usageMetrics (snd (recordUsage cfg uid m t w))
     = upsert_increment uid m (setHours0 cfg t) (usageMetrics w).
Proof. repeat split; reflexivity. Qed.

Lemma todays_count_after_record (cfg : Config) (uid : string)
    (m : UsageMetricType) (t now : Z) (w : World) :
  setHours0 cfg t = setHours0 cfg now ->
  todays_count cfg uid m now (snd (recordUsage cfg uid m t w))
  = todays_count cfg uid m now w + 1.
Proof.
  intros Hday. unfold todays_count. simpl. rewrite Hday.
  destruct (find_upsert_increment uid m (setHours0 cfg now) (usageMetrics w))
    as [r [Hr Hc]].
  rewrite Hr. exact Hc.
Qed.

Lemma recordUsage_each_users (cfg : Config) (uid : string) (m : UsageMetricType)
    (times : list Z) (w : World) :
  users (recordUsage_each cfg uid m times w) = users w.
Proof.
  revert w. induction times as [| t times IH]; intros w; simpl;
    [reflexivity | rewrite IH; reflexivity].
Qed.

Lemma todays_count_after_records (cfg : Config) (uid : string)
    (m : UsageMetricType) (times : list Z) (now : Z) (w : World) :
  (forall t, In t times -> setHours0 cfg t = setHours0 cfg now) ->
  todays_count cfg uid m now (recordUsage_each cfg uid m times w)
  = todays_count cfg uid m now w + Z.of_nat (List.length times).
Proof.
  revert w. induction times as [| t times IH]; intros w Hday.
  - simpl. lia.
  - cbn [recordUsage_each List.length]. rewrite IH.
    + rewrite todays_count_after_record by (apply Hday; left; reflexivity). lia.
    + intros t' Hin. apply Hday. right. exact Hin.
Qed.

(** [checkUsageLimit] reads the tier and the day's counter, and nothing
    else; it never throws and changes nothing. *)
Lemma checkUsageLimit_found (cfg : Config) (uid : string) (m : UsageMetricType)
    (now : Z) (w : World) (u : User) :
  subscriber uid w = Some u ->
  checkUsageLimit cfg uid m now w
  = (Return (allowed (subscriptionTier u) m (todays_count cfg uid m now w)), w).
Proof.
  unfold subscriber. intros Hf.
  unfold checkUsageLimit, bind, user_findUnique_id, allowed, todays_count.
  rewrite Hf.
  destruct (String.eqb (subscriptionTier u) "pro"); [reflexivity |].
  destruct (limit_for (subscriptionTier u) m) as [cap |]; [| reflexivity].
  destruct (cap =? 0); [reflexivity |].
  unfold usageMetric_findUnique, ret.
  destruct (find _ (usageMetrics w)); reflexivity.
Qed.

(** X1.  The cap logic, for calls that fall on the same day of the
    process's local calendar: starting from a day without usage, after [k] calls of
    [recordUsage] the check answers true for a pro subscriber, false for a
    zero cap, and otherwise whether [k] is below the cap. *)
Theorem checkUsageLimit_after_k_records (cfg : Config) (uid : string)
    (m : UsageMetricType) (times : list Z) (now : Z) (w : World) (u : User) :
  subscriber uid w = Some u ->
  todays_count cfg uid m now w = 0 ->
  (forall t, In t times -> setHours0 cfg t = setHours0 cfg now) ->
  fst (checkUsageLimit cfg uid m now (recordUsage_each cfg uid m times w))
  = Return (if String.eqb (subscriptionTier u) "pro" then true
            else match limit_for (subscriptionTier u) m with
                 | Infinity => true
                 | Finite cap =>
                     if cap =? 0 then false
                     else Z.of_nat (List.length times) <? cap
                 end).
Proof.
  intros Hf H0 Hday.
  assert (Hf' : subscriber uid (recordUsage_each cfg uid m times w) = Some u).
  { unfold subscriber in *. rewrite recordUsage_each_users. exact Hf. }
  rewrite (checkUsageLimit_found cfg uid m now _ u Hf'). simpl.
  rewrite todays_count_after_records by exact Hday.
  rewrite H0. reflexivity.
Qed.

(** On a UTC host, five calls by the test suite's community subscriber
    exhaust the cap of five ESG calculations. *)
Lemma checkUsageLimit_after_k_records_witness :
  fst (checkUsageLimit testConfig "user-123" esg_calculation 1704092400000
         (recordUsage_each testConfig "user-123" esg_calculation
            (repeat 1704085200000 5) (world_of [mockUser])))
  = Return false.
Proof.
  apply (checkUsageLimit_after_k_records testConfig "user-123" esg_calculation
           (repeat 1704085200000 5) 1704092400000 (world_of [mockUser]) mockUser
           eq_refl eq_refl).
  intros t Hin. apply repeat_spec in Hin. subst t. reflexivity.
Defined.

(** C5 fails where the host's time zone is not UTC.  On a host in
    America/Mexico_City the community subscriber records five ESG
    calculations at 2024-01-01T05:00Z (the cap is five) and asks at
    2024-01-01T07:00Z: same UTC day, but local midnight has passed in
    between, the five calls are counted under the previous local day, and
    the check answers true. *)
Theorem usage_day_is_local_not_utc :
  let cfg := mexicoCityConfig in
  let t_record := 1704085200000 in
  let t_check := 1704092400000 in
  let w := recordUsage_each cfg "user-123" esg_calculation
             (repeat t_record 5) (world_of [mockUser]) in
  utc_day t_record = utc_day t_check
  /\ limit_for "community" esg_calculation = Finite 5
  /\ usageMetrics w
     = [{| um_userId := "user-123"; um_metricType := esg_calculation;
           um_date := 1704002400000; um_count := 5 |}]
  /\ setHours0 cfg t_check = 1704088800000
  /\ fst (checkUsageLimit cfg "user-123" esg_calculation t_check w) = Return true.
Proof. repeat split; reflexivity. Qed.

(** *** SDK: constant-time comparison *)

Lemma fold_xor_or_zero (l : list (Z * Z)) (acc : Z) :
  fold_left Webhook.xor_or l acc = 0
  <-> acc = 0 /\ forall p, In p l -> fst p = snd p.
Proof.
  revert acc. induction l as [| p l IH]; intros acc; simpl.
  - split; [intros H; split; [exact H | intros p []] | intros [H _]; exact H].
  - rewrite IH. unfold Webhook.xor_or. rewrite Z.lor_eq_0_iff, Z.lxor_eq_0_iff.
    split.
    + intros [[Ha Hp] Hl]. split; [exact Ha |].
      intros q [<- | Hq]; [exact Hp | exact (Hl q Hq)].
    + intros [Ha Hl]. repeat split.
      * exact Ha.
      * apply Hl. left. reflexivity.
      * intros q Hq. apply Hl. right. exact Hq.
Qed.

Lemma combine_pointwise_eq (l1 l2 : list Z) :
  List.length l1 = List.length l2 ->
  (forall p, In p (combine l1 l2) -> fst p = snd p) -> l1 = l2.
Proof.
  revert l2. induction l1 as [| x l1 IH]; intros [| y l2] Hlen Hp;
    try discriminate; [reflexivity |].
  simpl in *. f_equal.
  - apply (Hp (x, y)). left. reflexivity.
  - apply IH; [lia |]. intros p Hin. apply Hp. right. exact Hin.
Qed.

Lemma charCodes_length (s : string) :
  List.length (charCodes s) = String.length s.
Proof.
  unfold charCodes. rewrite length_map.
  induction s as [| c s IH]; simpl; [reflexivity | rewrite IH; reflexivity].
Qed.

Lemma charCodes_inj (a b : string) : charCodes a = charCodes b -> a = b.
Proof.
  unfold charCodes. revert b.
  induction a as [| c a IH]; intros [| d b] H; simpl in H;
    try discriminate; [reflexivity |].
  injection H as Hc Hr. f_equal.
  - apply N2Z.inj in Hc.
    rewrite <- (ascii_N_embedding c), <- (ascii_N_embedding d), Hc. reflexivity.
  - apply IH. exact Hr.
Qed.

(** X2.  The SDK's [timingSafeEqual] is string equality. *)
Theorem timingSafeEqual_is_equality (a b : string) :
  Webhook.timingSafeEqual a b = true <-> a = b.
Proof.
  unfold Webhook.timingSafeEqual.
  destruct (Nat.eqb (String.length a) (String.length b)) eqn:E; simpl.
  - apply Nat.eqb_eq in E. rewrite Z.eqb_eq, fold_xor_or_zero. split.
    + intros [_ Hp]. apply charCodes_inj.
      apply combine_pointwise_eq; [rewrite !charCodes_length; exact E | exact Hp].
    + intros ->. split; [reflexivity |].
      intros p Hin. clear E. induction (charCodes b) as [| x l IH];
        simpl in Hin; [contradiction |].
      destruct Hin as [<- | Hin]; [reflexivity | exact (IH Hin)].
  - apply Nat.eqb_neq in E. split; [discriminate |].
    intros ->. contradiction.
Qed.

(** The SDK test suite's three parse cases, on a runtime with Web Crypto:
    a correctly signed body is parsed, a wrong signature is refused with
    the error of C10, and without a signature the body is parsed
    unverified.  On the Node fallback a wrong signature of another length
    than the digest surfaces as the [RangeError] of
    [crypto.timingSafeEqual] instead. *)
Example parseWebhookPayload_cases :
  let web := {| Webhook.hasSubtle := true |} in
  let node := {| Webhook.hasSubtle := false |} in
  let raw := fun s : string => Some s in
  let secret := "whsec_parse_test" in
  Webhook.parseWebhookPayload string raw web "{}"
    (Some (Webhook.createHmac_digest_hex secret "{}")) (Some secret)
  = Return "{}"
  /\ Webhook.parseWebhookPayload string raw web "{}" (Some "invalid") (Some secret)
     = Throw (Error "Invalid webhook signature")
  /\ Webhook.parseWebhookPayload string raw web "{}" None None = Return "{}"
  /\ Webhook.parseWebhookPayload string raw node "{}" (Some "invalid") (Some secret)
     = Throw (RangeError "Input buffers must have the same byte length").
Proof.
  split; [| split; [| split]]; vm_compute; reflexivity.
Qed.

(** The platform model of HMAC-SHA256 reproduces the published digests of
    the usual test messages. *)
Example hmac_sha256_known_answers :
  Webhook.bufferToHex (Sha256.sha256 (charCodes "abc"))
  = "ba7816bf8f01cfea414140de5dae2223b00361a396177a9cb410ff61f20015ad"
  /\ Webhook.createHmac_digest_hex "key"
       "The quick brown fox jumps over the lazy dog"
     = "f7bc83f430538424b13298e6aa6fb143ef4d59a14946175997479dbc2d1a3cd8".
Proof. split; vm_compute; reflexivity. Qed.


(** *** The Janua counterpart of cancellation *)

(** X3.  A Janua subscription.cancelled event for a found subscriber sets the
    tier to ['community'] and tier-expires-at to the current instant (not
    to null); it leaves the stored Stripe subscription id as it was and
    appends one ledger row with amount 0 and status succeeded. *)
Theorem janua_cancellation_expires_now
    (payload : JanuaPayload) (now : Z) (w : World) (u : User) :
  find (fun x => opt_eqb (januaCustomerId x) (customer_id (payload_data payload)))
    (users w) = Some u ->
  let w' := snd (handleJanuaSubscriptionCancelled payload now w) in
  fst (handleJanuaSubscriptionCancelled payload now w) = Return tt
  /\ (exists r0, subscriber (id u) w = Some r0
        /\ exists r, subscriber (id u) w' = Some r
             /\ subscriptionTier r = "community"
             /\ subscriptionExpiresAt r = Some now
             /\ stripeSubscriptionId r = stripeSubscriptionId r0)
  /\ billingEvents w'
     = billingEvents w ++
       [{| userId := id u; type := subscription_cancelled; amount := 0%Q;
           currency := or_else (data_currency (payload_data payload)) "USD";
           status := succeeded; stripeEventId := payload_id payload;
           metadata := [("provider", data_provider (payload_data payload))] |}].
Proof.
  intros Hf.
  unfold handleJanuaSubscriptionCancelled, bind, user_findFirst_januaCustomerId.
  rewrite Hf. unfold user_update. rewrite (found_user_has_row _ _ _ Hf).
  simpl. split; [reflexivity |]. split; [| reflexivity].
  destruct (row_exists_found _ _ (found_user_has_row _ _ _ Hf)) as [r0 Hr0].
  exists r0. unfold subscriber. split; [exact Hr0 |].
  simpl. rewrite find_id_update, Hr0. simpl.
  eexists. split; [reflexivity |]. repeat split; reflexivity.
Qed.

Lemma janua_cancellation_expires_now_witness :
  let u := {| id := "user-janua"; email := "test@example.com"; name := "Test User";
              countryCode := Some "MX"; subscriptionTier := "pro";
              subscriptionStartedAt := Some 1704067200000;
              subscriptionExpiresAt := None;
              stripeCustomerId := None; stripeSubscriptionId := None;
              januaCustomerId := Some "cus_abc";
              billingProvider := Some "conekta" |} in
  let payload := {| payload_id := "evt_123"; payload_type := SUBSCRIPTION_CANCELLED;
                    payload_data :=
                      {| customer_id := "cus_abc"; subscription_id := Some "sub_xyz";
                         plan_id := Some "pro"; data_status := Some "cancelled";
                         data_amount := None; data_currency := Some "MXN";
                         data_provider := Some "conekta";
                         data_metadata_orgId := None |} |} in
  option_map subscriptionExpiresAt
    (subscriber "user-janua"
       (snd (handleJanuaSubscriptionCancelled payload 1700000000000 (world_of [u]))))
  = Some (Some 1700000000000).
Proof.
  cbv zeta.
  match goal with
  | |- option_map _ (subscriber _ (snd (handleJanuaSubscriptionCancelled ?p ?n
                                          (world_of [?u])))) = _ =>
      destruct (janua_cancellation_expires_now p n (world_of [u]) u eq_refl)
        as [_ [[r0 [_ [r [Hr [_ [He _]]]]]] _]]
  end.
  simpl id in Hr. rewrite Hr. simpl. rewrite He. reflexivity.
Defined.


(* ===================================================================== *)
(** ** Further properties of the code *)
(* ===================================================================== *)

Import Queries Invariants.

(** *** SDK: the digest and its verification *)

Lemma round_length (st : list Z) (kw : Z * Z) :
  List.length (Sha256.round st kw) = List.length st.
Proof.
  unfold Sha256.round.
  do 9 (destruct st as [| ? st]; [reflexivity |]). reflexivity.
Qed.

Lemma fold_round_length (l : list (Z * Z)) (st : list Z) :
  List.length (fold_left Sha256.round l st) = List.length st.
Proof.
  revert st. induction l as [| kw l IH]; intros st; simpl;
    [reflexivity | rewrite IH; apply round_length].
Qed.

Lemma compress_length (h block : list Z) :
  List.length (Sha256.compress h block) = List.length h.
Proof.
  unfold Sha256.compress.
  rewrite length_map, length_combine, fold_round_length. apply Nat.min_id.
Qed.

Lemma fold_compress_length (bs : list (list Z)) (h : list Z) :
  List.length (fold_left Sha256.compress bs h) = List.length h.
Proof.
  revert h. induction bs as [| b bs IH]; intros h; simpl;
    [reflexivity | rewrite IH; apply compress_length].
Qed.

Lemma be_bytes_length (n : nat) (x : Z) : List.length (Sha256.be_bytes n x) = n.
Proof. induction n as [| n IH]; simpl; [reflexivity | rewrite IH; reflexivity]. Qed.

Lemma flat_map_be_bytes_length (h : list Z) :
  List.length (flat_map (Sha256.be_bytes 4) h) = (4 * List.length h)%nat.
Proof.
  induction h as [| x h IH]; [reflexivity |].
  cbn [flat_map]. rewrite length_app, be_bytes_length, IH. simpl. lia.
Qed.

(** A SHA-256 digest has 32 bytes, whatever the message. *)
Lemma sha256_length (msg : list Z) : List.length (Sha256.sha256 msg) = 32%nat.
Proof.
  unfold Sha256.sha256. rewrite flat_map_be_bytes_length, fold_compress_length.
  vm_compute. reflexivity.
Qed.

Lemma hmac_sha256_length (key msg : list Z) :
  List.length (Sha256.hmac_sha256 key msg) = 32%nat.
Proof. unfold Sha256.hmac_sha256. apply sha256_length. Qed.

Lemma hex_pair_length (b : Z) :
  String.length (Webhook.padStart2 (Webhook.toString16 b)) = 2%nat.
Proof.
  unfold Webhook.padStart2, Webhook.toString16.
  destruct (b <? 16); reflexivity.
Qed.

Lemma concat_pairs_length (l : list string) :
  (forall s, In s l -> String.length s = 2%nat) ->
  String.length (String.concat "" l) = (2 * List.length l)%nat.
Proof.
  induction l as [| x l IH]; intros Hl; [reflexivity |].
  assert (Hx : String.length x = 2%nat) by (apply Hl; left; reflexivity).
  assert (Hr : String.length (String.concat "" l) = (2 * List.length l)%nat)
    by (apply IH; intros s Hs; apply Hl; right; exact Hs).
  destruct l as [| y l]; [simpl; rewrite Hx; reflexivity |].
  change (String.concat "" (x :: y :: l))
    with (x ++ "" ++ String.concat "" (y :: l))%string.
  rewrite length_append. cbn [append].
  rewrite Hx, Hr. cbn [List.length]. lia.
Qed.

(** [bufferToHex] writes exactly two characters per byte. *)
Lemma bufferToHex_length (buffer : list Z) :
  String.length (Webhook.bufferToHex buffer) = (2 * List.length buffer)%nat.
Proof.
  unfold Webhook.bufferToHex. rewrite concat_pairs_length.
  - rewrite length_map. reflexivity.
  - intros s Hs. apply in_map_iff in Hs. destruct Hs as [b [<- _]].
    apply hex_pair_length.
Qed.

Lemma digest_hex_length (secret rawBody : string) :
  String.length (Webhook.createHmac_digest_hex secret rawBody) = 64%nat.
Proof.
  unfold Webhook.createHmac_digest_hex.
  rewrite bufferToHex_length, hmac_sha256_length. reflexivity.
Qed.

Lemma timingSafeEqual_eqb (a b : string) :
  Webhook.timingSafeEqual a b = String.eqb a b.
Proof.
  destruct (String.eqb a b) eqn:E.
  - apply String.eqb_eq in E. subst b. unfold Webhook.timingSafeEqual.
    rewrite Nat.eqb_refl. simpl. apply Z.eqb_eq. apply fold_xor_or_zero.
    split; [reflexivity |]. intros p Hin.
    induction (charCodes a) as [| x l IH]; simpl in Hin; [contradiction |].
    destruct Hin as [<- | Hin]; [reflexivity | exact (IH Hin)].
  - apply String.eqb_neq in E. unfold Webhook.timingSafeEqual.
    destruct (Nat.eqb (String.length a) (String.length b)) eqn:El; simpl;
      [| reflexivity].
    apply Nat.eqb_eq in El. apply Z.eqb_neq. intros H0.
    apply fold_xor_or_zero in H0. destruct H0 as [_ Hp]. apply E.
    apply charCodes_inj. apply combine_pointwise_eq;
      [rewrite !charCodes_length; exact El | exact Hp].
Qed.

Lemma forallb_combine_eqb (l1 l2 : list Z) :
  List.length l1 = List.length l2 ->
  forallb (fun p => fst p =? snd p) (combine l1 l2) = true <-> l1 = l2.
Proof.
  intros Hlen. rewrite forallb_forall. split.
  - intros H. apply combine_pointwise_eq; [exact Hlen |].
    intros p Hin. apply Z.eqb_eq. exact (H p Hin).
  - intros ->. intros p Hin. apply Z.eqb_eq. clear Hlen.
    induction l2 as [| x l IH]; simpl in Hin; [contradiction |].
    destruct Hin as [<- | Hin]; [reflexivity | exact (IH Hin)].
Qed.

Lemma importKey_nonempty (secret : string) :
  secret <> "" ->
  Webhook.subtle_importKey_raw_HMAC (Webhook.TextEncoder_encode secret)
  = Return (charCodes secret).
Proof. destruct secret; [contradiction | reflexivity]. Qed.

(** X4.  Where Web Crypto is available, [verifyWebhookSignature] called
    with a non-empty secret never throws and returns whether the signature
    is the lowercase hex HMAC-SHA256 of the body under the secret, whatever
    the signature's length.  Called with the empty secret it throws the
    [DataError] with which [importKey] rejects a zero-length key. *)
Theorem verifyWebhookSignature_web_crypto (rawBody signature secret : string) :
  (secret <> "" ->
   Webhook.verifyWebhookSignature {| Webhook.hasSubtle := true |}
     rawBody signature secret
   = Return (String.eqb signature (Webhook.createHmac_digest_hex secret rawBody)))
  /\ exists m,
       Webhook.verifyWebhookSignature {| Webhook.hasSubtle := true |}
         rawBody signature "" = Throw (DataError m).
Proof.
  split.
  - intros Hne. unfold Webhook.verifyWebhookSignature. cbn [Webhook.hasSubtle].
    rewrite (importKey_nonempty secret Hne). unfold Webhook.TextEncoder_encode.
    fold (Webhook.createHmac_digest_hex secret rawBody).
    rewrite timingSafeEqual_eqb, String.eqb_sym. reflexivity.
  - eexists. reflexivity.
Qed.

(** X5.  On the Node fallback, [verifyWebhookSignature] throws a
    [RangeError] for every signature that is not 64 characters long, and
    for a signature of 64 characters returns whether it is the digest. *)
Theorem verifyWebhookSignature_node_fallback (rawBody signature secret : string) :
  Webhook.verifyWebhookSignature {| Webhook.hasSubtle := false |}
    rawBody signature secret
  = if (String.length signature =? 64)%nat
    then Return (String.eqb signature (Webhook.createHmac_digest_hex secret rawBody))
    else Throw (RangeError "Input buffers must have the same byte length").
Proof.
  unfold Webhook.verifyWebhookSignature, Webhook.crypto_timingSafeEqual. simpl.
  rewrite !charCodes_length, digest_hex_length, Nat.eqb_sym.
  destruct (Nat.eqb (String.length signature) 64) eqn:El; [| reflexivity].
  apply Nat.eqb_eq in El. f_equal.
  destruct (String.eqb signature _) eqn:E.
  - apply String.eqb_eq in E. apply forallb_combine_eqb.
    + rewrite !charCodes_length, digest_hex_length. symmetry. exact El.
    + rewrite <- E. reflexivity.
  - apply String.eqb_neq in E. apply not_true_is_false. intros H.
    apply forallb_combine_eqb in H.
    + apply E. symmetry. apply charCodes_inj. exact H.
    + rewrite !charCodes_length, digest_hex_length. symmetry. exact El.
Qed.

(** X6.  Signing and verifying agree: the digest of a body under a
    secret verifies against that body and secret, on Web Crypto for every
    non-empty secret and on the Node fallback for every secret; and
    [parseWebhookPayload] with that digest and a non-empty secret goes on to
    parse the body, on either runtime. *)
Theorem sign_then_verify (rt : Webhook.Runtime) (rawBody secret : string) :
  (secret <> "" \/ Webhook.hasSubtle rt = false ->
   Webhook.verifyWebhookSignature rt rawBody
     (Webhook.createHmac_digest_hex secret rawBody) secret = Return true)
  /\ (forall (Payload : Type) (JSON_parse : string -> option Payload),
        secret <> "" ->
        Webhook.parseWebhookPayload Payload JSON_parse rt rawBody
          (Some (Webhook.createHmac_digest_hex secret rawBody)) (Some secret)
        = Webhook.parse_body Payload JSON_parse rawBody).
Proof.
  assert (Hv : secret <> "" \/ Webhook.hasSubtle rt = false ->
               Webhook.verifyWebhookSignature rt rawBody
                 (Webhook.createHmac_digest_hex secret rawBody) secret
               = Return true).
  { intros Hcase.
    unfold Webhook.verifyWebhookSignature, Webhook.crypto_timingSafeEqual.
    destruct (Webhook.hasSubtle rt).
    - destruct Hcase as [Hne | Hf]; [| discriminate].
      rewrite (importKey_nonempty secret Hne).
      unfold Webhook.TextEncoder_encode.
      fold (Webhook.createHmac_digest_hex secret rawBody).
      rewrite timingSafeEqual_eqb, String.eqb_refl. reflexivity.
    - rewrite Nat.eqb_refl. f_equal. apply forallb_combine_eqb; reflexivity. }
  split; [exact Hv |].
  intros Payload JSON_parse Hne. unfold Webhook.parseWebhookPayload.
  assert (Hd : Webhook.createHmac_digest_hex secret rawBody <> "").
  { intros H0. pose proof (digest_hex_length secret rawBody) as Hl.
    rewrite H0 in Hl. discriminate. }
  pose proof (Hv (or_introl Hne)) as Hv'.
  apply String.eqb_neq in Hne. apply String.eqb_neq in Hd.
  unfold truthy, or_else. rewrite Hne, Hd. simpl. rewrite Hv'. reflexivity.
Qed.

(** *** What the webhook endpoints answer *)

(** X7.  The Stripe endpoint never throws: every request gets a response.
    The response says [received: true] exactly when the webhook secret is
    configured, the Stripe SDK accepted the signature, and the handler of
    the event completed without throwing. *)
Theorem handleWebhook_always_answers
    (cfg : Config) (out : Outside) (body signature : string) (now : Z)
    (w : World) :
  exists r,
    fst (handleWebhook cfg out body signature now w) = Return r
    /\ (received r = true
        <-> truthy (STRIPE_WEBHOOK_SECRET cfg) = true
            /\ exists event,
                 stripe_constructEvent out body signature
                   (or_else (STRIPE_WEBHOOK_SECRET cfg) "") = Return event
                 /\ fst (dispatch_event cfg out event now
                           (logged log_info
                              [Txt "Received Stripe webhook: ";
                               Txt (event_type event)] w))
                    = Return tt).
Proof.
  destruct (truthy (STRIPE_WEBHOOK_SECRET cfg)) eqn:Hs.
  - destruct (stripe_constructEvent out body signature
                (or_else (STRIPE_WEBHOOK_SECRET cfg) "")) as [event | e] eqn:He.
    + rewrite (handleWebhook_verified cfg out body signature now w event Hs He).
      destruct (dispatch_event cfg out event now _) as [[[] | err] w'] eqn:Hd.
      * eexists. split; [reflexivity |]. simpl. split; [| reflexivity].
        intros _. split; [reflexivity |]. exists event.
        split; [reflexivity |]. rewrite Hd. reflexivity.
      * eexists. split; [reflexivity |]. simpl. split; [discriminate |].
        intros [_ [event' [Heq Hr]]].
        assert (event' = event) by congruence. subst event'.
        rewrite Hd in Hr. discriminate.
    + exists {| received := false; error := Some "Invalid signature" |}.
      split.
      * unfold handleWebhook. rewrite Hs. simpl.
        unfold bind at 1. unfold try_catch at 1. unfold bind at 1.
        rewrite (constructWebhookEvent_throws _ _ _ _ _ _ He). reflexivity.
      * simpl. split; [discriminate |].
        intros [_ [event [Heq _]]]. discriminate.
  - exists {| received := false; error := Some "Webhook secret not configured" |}.
    split.
    + unfold handleWebhook. rewrite Hs. reflexivity.
    + simpl. split; [discriminate | intros [H _]; discriminate].
Qed.

Lemma JanuaBilling_verifyWebhookSignature_answer (cfg : Config)
    (payload signature : string) (w : World) :
  JanuaBilling_verifyWebhookSignature cfg payload signature w
  = let secret := config_get (JANUA_WEBHOOK_SECRET cfg) "" in
    if String.eqb secret "" then
      (Return false, logged log_warn [Txt "JANUA_WEBHOOK_SECRET not configured"] w)
    else if (String.length signature =? 64)%nat
    then (Return (String.eqb signature
                    (Webhook.createHmac_digest_hex secret payload)), w)
    else (Throw (RangeError "Input buffers must have the same byte length"), w).
Proof.
  unfold JanuaBilling_verifyWebhookSignature. cbv zeta.
  destruct (String.eqb (config_get (JANUA_WEBHOOK_SECRET cfg) "") ""); [reflexivity |].
  unfold lift, Webhook.crypto_timingSafeEqual.
  rewrite !charCodes_length, digest_hex_length.
  destruct (Nat.eqb (String.length signature) 64) eqn:El; [| reflexivity].
  apply Nat.eqb_eq in El. do 2 f_equal.
  destruct (String.eqb signature _) eqn:E.
  - apply String.eqb_eq in E. apply forallb_combine_eqb.
    + rewrite !charCodes_length, digest_hex_length. exact El.
    + rewrite <- E. reflexivity.
  - apply String.eqb_neq in E. apply not_true_is_false. intros H.
    apply forallb_combine_eqb in H.
    + apply E. apply charCodes_inj. exact H.
    + rewrite !charCodes_length, digest_hex_length. exact El.
Qed.

(** X8.  What the Janua endpoint answers, case by case.  Without a
    configured secret every request is refused.  With one, a signature
    header that is missing or not 64 bytes long makes the request fail
    with the [RangeError] of [crypto.timingSafeEqual], which is not caught;
    a 64-byte header that is not the digest is refused; the digest is
    accepted, and then the response reflects whether the handler threw. *)
Theorem handleJanuaWebhook_answer
    (cfg : Config) (out : Outside) (rawBody : string)
    (signature : option string) (payload : JanuaPayload) (now : Z) (w : World) :
  fst (handleJanuaWebhook cfg out rawBody signature payload now w)
  = let secret := config_get (JANUA_WEBHOOK_SECRET cfg) "" in
    let header := or_else signature "" in
    let refused := {| janua_received := false;
                      janua_error := Some "Invalid signature";
                      janua_event := None |} in
    if String.eqb secret "" then Return refused
    else if negb (String.length header =? 64)%nat
    then Throw (RangeError "Input buffers must have the same byte length")
    else if negb (String.eqb header (Webhook.createHmac_digest_hex secret rawBody))
    then Return refused
    else
      match fst (dispatch_janua cfg out payload now
                   (logged log_info
                      [Txt "Received Janua webhook: ";
                       Txt (janua_event_name (payload_type payload));
                       Txt " from provider ";
                       Opt (data_provider (payload_data payload))] w)) with
      | Return _ =>
          Return {| janua_received := true; janua_error := None;
                    janua_event := Some (janua_event_name (payload_type payload)) |}
      | Throw err =>
          Return {| janua_received := false; janua_error := Some (message err);
                    janua_event := None |}
      end.
Proof.
  unfold handleJanuaWebhook. unfold bind at 1.
  rewrite JanuaBilling_verifyWebhookSignature_answer. cbv zeta.
  destruct (String.eqb (config_get (JANUA_WEBHOOK_SECRET cfg) "") "");
    [reflexivity |].
  destruct (Nat.eqb (String.length (or_else signature "")) 64); [| reflexivity].
  destruct (String.eqb (or_else signature "") _); [| reflexivity].
  cbn [negb]. unfold bind at 1. unfold logger at 1. unfold logged.
  unfold try_catch, bind.
  match goal with
  | |- context [dispatch_janua cfg out payload now ?x] =>
      destruct (dispatch_janua cfg out payload now x) as [[[] | err] w']
  end; reflexivity.
Qed.

(** *** What no webhook and no checkout initiation touches *)

Section Keeps.
Variable R : World -> World -> Prop.
Hypothesis R_refl : forall w, R w w.
Hypothesis R_trans : forall w1 w2 w3, R w1 w2 -> R w2 w3 -> R w1 w3.
Context {A B : Type}.

Lemma keeps_ret (a : A) : keeps R (ret a).
Proof. intros w. apply R_refl. Qed.

Lemma keeps_throw (e : JsError) : keeps R (@throw A e).
Proof. intros w. apply R_refl. Qed.

Lemma keeps_lift (c : Completion A) : keeps R (lift c).
Proof. intros w. apply R_refl. Qed.

Lemma keeps_bind (c : M A) (k : A -> M B) :
  keeps R c -> (forall a, keeps R (k a)) -> keeps R (bind c k).
Proof.
  intros Hc Hk w. unfold bind. specialize (Hc w).
  destruct (c w) as [[a | e] w']; simpl in *; [| exact Hc].
  eapply R_trans; [exact Hc | apply Hk].
Qed.

Lemma keeps_try_catch (c : M A) (h : JsError -> M A) :
  keeps R c -> (forall e, keeps R (h e)) -> keeps R (try_catch c h).
Proof.
  intros Hc Hh w. unfold try_catch. specialize (Hc w).
  destruct (c w) as [[a | e] w']; simpl in *; [exact Hc |].
  eapply R_trans; [exact Hc | apply Hh].
Qed.

End Keeps.

Lemma webhook_frame_refl (w : World) : webhook_frame w w.
Proof.
  repeat split; try reflexivity; exists []; rewrite app_nil_r; reflexivity.
Qed.

Lemma webhook_frame_trans (w1 w2 w3 : World) :
  webhook_frame w1 w2 -> webhook_frame w2 w3 -> webhook_frame w1 w3.
Proof.
  intros (Hi & Hu & [r Hr] & [a Ha]) (Hi' & Hu' & [r' Hr'] & [a' Ha']).
  repeat split.
  - congruence.
  - congruence.
  - exists (r ++ r'). rewrite Hr', Hr, app_assoc. reflexivity.
  - exists (a ++ a'). rewrite Ha', Ha, app_assoc. reflexivity.
Qed.

Lemma checkout_frame_refl (w : World) : checkout_frame w w.
Proof. repeat split. Qed.

Lemma checkout_frame_trans (w1 w2 w3 : World) :
  checkout_frame w1 w2 -> checkout_frame w2 w3 -> checkout_frame w1 w3.
Proof.
  intros (Hi & He & Hu & Hb) (Hi' & He' & Hu' & Hb').
  repeat split; congruence.
Qed.

Lemma identity_update_where_id (uid : string) (d : UserData) (us : list User) :
  map identity (update_where_id uid d us) = map identity us.
Proof.
  unfold update_where_id. rewrite map_map. apply map_ext.
  intros u. destruct (String.eqb (id u) uid); reflexivity.
Qed.

Lemma entitlement_update_where_id (uid : string) (d : UserData)
    (us : list User) :
  leaves_entitlement d ->
  map entitlement (update_where_id uid d us) = map entitlement us.
Proof.
  intros (H1 & H2 & H3 & H4).
  unfold update_where_id. rewrite map_map. apply map_ext.
  intros u. destruct (String.eqb (id u) uid); [| reflexivity].
  unfold entitlement, apply_data. simpl. rewrite H1, H2, H3, H4. reflexivity.
Qed.

Ltac frame_same :=
  repeat split; simpl; try reflexivity;
  try (exists []; rewrite app_nil_r; reflexivity).

Lemma keeps_webhook_logger (l : LogLevel) (ps : list Piece) :
  keeps webhook_frame (logger l ps).
Proof. intros w. frame_same. Qed.

Lemma keeps_webhook_send (o : Outbound) : keeps webhook_frame (send o).
Proof. intros w. frame_same. Qed.

Lemma keeps_webhook_audit_log (e : AuditEntry) :
  keeps webhook_frame (audit_log e).
Proof.
  intros w. repeat split; try (exists []; rewrite app_nil_r; reflexivity).
  exists [e]. reflexivity.
Qed.

Lemma keeps_webhook_user_findUnique_id (uid : string) :
  keeps webhook_frame (user_findUnique_id uid).
Proof. intros w. frame_same. Qed.

Lemma keeps_webhook_user_findUnique_stripeCustomerId (cid : string) :
  keeps webhook_frame (user_findUnique_stripeCustomerId cid).
Proof. intros w. frame_same. Qed.

Lemma keeps_webhook_user_findFirst_januaCustomerId (cid : string) :
  keeps webhook_frame (user_findFirst_januaCustomerId cid).
Proof. intros w. frame_same. Qed.

Lemma keeps_webhook_user_update (uid : string) (d : UserData) :
  keeps webhook_frame (user_update uid d).
Proof.
  intros w. unfold user_update.
  destruct (existsb _ (users w)); [| apply webhook_frame_refl].
  repeat split; simpl; try (exists []; rewrite app_nil_r; reflexivity).
  apply identity_update_where_id.
Qed.

Lemma keeps_webhook_billingEvent_create (e : BillingEvent) :
  keeps webhook_frame (billingEvent_create e).
Proof.
  intros w. repeat split; simpl; try (exists []; rewrite app_nil_r; reflexivity).
  exists [e]. reflexivity.
Qed.

Ltac keeps_webhook_step :=
  first
    [ apply (keeps_bind _ webhook_frame_trans); [| intros ?]
    | apply (keeps_try_catch _ webhook_frame_trans); [| intros ?]
    | apply (keeps_ret _ webhook_frame_refl)
    | apply (keeps_throw _ webhook_frame_refl)
    | apply (keeps_lift _ webhook_frame_refl)
    | apply keeps_webhook_logger
    | apply keeps_webhook_audit_log
    | apply keeps_webhook_send
    | apply keeps_webhook_user_findUnique_id
    | apply keeps_webhook_user_findUnique_stripeCustomerId
    | apply keeps_webhook_user_findFirst_januaCustomerId
    | apply keeps_webhook_user_update
    | apply keeps_webhook_billingEvent_create
    | match goal with
      | |- keeps _ (match ?x with _ => _ end) => destruct x
      end ].

Ltac keeps_webhook_auto := cbv zeta; repeat keeps_webhook_step.

Lemma keeps_webhook_dispatch_event (cfg : Config) (out : Outside)
    (event : StripeEvent) (now : Z) :
  keeps webhook_frame (dispatch_event cfg out event now).
Proof.
  unfold dispatch_event.
  destruct (event_data event);
    unfold handleSubscriptionCreated, handleSubscriptionUpdated,
      handleSubscriptionCancelled, handlePaymentSucceeded, handlePaymentFailed,
      handleCheckoutCompleted, user_not_found,
      StripeService_retrieveCheckoutSession, dispatchJanuaRoleUpgrade;
    keeps_webhook_auto.
Qed.

Lemma keeps_webhook_dispatch_janua (cfg : Config) (out : Outside)
    (payload : JanuaPayload) (now : Z) :
  keeps webhook_frame (dispatch_janua cfg out payload now).
Proof.
  unfold dispatch_janua.
  destruct (payload_type payload);
    unfold handleJanuaSubscriptionCreated, handleJanuaSubscriptionUpdated,
      handleJanuaSubscriptionCancelled, handleJanuaSubscriptionPaused,
      handleJanuaSubscriptionResumed, handleJanuaPaymentSucceeded,
      handleJanuaPaymentFailed, handleJanuaPaymentRefunded,
      janua_user_not_found, notifyJanuaOfTierChange;
    keeps_webhook_auto.
Qed.

(** X9.  Whatever a webhook request carries, and whether it is accepted,
    refused or fails, on either endpoint: no account is created or deleted
    and no account's id, e-mail, name or country changes; no usage counter
    changes; the ledger and the audit trail only grow at the end. *)
Theorem webhooks_keep_accounts_usage_and_history
    (cfg : Config) (out : Outside) (now : Z) (w : World) :
  (forall body signature,
      webhook_frame w (snd (handleWebhook cfg out body signature now w)))
  /\ (forall rawBody signature payload,
         webhook_frame w
           (snd (handleJanuaWebhook cfg out rawBody signature payload now w))).
Proof.
  split.
  - intros body signature. revert w.
    change (keeps webhook_frame (handleWebhook cfg out body signature now)).
    unfold handleWebhook, StripeService_constructWebhookEvent.
    keeps_webhook_auto. apply keeps_webhook_dispatch_event.
  - intros rawBody signature payload. revert w.
    change (keeps webhook_frame
              (handleJanuaWebhook cfg out rawBody signature payload now)).
    unfold handleJanuaWebhook, JanuaBilling_verifyWebhookSignature.
    keeps_webhook_auto. apply keeps_webhook_dispatch_janua.
Qed.

Lemma keeps_checkout_logger (l : LogLevel) (ps : list Piece) :
  keeps checkout_frame (logger l ps).
Proof. intros w. frame_same. Qed.

Lemma keeps_checkout_send (o : Outbound) : keeps checkout_frame (send o).
Proof. intros w. frame_same. Qed.

Lemma keeps_checkout_audit_log (e : AuditEntry) :
  keeps checkout_frame (audit_log e).
Proof. intros w. frame_same. Qed.

Lemma keeps_checkout_user_findUnique_id (uid : string) :
  keeps checkout_frame (user_findUnique_id uid).
Proof. intros w. frame_same. Qed.

Lemma keeps_checkout_user_update (uid : string) (d : UserData) :
  leaves_entitlement d -> keeps checkout_frame (user_update uid d).
Proof.
  intros Hd w. unfold user_update.
  destruct (existsb _ (users w)); [| apply checkout_frame_refl].
  repeat split; simpl.
  - apply identity_update_where_id.
  - apply entitlement_update_where_id. exact Hd.
Qed.

Ltac keeps_checkout_step :=
  first
    [ apply (keeps_bind _ checkout_frame_trans); [| intros ?]
    | apply (keeps_try_catch _ checkout_frame_trans); [| intros ?]
    | apply (keeps_ret _ checkout_frame_refl)
    | apply (keeps_throw _ checkout_frame_refl)
    | apply (keeps_lift _ checkout_frame_refl)
    | apply keeps_checkout_logger
    | apply keeps_checkout_audit_log
    | apply keeps_checkout_send
    | apply keeps_checkout_user_findUnique_id
    | apply keeps_checkout_user_update; repeat split
    | match goal with
      | |- keeps _ (match ?x with _ => _ end) => destruct x
      end ].

Ltac keeps_checkout_auto := cbv zeta; repeat keeps_checkout_step.

Lemma keeps_checkout_upgradeToPremiumViaJanua (cfg : Config) (out : Outside)
    (user : User) (countryCode webUrl : string) (options : UpgradeOptions) :
  keeps checkout_frame
    (upgradeToPremiumViaJanua cfg out user countryCode webUrl options).
Proof.
  unfold upgradeToPremiumViaJanua, JanuaBilling_createCustomer,
    JanuaBilling_createCheckoutSession.
  keeps_checkout_auto.
Qed.

Lemma keeps_checkout_upgradeToPremiumViaStripe (cfg : Config) (out : Outside)
    (user : User) (webUrl : string) (options : UpgradeOptions) :
  keeps checkout_frame (upgradeToPremiumViaStripe cfg out user webUrl options).
Proof.
  unfold upgradeToPremiumViaStripe, StripeService_createCustomer,
    StripeService_createCheckoutSession.
  keeps_checkout_auto.
Qed.

Lemma keeps_checkout_upgradeToPremium (cfg : Config) (out : Outside)
    (userId : string) (options : UpgradeOptions) :
  keeps checkout_frame (upgradeToPremium cfg out userId options).
Proof.
  unfold upgradeToPremium, upgradeToPremiumViaJanua, upgradeToPremiumViaStripe,
    JanuaBilling_createCustomer, JanuaBilling_createCheckoutSession,
    StripeService_createCustomer, StripeService_createCheckoutSession.
  keeps_checkout_auto.
Qed.

Lemma keeps_checkout_createExternalCheckout (cfg : Config) (out : Outside)
    (userId plan returnUrl : string) :
  keeps checkout_frame (createExternalCheckout cfg out userId plan returnUrl).
Proof.
  unfold createExternalCheckout.
  apply (keeps_bind _ checkout_frame_trans);
    [apply keeps_checkout_user_findUnique_id |].
  intros [user |]; [| apply (keeps_throw _ checkout_frame_refl)].
  cbv zeta. destruct (JanuaBilling_isEnabled cfg).
  - apply (keeps_bind _ checkout_frame_trans);
      [apply keeps_checkout_upgradeToPremiumViaJanua |].
    intros ?. apply (keeps_ret _ checkout_frame_refl).
  - unfold StripeService_createCustomer, StripeService_createCheckoutSession.
    keeps_checkout_auto.
Qed.

(** X10.  Starting a checkout grants nothing.  Whatever the arguments and
    whatever the payment providers answer, [upgradeToPremium],
    [createExternalCheckout] and the public checkout endpoint leave every
    account's tier, tier dates and subscription id as they were, create and
    delete no account, write no ledger row and change no usage counter:
    entitlement changes only through webhooks. *)
Theorem checkout_initiation_grants_nothing
    (cfg : Config) (out : Outside) (w : World) :
  (forall userId options,
      checkout_frame w (snd (upgradeToPremium cfg out userId options w)))
  /\ (forall userId plan returnUrl,
         checkout_frame w
           (snd (createExternalCheckout cfg out userId plan returnUrl w)))
  /\ (forall query, checkout_frame w (snd (publicCheckout cfg out query w))).
Proof.
  split; [| split].
  - intros. apply keeps_checkout_upgradeToPremium.
  - intros. apply keeps_checkout_createExternalCheckout.
  - intros query. revert w.
    change (keeps checkout_frame (publicCheckout cfg out query)).
    unfold publicCheckout.
    destruct (URL_hostname out (q_return_url query)) as [host |];
      [| apply (keeps_throw _ checkout_frame_refl)].
    destruct (negb _); [apply (keeps_throw _ checkout_frame_refl) |].
    apply (keeps_bind _ checkout_frame_trans);
      [apply keeps_checkout_createExternalCheckout |].
    intros ?. apply (keeps_ret _ checkout_frame_refl).
Qed.

(** *** What the remaining handlers write *)

(** X11.  A Stripe subscription-updated event for a found subscriber moves
    tier-expires-at to the end of the new period and nothing else: the tier,
    tier-started-at and the stored subscription id stay as they were,
    whatever the event says about the subscription, and no ledger row, audit
    entry or outbound request is made. *)
Theorem subscription_updated_only_moves_expiry
    (eid : string) (s : Subscription) (w : World) (u : User) :
  by_customer (sub_customer s) w = Some u ->
  let w' := snd (handleSubscriptionUpdated eid s w) in
  fst (handleSubscriptionUpdated eid s w) = Return tt
  /\ (exists r0, subscriber (id u) w = Some r0
        /\ exists r, subscriber (id u) w' = Some r
             /\ subscriptionExpiresAt r = Some (current_period_end s * 1000)
             /\ subscriptionTier r = subscriptionTier r0
             /\ subscriptionStartedAt r = subscriptionStartedAt r0
             /\ stripeSubscriptionId r = stripeSubscriptionId r0)
  /\ billingEvents w' = billingEvents w
  /\ auditLog w' = auditLog w
  /\ outbound w' = outbound w.
Proof.
  unfold by_customer. intros Hf.
  unfold handleSubscriptionUpdated, bind, user_findUnique_stripeCustomerId.
  rewrite Hf. unfold user_update. rewrite (found_user_has_row _ _ _ Hf).
  simpl. split; [reflexivity |]. split; [| repeat split; reflexivity].
  destruct (row_exists_found _ _ (found_user_has_row _ _ _ Hf)) as [r0 Hr0].
  exists r0. unfold subscriber. split; [exact Hr0 |].
  simpl. rewrite find_id_update, Hr0. simpl.
  eexists. split; [reflexivity |]. repeat split; reflexivity.
Qed.

Lemma subscription_updated_only_moves_expiry_witness :
  let w := world_of [userWithStripe] in
  let s := mockSubscription in
  option_map (fun r => (subscriptionTier r, subscriptionExpiresAt r))
    (subscriber "user-123" (snd (handleSubscriptionUpdated "evt_test123" s w)))
  = Some ("community", Some (current_period_end s * 1000)).
Proof.
  cbv zeta.
  destruct (subscription_updated_only_moves_expiry "evt_test123"
              mockSubscription (world_of [userWithStripe]) userWithStripe eq_refl)
    as [_ [[r0 [H0 [r [Hr [He [Ht _]]]]]] _]].
  simpl id in Hr. rewrite Hr. simpl. rewrite He, Ht.
  injection H0 as <-. reflexivity.
Defined.

(** X12.  A Stripe invoice.payment_succeeded event for a found subscriber
    is recorded and nothing more: the user table, the audit trail and the
    outbound requests are unchanged (the tier is not renewed or extended
    here), and the ledger gains one row with the amount paid in major
    units, the invoice's currency in upper case (['USD'] when it is empty)
    and status succeeded. *)
Theorem stripe_payment_succeeded_only_appends_to_ledger
    (eid : string) (i : Invoice) (w : World) (u : User) :
  by_customer (inv_customer i) w = Some u ->
  let w' := snd (handlePaymentSucceeded eid i w) in
  fst (handlePaymentSucceeded eid i w) = Return tt
  /\ users w' = users w
  /\ usageMetrics w' = usageMetrics w
  /\ auditLog w' = auditLog w
  /\ outbound w' = outbound w
  /\ billingEvents w'
     = billingEvents w ++
       [{| userId := id u; type := payment_succeeded;
           amount := major_units (amount_paid i);
           currency := or_else (Some (toUpperCase (inv_currency i))) "USD";
           status := succeeded; stripeEventId := eid;
           metadata := [("invoiceId", Some (inv_id i));
                        ("subscriptionId", inv_subscription i)] |}].
Proof.
  unfold by_customer. intros Hf.
  unfold handlePaymentSucceeded, bind, user_findUnique_stripeCustomerId.
  rewrite Hf. simpl. repeat split; reflexivity.
Qed.

Lemma stripe_payment_succeeded_only_appends_to_ledger_witness :
  let w := world_of [userWithStripe] in
  let w' := snd (handlePaymentSucceeded "evt_test123" mockInvoice w) in
  users w' = users w
  /\ map (fun e => (type e, status e, currency e)) (billingEvents w')
     = [(payment_succeeded, succeeded, "USD")].
Proof.
  cbv zeta.
  destruct (stripe_payment_succeeded_only_appends_to_ledger "evt_test123"
              mockInvoice (world_of [userWithStripe]) userWithStripe eq_refl)
    as [_ [Hu [_ [_ [_ Hb]]]]].
  split; [exact Hu |]. rewrite Hb. reflexivity.
Defined.

Lemma subscriber_after_janua_update (cid : string) (d : UserData)
    (us : list User) (u : User) :
  find (fun x => opt_eqb (januaCustomerId x) cid) us = Some u ->
  exists r0,
    find (fun x => String.eqb (id x) (id u)) us = Some r0
    /\ find (fun x => String.eqb (id x) (id u)) (update_where_id (id u) d us)
       = Some (apply_data d r0).
Proof.
  intros Hf.
  destruct (row_exists_found _ _ (found_user_has_row _ _ _ Hf)) as [r0 Hr0].
  exists r0. split; [exact Hr0 |]. rewrite find_id_update, Hr0. reflexivity.
Qed.

(** X13.  Every Janua event that grants a tier grants ['pro'], whatever plan
    the payload names and whatever tier the subscriber was on:
    subscription.created, subscription.resumed and payment.succeeded all
    leave the found subscriber on ['pro'].  payment.succeeded also appends
    one ledger row whose amount is the payload's amount as given (0 when
    absent), not divided by 100. *)
Theorem janua_grants_are_always_pro
    (cfg : Config) (out : Outside) (payload : JanuaPayload) (now : Z)
    (w : World) (u : User) :
  by_janua_customer (customer_id (payload_data payload)) w = Some u ->
  (forall h,
      In h [handleJanuaSubscriptionCreated cfg out payload now;
            handleJanuaSubscriptionResumed payload;
            handleJanuaPaymentSucceeded payload] ->
      fst (h w) = Return tt
      /\ exists r, subscriber (id u) (snd (h w)) = Some r
                   /\ subscriptionTier r = "pro")
  /\ billingEvents (snd (handleJanuaPaymentSucceeded payload w))
     = billingEvents w ++
       [{| userId := id u; type := payment_succeeded;
           amount := amount_or_zero (data_amount (payload_data payload));
           currency := or_else (data_currency (payload_data payload)) "USD";
           status := succeeded; stripeEventId := payload_id payload;
           metadata := [("provider", data_provider (payload_data payload))] |}].
Proof.
  unfold by_janua_customer. intros Hf.
  pose proof (found_user_has_row _ _ _ Hf) as Hrow.
  split.
  - intros h [<- | [<- | [<- | []]]].
    + destruct (subscriber_after_janua_update _
                  {| set_subscriptionTier := Some "pro";
                     set_subscriptionStartedAt := Some (Some now);
                     set_subscriptionExpiresAt := None;
                     set_stripeCustomerId := None;
                     set_stripeSubscriptionId := None;
                     set_januaCustomerId := None;
                     set_billingProvider :=
                       option_map Some (data_provider (payload_data payload)) |}
                  _ _ Hf) as [r0 [_ Hr]].
      unfold handleJanuaSubscriptionCreated, bind, user_findFirst_januaCustomerId.
      rewrite Hf. unfold user_update. rewrite Hrow.
      unfold subscriber, notifyJanuaOfTierChange, bind.
      destruct (truthy (data_metadata_orgId (payload_data payload)));
        [destruct (negb (truthy (JANUA_API_URL cfg))
                   || negb (truthy (DHANAM_WEBHOOK_SECRET cfg)));
         [| destruct (janua_post_tier_change out _ _ _)] |];
        simpl; (split; [reflexivity |]); rewrite Hr; eexists;
        (split; [reflexivity | reflexivity]).
    + destruct (subscriber_after_janua_update _
                  {| set_subscriptionTier := Some "pro";
                     set_subscriptionStartedAt := None;
                     set_subscriptionExpiresAt := None;
                     set_stripeCustomerId := None;
                     set_stripeSubscriptionId := None;
                     set_januaCustomerId := None;
                     set_billingProvider := None |}
                  _ _ Hf) as [r0 [_ Hr]].
      unfold handleJanuaSubscriptionResumed, bind, user_findFirst_januaCustomerId.
      rewrite Hf. unfold user_update. rewrite Hrow.
      unfold subscriber. simpl. split; [reflexivity |]. rewrite Hr.
      eexists. split; reflexivity.
    + destruct (subscriber_after_janua_update _
                  {| set_subscriptionTier := Some "pro";
                     set_subscriptionStartedAt := None;
                     set_subscriptionExpiresAt := None;
                     set_stripeCustomerId := None;
                     set_stripeSubscriptionId := None;
                     set_januaCustomerId := None;
                     set_billingProvider := None |}
                  _ _ Hf) as [r0 [_ Hr]].
      unfold handleJanuaPaymentSucceeded, bind, user_findFirst_januaCustomerId.
      rewrite Hf. unfold billingEvent_create, user_update. simpl.
      rewrite Hrow. unfold subscriber. simpl. split; [reflexivity |].
      rewrite Hr. eexists. split; reflexivity.
  - unfold handleJanuaPaymentSucceeded, bind, user_findFirst_januaCustomerId.
    rewrite Hf. unfold billingEvent_create, user_update. simpl.
    rewrite Hrow. reflexivity.
Qed.

Lemma janua_grants_are_always_pro_witness :
  let payload := januaPayload PAYMENT_SUCCEEDED None in
  let w' := snd (handleJanuaPaymentSucceeded payload (world_of [januaSubscriber])) in
  option_map subscriptionTier (subscriber "user-janua" w') = Some "pro"
  /\ map amount (billingEvents w') = [99%Q].
Proof.
  cbv zeta.
  destruct (janua_grants_are_always_pro testConfig
              (mockOutside (mockEvent (other_event "none")))
              (januaPayload PAYMENT_SUCCEEDED None) 0
              (world_of [januaSubscriber]) januaSubscriber eq_refl)
    as [Hh Hb].
  destruct (Hh (handleJanuaPaymentSucceeded (januaPayload PAYMENT_SUCCEEDED None)))
    as [_ [r [Hr Ht]]].
  - right. right. left. reflexivity.
  - split.
    + simpl id in Hr. rewrite Hr. simpl. rewrite Ht. reflexivity.
    + rewrite Hb. reflexivity.
Defined.

(** X14.  A Janua subscription.updated event for a found subscriber sets
    the tier from the payload's status alone: ['pro'] when the status is
    ['active'], ['community'] for any other or missing status, whatever
    the tier was before.  The tier dates stay as they were and no ledger
    row is written. *)
Theorem janua_update_tier_follows_status
    (payload : JanuaPayload) (w : World) (u : User) :
  by_janua_customer (customer_id (payload_data payload)) w = Some u ->
  let w' := snd (handleJanuaSubscriptionUpdated payload w) in
  fst (handleJanuaSubscriptionUpdated payload w) = Return tt
  /\ (exists r0, subscriber (id u) w = Some r0
        /\ exists r, subscriber (id u) w' = Some r
             /\ (data_status (payload_data payload) = Some "active" ->
                 subscriptionTier r = "pro")
             /\ (data_status (payload_data payload) <> Some "active" ->
                 subscriptionTier r = "community")
             /\ subscriptionStartedAt r = subscriptionStartedAt r0
             /\ subscriptionExpiresAt r = subscriptionExpiresAt r0)
  /\ billingEvents w' = billingEvents w.
Proof.
  unfold by_janua_customer. intros Hf.
  pose proof (found_user_has_row _ _ _ Hf) as Hrow.
  unfold handleJanuaSubscriptionUpdated, bind, user_findFirst_januaCustomerId.
  rewrite Hf. unfold user_update. rewrite Hrow. cbv zeta. simpl.
  split; [reflexivity |]. split; [| reflexivity].
  destruct (row_exists_found _ _ Hrow) as [r0 Hr0].
  exists r0. unfold subscriber. split; [exact Hr0 |]. simpl.
  rewrite find_id_update, Hr0. simpl. eexists. split; [reflexivity |].
  simpl. repeat split.
  - intros ->. reflexivity.
  - intros Hn. destruct (data_status (payload_data payload)) as [st |] eqn:E;
      [| reflexivity].
    simpl. destruct (String.eqb st "active") eqn:Ea; [| reflexivity].
    apply String.eqb_eq in Ea. subst st. contradiction.
Qed.

Lemma janua_update_tier_follows_status_witness :
  let tier_after status :=
    option_map subscriptionTier
      (subscriber "user-janua"
         (snd (handleJanuaSubscriptionUpdated
                 (januaPayload SUBSCRIPTION_UPDATED status)
                 (world_of [januaSubscriber])))) in
  tier_after (Some "active") = Some "pro"
  /\ tier_after (Some "past_due") = Some "community".
Proof.
  cbv zeta. split.
  - destruct (janua_update_tier_follows_status
                (januaPayload SUBSCRIPTION_UPDATED (Some "active"))
                (world_of [januaSubscriber]) januaSubscriber eq_refl)
      as [_ [[r0 [_ [r [Hr [Ha _]]]]] _]].
    simpl id in Hr. rewrite Hr. simpl. rewrite (Ha eq_refl). reflexivity.
  - destruct (janua_update_tier_follows_status
                (januaPayload SUBSCRIPTION_UPDATED (Some "past_due"))
                (world_of [januaSubscriber]) januaSubscriber eq_refl)
      as [_ [[r0 [_ [r [Hr [_ [Hn _]]]]]] _]].
    simpl id in Hr. rewrite Hr. simpl. rewrite Hn; [reflexivity | discriminate].
Defined.

(** X15.  Three Janua events never touch the user table, whether or not
    the customer is known: subscription.paused changes no stored record at
    all, and payment.failed and payment.refunded only append to the ledger,
    one row for a known customer (status failed, respectively type
    refund_issued with status succeeded) and none for an unknown one.  A
    failed or refunded Janua payment therefore never downgrades anyone. *)
Theorem janua_paused_failed_refunded_keep_users
    (payload : JanuaPayload) (w : World) :
  let found := by_janua_customer (customer_id (payload_data payload)) w in
  let row t st := match found with
                  | Some u => [janua_ledger_row u payload t st]
                  | None => []
                  end in
  same_records w (snd (handleJanuaSubscriptionPaused payload w))
  /\ users (snd (handleJanuaPaymentFailed payload w)) = users w
  /\ billingEvents (snd (handleJanuaPaymentFailed payload w))
     = billingEvents w ++ row payment_failed failed
  /\ users (snd (handleJanuaPaymentRefunded payload w)) = users w
  /\ billingEvents (snd (handleJanuaPaymentRefunded payload w))
     = billingEvents w ++ row refund_issued succeeded.
Proof.
  cbv zeta. unfold by_janua_customer, handleJanuaSubscriptionPaused,
    handleJanuaPaymentFailed, handleJanuaPaymentRefunded, same_records, bind,
    user_findFirst_januaCustomerId, janua_user_not_found.
  destruct (find _ (users w)) as [u |]; simpl;
    rewrite ?app_nil_r; repeat split; reflexivity.
Qed.

(** *** Events about nobody *)

(** X16.  An event whose customer matches no user is dropped, whatever its
    kind.  On the Stripe side, each of the five event kinds that carry a
    customer id returns normally after one error log line and changes
    nothing else.  On the Janua side, every event kind returns normally and
    leaves users, ledger, usage counters, audit trail and outbound requests
    as they were. *)
Theorem unknown_customer_events_are_dropped
    (cfg : Config) (out : Outside) (now : Z) (w : World) :
  (forall event cid,
      stripe_customer_of (event_data event) = Some cid ->
      by_customer cid w = None ->
      dispatch_event cfg out event now w
      = (Return tt,
         logged log_error [Txt "User not found for Stripe customer: "; Txt cid] w))
  /\ (forall payload,
         by_janua_customer (customer_id (payload_data payload)) w = None ->
         fst (dispatch_janua cfg out payload now w) = Return tt
         /\ same_records w (snd (dispatch_janua cfg out payload now w))
         /\ outbound (snd (dispatch_janua cfg out payload now w)) = outbound w).
Proof.
  split.
  - intros event cid Hc Hn. unfold by_customer in Hn. unfold dispatch_event.
    destruct (event_data event); simpl in Hc; try discriminate;
      injection Hc as <-;
      unfold handleSubscriptionCreated, handleSubscriptionUpdated,
        handleSubscriptionCancelled, handlePaymentSucceeded,
        handlePaymentFailed, bind, user_findUnique_stripeCustomerId;
      rewrite Hn; reflexivity.
  - intros payload Hn. unfold by_janua_customer in Hn.
    unfold dispatch_janua, same_records.
    destruct (payload_type payload);
      unfold handleJanuaSubscriptionCreated, handleJanuaSubscriptionUpdated,
        handleJanuaSubscriptionCancelled, handleJanuaSubscriptionPaused,
        handleJanuaSubscriptionResumed, handleJanuaPaymentSucceeded,
        handleJanuaPaymentFailed, handleJanuaPaymentRefunded, bind,
        user_findFirst_januaCustomerId;
      rewrite ?Hn; repeat split; reflexivity.
Qed.

Lemma unknown_customer_events_are_dropped_witness :
  let event := mockEvent (invoice_payment_failed mockInvoice) in
  let out := mockOutside event in
  let payload := januaPayload PAYMENT_SUCCEEDED None in
  let w := world_of [mockUser] in
  same_records w (snd (dispatch_event testConfig out event 0 w))
  /\ same_records w (snd (dispatch_janua testConfig out payload 0 w)).
Proof.
  cbv zeta.
  destruct (unknown_customer_events_are_dropped testConfig
              (mockOutside (mockEvent (invoice_payment_failed mockInvoice)))
              0 (world_of [mockUser])) as [Hs Hj].
  split.
  - rewrite (Hs (mockEvent (invoice_payment_failed mockInvoice)) "cus_test123"
               eq_refl eq_refl).
    repeat split.
  - exact (proj1 (proj2 (Hj (januaPayload PAYMENT_SUCCEEDED None) eq_refl))).
Defined.

(** X17.  A checkout-completed event is skipped, with one log line and no
    other effect, when its metadata carries no (or an empty) janua_user_id
    or when that id is not the id of a stored user: no tier is granted, no
    ledger row is written, and Stripe is not asked for the session's line
    items. *)
Theorem checkout_completed_without_user_is_skipped
    (cfg : Config) (out : Outside) (eid : string) (c : CheckoutSession)
    (now : Z) (w : World) :
  (truthy (metadata_janua_user_id c) = false
   \/ subscriber (or_else (metadata_janua_user_id c) "") w = None) ->
  let r := handleCheckoutCompleted cfg out eid c now w in
  fst r = Return tt
  /\ same_records w (snd r)
  /\ outbound (snd r) = outbound w
  /\ List.length (logs (snd r)) = S (List.length (logs w)).
Proof.
  intros H. unfold handleCheckoutCompleted, same_records. cbv zeta.
  destruct (truthy (metadata_janua_user_id c)) eqn:Ht; simpl.
  - destruct H as [H | H]; [discriminate |].
    unfold subscriber in H. unfold bind, user_findUnique_id. rewrite H. simpl.
    rewrite length_app, Nat.add_comm. repeat split; reflexivity.
  - rewrite length_app, Nat.add_comm. repeat split; reflexivity.
Qed.

Lemma checkout_completed_without_user_is_skipped_witness :
  let c := {| cs_id := "cs_test"; cs_customer := None; amount_total := None;
              cs_currency := None; metadata_janua_user_id := Some "missing";
              metadata_plan := None; metadata_source := None |} in
  let r := handleCheckoutCompleted testConfig
             (mockOutside (mockEvent (checkout_session_completed c)))
             "evt_checkout_2" c 0 (world_of [mockUser]) in
  fst r = Return tt /\ users (snd r) = [mockUser] /\ billingEvents (snd r) = [].
Proof.
  cbv zeta.
  match goal with
  | |- fst (handleCheckoutCompleted ?cfg ?out ?eid ?c ?now ?w) = _ /\ _ =>
      destruct (checkout_completed_without_user_is_skipped cfg out eid c now w
                  (or_intror eq_refl)) as [Hr [[Hu [Hb _]] _]]
  end.
  split; [exact Hr |]. split; [exact Hu | exact Hb].
Defined.

(** *** Starting an upgrade on the direct Stripe path *)

Lemma upgradeToPremium_direct_stripe (cfg : Config) (out : Outside)
    (uid : string) (options : UpgradeOptions) (w : World) (u : User) :
  JanuaBilling_isEnabled cfg = false ->
  subscriber uid w = Some u ->
  geb (currentRank u) (requestedRank options) = false ->
  upgradeToPremium cfg out uid options w
  = upgradeToPremiumViaStripe cfg out u
      (config_get (WEB_URL cfg) "http://localhost:3000") options w.
Proof.
  intros Hj Hf Hrank.
  rewrite (upgradeToPremium_decides cfg out uid options w u Hf), Hrank, Hj.
  reflexivity.
Qed.

Lemma customer_creations_app (l1 l2 : list Outbound) :
  customer_creations (l1 ++ l2) = customer_creations l1 ++ customer_creations l2.
Proof. apply filter_app. Qed.

(** With a customer id on file, the Stripe path writes no user row and
    creates no customer, however it ends. *)
Lemma upgradeToPremiumViaStripe_stored_customer (cfg : Config) (out : Outside)
    (u : User) (webUrl : string) (options : UpgradeOptions) (w : World) :
  truthy (stripeCustomerId u) = true ->
  let w' := snd (upgradeToPremiumViaStripe cfg out u webUrl options w) in
  users w' = users w
  /\ customer_creations (outbound w') = customer_creations (outbound w).
Proof.
  intros Ht. unfold upgradeToPremiumViaStripe. rewrite Ht. cbv zeta.
  unfold bind at 1. unfold ret at 1.
  destruct (negb (truthy _)); [split; reflexivity |].
  unfold StripeService_createCheckoutSession, bind, logger, send, lift,
    audit_log, ret.
  destruct (stripe_sessions_create out _ _); simpl;
    rewrite customer_creations_app; simpl; rewrite app_nil_r;
    split; reflexivity.
Qed.

Lemma bind_Return {A B : Type} (c : M A) (k : A -> M B) (w w1 : World) (a : A) :
  c w = (Return a, w1) -> bind c k w = k a w1.
Proof. intros H. unfold bind. rewrite H. reflexivity. Qed.

Lemma bind_Throw {A B : Type} (c : M A) (k : A -> M B) (w w1 : World)
    (e : JsError) :
  c w = (Throw e, w1) -> bind c k w = (Throw e, w1).
Proof. intros H. unfold bind. rewrite H. reflexivity. Qed.

(** Creating the customer and storing its id. *)
Lemma create_and_store_customer (out : Outside) (u : User) (w : World)
    (customer : string) :
  existsb (fun x => String.eqb (id x) (id u)) (users w) = true ->
  stripe_customers_create out (email u) (name u) = Return customer ->
  exists w1,
    (c <- StripeService_createCustomer out (email u) (name u) (id u) ;;
     user_update (id u) (customer_data c) ;;
     ret c) w = (Return customer, w1)
    /\ users w1 = update_where_id (id u) (customer_data customer) (users w)
    /\ outbound w1
       = outbound w ++ [StripeCreateCustomer (email u) (name u) (id u)].
Proof.
  intros Hrow Hc. eexists.
  unfold StripeService_createCustomer, bind, logger, send, lift, user_update,
    ret. simpl. rewrite Hc. simpl. rewrite Hrow.
  split; [reflexivity |]. split; reflexivity.
Qed.

(** Without one, and with Stripe answering the customer request, the id is
    written to the user's rows and one customer was created, however the
    rest ends. *)
Lemma upgradeToPremiumViaStripe_new_customer (cfg : Config) (out : Outside)
    (u : User) (webUrl : string) (options : UpgradeOptions) (w : World)
    (customer : string) :
  truthy (stripeCustomerId u) = false ->
  existsb (fun x => String.eqb (id x) (id u)) (users w) = true ->
  stripe_customers_create out (email u) (name u) = Return customer ->
  let w' := snd (upgradeToPremiumViaStripe cfg out u webUrl options w) in
  users w' = update_where_id (id u) (customer_data customer) (users w)
  /\ customer_creations (outbound w')
     = customer_creations (outbound w)
       ++ [StripeCreateCustomer (email u) (name u) (id u)].
Proof.
  intros Ht Hrow Hc. unfold upgradeToPremiumViaStripe. rewrite Ht. cbv zeta.
  destruct (create_and_store_customer out u w customer Hrow Hc)
    as [w1 [Hrun [Hu Ho]]].
  unfold customer_data in Hrun.
  rewrite (bind_Return _ _ _ _ _ Hrun).
  destruct (negb (truthy _)).
  - simpl. rewrite Hu, Ho, customer_creations_app. split; reflexivity.
  - unfold StripeService_createCheckoutSession, bind, logger, send, lift,
      audit_log, ret.
    destruct (stripe_sessions_create out _ _); simpl;
      rewrite Hu, ?customer_creations_app, Ho, customer_creations_app; simpl;
      rewrite app_nil_r; split; reflexivity.
Qed.

(** X18.  An upgrade by a subscriber who already has a Stripe customer id
    on file (Janua disabled, request not refused by the tier check) writes
    no user row and creates no Stripe customer, however it ends.  When the
    plan's price is configured and Stripe answers with a session, it returns
    that session's URL with provider ['stripe'], and the only request sent
    is one checkout session for the stored customer at that price. *)
Theorem upgrade_reuses_stored_customer
    (cfg : Config) (out : Outside) (uid : string) (options : UpgradeOptions)
    (w : World) (u : User) :
  JanuaBilling_isEnabled cfg = false ->
  subscriber uid w = Some u ->
  geb (currentRank u) (requestedRank options) = false ->
  truthy (stripeCustomerId u) = true ->
  let r := upgradeToPremium cfg out uid options w in
  let price := price_for cfg (or_else (plan options) "pro") in
  let customer := or_else (stripeCustomerId u) "" in
  users (snd r) = users w
  /\ customer_creations (outbound (snd r)) = customer_creations (outbound w)
  /\ (forall session,
         truthy price = true ->
         stripe_sessions_create out customer price = Return session ->
         fst r = Return {| checkoutUrl := session_url session;
                           provider := "stripe" |}
         /\ exists successUrl cancelUrl md,
              outbound (snd r)
              = outbound w ++ [StripeCreateCheckoutSession customer
                                 (or_else price "") successUrl cancelUrl md]).
Proof.
  intros Hj Hf Hrank Ht. cbv zeta.
  rewrite (upgradeToPremium_direct_stripe cfg out uid options w u Hj Hf Hrank).
  destruct (upgradeToPremiumViaStripe_stored_customer cfg out u
              (config_get (WEB_URL cfg) "http://localhost:3000") options w Ht)
    as [Hu Hc].
  split; [exact Hu |]. split; [exact Hc |].
  intros session Hp Hs.
  unfold upgradeToPremiumViaStripe. rewrite Ht. cbv zeta.
  unfold bind at 1. unfold ret at 1. unfold price_for in Hp, Hs.
  rewrite Hp. cbn [negb].
  unfold StripeService_createCheckoutSession, bind, logger, send, lift,
    audit_log, ret. simpl. rewrite Hs. simpl.
  split; [reflexivity |]. do 3 eexists. reflexivity.
Qed.

Lemma upgrade_reuses_stored_customer_witness :
  let out := mockOutside (mockEvent (other_event "none")) in
  let r := upgradeToPremium testConfig out "user-123" noOptions
             (world_of [userWithStripe]) in
  users (snd r) = [userWithStripe]
  /\ customer_creations (outbound (snd r)) = []
  /\ fst r = Return {| checkoutUrl := "https://checkout.stripe.com/pay/cs_test123";
                       provider := "stripe" |}.
Proof.
  cbv zeta.
  destruct (upgrade_reuses_stored_customer testConfig
              (mockOutside (mockEvent (other_event "none"))) "user-123"
              noOptions (world_of [userWithStripe]) userWithStripe
              eq_refl eq_refl eq_refl eq_refl) as [Hu [Hc Hs]].
  split; [exact Hu |]. split; [exact Hc |].
  exact (proj1 (Hs _ eq_refl eq_refl)).
Defined.

(** X19.  A Stripe customer is created once.  When a subscriber without a
    customer id starts an upgrade and Stripe answers the customer request
    with a non-empty id, that id is stored on the subscriber's record even if
    the rest of the upgrade fails, and a second upgrade started afterwards
    creates no further customer. *)
Theorem stripe_customer_is_created_once
    (cfg : Config) (out : Outside) (uid : string)
    (options options2 : UpgradeOptions) (w : World) (u : User)
    (customer : string) :
  JanuaBilling_isEnabled cfg = false ->
  subscriber uid w = Some u ->
  geb (currentRank u) (requestedRank options) = false ->
  geb (currentRank u) (requestedRank options2) = false ->
  truthy (stripeCustomerId u) = false ->
  stripe_customers_create out (email u) (name u) = Return customer ->
  customer <> "" ->
  let w1 := snd (upgradeToPremium cfg out uid options w) in
  let w2 := snd (upgradeToPremium cfg out uid options2 w1) in
  (exists r, subscriber uid w1 = Some r /\ stripeCustomerId r = Some customer)
  /\ customer_creations (outbound w1)
     = customer_creations (outbound w)
       ++ [StripeCreateCustomer (email u) (name u) uid]
  /\ customer_creations (outbound w2) = customer_creations (outbound w1)
  /\ users w2 = users w1.
Proof.
  intros Hj Hf Hr1 Hr2 Ht Hc Hne. cbv zeta.
  pose proof (subscriber_id _ _ _ Hf) as Hid.
  pose proof (found_user_has_row _ _ _ Hf) as Hrow.
  rewrite (upgradeToPremium_direct_stripe cfg out uid options w u Hj Hf Hr1).
  destruct (upgradeToPremiumViaStripe_new_customer cfg out u
              (config_get (WEB_URL cfg) "http://localhost:3000") options w
              customer Ht Hrow Hc) as [Hu Hcc].
  set (w1 := snd (upgradeToPremiumViaStripe cfg out u _ options w)) in *.
  assert (Hf1 : subscriber uid w1
                = Some (apply_data (customer_data customer) u)).
  { unfold subscriber in *. rewrite Hu, Hid, find_id_update, Hf. reflexivity. }
  split; [eexists; split; [exact Hf1 | reflexivity] |].
  split; [rewrite Hcc, Hid; reflexivity |].
  rewrite (upgradeToPremium_direct_stripe cfg out uid options2 w1 _ Hj Hf1 Hr2).
  assert (Ht1 : truthy (stripeCustomerId
                          (apply_data (customer_data customer) u)) = true).
  { simpl. apply String.eqb_neq in Hne. rewrite Hne. reflexivity. }
  destruct (upgradeToPremiumViaStripe_stored_customer cfg out _
              (config_get (WEB_URL cfg) "http://localhost:3000") options2 w1 Ht1)
    as [Hu2 Hc2].
  split; [exact Hc2 | exact Hu2].
Qed.

Lemma stripe_customer_is_created_once_witness :
  let out := mockOutside (mockEvent (other_event "none")) in
  let w1 := snd (upgradeToPremium testConfig out "user-123" noOptions
                   (world_of [mockUser])) in
  let w2 := snd (upgradeToPremium testConfig out "user-123" noOptions w1) in
  option_map stripeCustomerId (subscriber "user-123" w1) = Some (Some "cus_new123")
  /\ List.length (customer_creations (outbound w2)) = 1%nat.
Proof.
  cbv zeta.
  assert (Hne : "cus_new123" <> "") by discriminate.
  destruct (stripe_customer_is_created_once testConfig
              (mockOutside (mockEvent (other_event "none"))) "user-123"
              noOptions noOptions (world_of [mockUser]) mockUser "cus_new123"
              eq_refl eq_refl eq_refl eq_refl eq_refl eq_refl Hne)
    as [[r [Hr Hs]] [H1 [H2 _]]].
  split.
  - rewrite Hr. simpl. rewrite Hs. reflexivity.
  - rewrite H2, H1. reflexivity.
Defined.

(** X20.  The external checkout has neither the tier check nor the price
    check of [upgradeToPremium].  For a stored user with a Stripe customer
    id on file (Janua disabled), whatever tier the user is on and whether or
    not a price is configured for the plan, [createExternalCheckout] asks
    Stripe for a checkout session, with the return URL as both success and
    cancel URL, and returns the session's URL when Stripe answers with
    one. *)
Theorem external_checkout_ignores_tier
    (cfg : Config) (out : Outside) (uid plan returnUrl : string)
    (w : World) (u : User) (session : StripeSession) :
  JanuaBilling_isEnabled cfg = false ->
  subscriber uid w = Some u ->
  truthy (stripeCustomerId u) = true ->
  stripe_sessions_create out (or_else (stripeCustomerId u) "")
    (price_for cfg plan) = Return session ->
  let r := createExternalCheckout cfg out uid plan returnUrl w in
  fst r = Return (session_url session)
  /\ users (snd r) = users w
  /\ outbound (snd r)
     = outbound w
       ++ [StripeCreateCheckoutSession (or_else (stripeCustomerId u) "")
             (or_else (price_for cfg plan) "") returnUrl returnUrl
             [("janua_user_id", Some uid); ("plan", Some plan);
              ("source", Some "external")]].
Proof.
  unfold subscriber, price_for. intros Hj Hf Ht Hs. cbv zeta.
  unfold createExternalCheckout, bind, user_findUnique_id. rewrite Hf.
  cbv beta iota zeta. rewrite Hj, Ht.
  unfold StripeService_createCheckoutSession, bind, logger, send, lift,
    audit_log, ret. simpl. rewrite Hs. simpl.
  split; [reflexivity |]. split; reflexivity.
Qed.

(** X20 on the test suite's pro subscriber asking for ['pro'] again: the
    authenticated upgrade refuses, the external checkout goes ahead. *)
Lemma external_checkout_ignores_tier_witness :
  let out := mockOutside (mockEvent (other_event "none")) in
  let w := world_of [mockProUser] in
  fst (upgradeToPremium testConfig out "user-pro" noOptions w)
  = Throw (Error "User is already on pro tier")
  /\ fst (createExternalCheckout testConfig out "user-pro" "pro"
            "https://app.enclii.com/done" w)
     = Return "https://checkout.stripe.com/pay/cs_test123".
Proof.
  cbv zeta. split; [reflexivity |].
  exact (proj1 (external_checkout_ignores_tier testConfig
                  (mockOutside (mockEvent (other_event "none")))
                  "user-pro" "pro" "https://app.enclii.com/done"
                  (world_of [mockProUser]) mockProUser
                  {| session_id := "cs_test123";
                     session_url := "https://checkout.stripe.com/pay/cs_test123" |}
                  eq_refl eq_refl eq_refl eq_refl)).
Defined.

(** X21.  How an upgrade on the Stripe path fails for a subscriber without
    a customer id (Janua disabled, request not refused by the tier check).
    If Stripe rejects the customer request, that error is thrown, no user
    row is written and no checkout session is requested.  If the customer is
    created but no price is configured for the plan, the missing-price
    error is thrown only then: the customer request has been sent and the
    new customer id is already stored on the subscriber's record. *)
Theorem stripe_upgrade_failure_modes
    (cfg : Config) (out : Outside) (uid : string) (options : UpgradeOptions)
    (w : World) (u : User) :
  JanuaBilling_isEnabled cfg = false ->
  subscriber uid w = Some u ->
  geb (currentRank u) (requestedRank options) = false ->
  truthy (stripeCustomerId u) = false ->
  let r := upgradeToPremium cfg out uid options w in
  let plan := or_else (plan options) "pro" in
  (forall e,
      stripe_customers_create out (email u) (name u) = Throw e ->
      fst r = Throw e
      /\ users (snd r) = users w
      /\ auditLog (snd r) = auditLog w
      /\ outbound (snd r)
         = outbound w ++ [StripeCreateCustomer (email u) (name u) uid])
  /\ (forall customer,
         stripe_customers_create out (email u) (name u) = Return customer ->
         truthy (price_for cfg plan) = false ->
         fst r = Throw (Error ("No Stripe price configured for plan: " ++ plan))
         /\ (exists r', subscriber uid (snd r) = Some r'
                        /\ stripeCustomerId r' = Some customer)
         /\ outbound (snd r)
            = outbound w ++ [StripeCreateCustomer (email u) (name u) uid]).
Proof.
  intros Hj Hf Hrank Ht. cbv zeta.
  pose proof (subscriber_id _ _ _ Hf) as Hid.
  pose proof (found_user_has_row _ _ _ Hf) as Hrow.
  rewrite (upgradeToPremium_direct_stripe cfg out uid options w u Hj Hf Hrank).
  unfold upgradeToPremiumViaStripe. rewrite Ht. cbv zeta. split.
  - intros e He.
    unfold StripeService_createCustomer, bind, logger, send, lift.
    simpl. rewrite He. simpl. rewrite Hid. repeat split; reflexivity.
  - intros customer Hc Hp.
    destruct (create_and_store_customer out u w customer Hrow Hc)
      as [w1 [Hrun [Hu Ho]]].
    unfold customer_data in Hrun.
    rewrite (bind_Return _ _ _ _ _ Hrun).
    unfold price_for in Hp. rewrite Hp. simpl.
    split; [reflexivity |]. split.
    + unfold subscriber in *. rewrite Hu, Hid, find_id_update, Hf.
      eexists. split; reflexivity.
    + rewrite Ho, Hid. reflexivity.
Qed.

Lemma stripe_upgrade_failure_modes_witness :
  let down := upgradeToPremium testConfig stripeCustomersDown "user-123"
                noOptions (world_of [mockUser]) in
  let unpriced := upgradeToPremium configWithoutPremiumPrice
                    (mockOutside (mockEvent (other_event "none")))
                    "user-123" noOptions (world_of [mockUser]) in
  (fst down = Throw (Error "Stripe API error")
   /\ users (snd down) = [mockUser])
  /\ (fst unpriced = Throw (Error "No Stripe price configured for plan: pro")
      /\ option_map stripeCustomerId (subscriber "user-123" (snd unpriced))
         = Some (Some "cus_new123")).
Proof.
  cbv zeta. split.
  - destruct (proj1 (stripe_upgrade_failure_modes testConfig stripeCustomersDown
                       "user-123" noOptions (world_of [mockUser]) mockUser
                       eq_refl eq_refl eq_refl eq_refl)
                _ eq_refl) as [H1 [H2 _]].
    split; [exact H1 | exact H2].
  - destruct (proj2 (stripe_upgrade_failure_modes configWithoutPremiumPrice
                       (mockOutside (mockEvent (other_event "none")))
                       "user-123" noOptions (world_of [mockUser]) mockUser
                       eq_refl eq_refl eq_refl eq_refl)
                "cus_new123" eq_refl eq_refl) as [H1 [[r' [Hr Hs]] _]].
    split; [exact H1 |]. rewrite Hr. simpl. rewrite Hs. reflexivity.
Defined.

(** *** Usage counters *)

Lemma metric_eqb_eq (a b : UsageMetricType) : metric_eqb a b = true <-> a = b.
Proof.
  unfold metric_eqb. split.
  - destruct a, b; simpl; intros H; try reflexivity; discriminate.
  - intros ->. apply Z.eqb_refl.
Qed.

Lemma usage_key_eq (uid : string) (m : UsageMetricType) (date : Z)
    (r : UsageMetric) :
  usage_key uid m date r = true
  <-> um_userId r = uid /\ um_metricType r = m /\ um_date r = date.
Proof.
  unfold usage_key. rewrite !andb_true_iff, String.eqb_eq, metric_eqb_eq,
    Z.eqb_eq. tauto.
Qed.

(** A row cannot carry two different keys. *)
Lemma usage_key_other (uid uid' : string) (m m' : UsageMetricType)
    (date date' : Z) (r : UsageMetric) :
  (uid', m', date') <> (uid, m, date) ->
  usage_key uid m date r = true -> usage_key uid' m' date' r = false.
Proof.
  intros Hne Hk. apply not_true_is_false. intros Hk'.
  apply usage_key_eq in Hk. apply usage_key_eq in Hk'.
  destruct Hk as (<- & <- & <-). destruct Hk' as (<- & <- & <-).
  apply Hne. reflexivity.
Qed.

Lemma filter_upsert_other (uid uid' : string) (m m' : UsageMetricType)
    (date date' : Z) (rows : list UsageMetric) :
  (uid', m', date') <> (uid, m, date) ->
  filter (usage_key uid' m' date') (upsert_increment uid m date rows)
  = filter (usage_key uid' m' date') rows.
Proof.
  intros Hne. induction rows as [| r rows IH]; simpl.
  - rewrite (usage_key_other uid uid' m m' date date' _ Hne
               (usage_key_new_row uid m date)). reflexivity.
  - destruct (usage_key uid m date r) eqn:E; simpl.
    + rewrite (usage_key_other uid uid' m m' date date' r Hne E).
      assert (E' : usage_key uid m date
                     {| um_userId := um_userId r;
                        um_metricType := um_metricType r;
                        um_date := um_date r; um_count := um_count r + 1 |}
                   = true) by exact E.
      rewrite (usage_key_other uid uid' m m' date date' _ Hne E').
      reflexivity.
    + rewrite IH. reflexivity.
Qed.

Lemma find_upsert_other (uid uid' : string) (m m' : UsageMetricType)
    (date date' : Z) (rows : list UsageMetric) :
  (uid', m', date') <> (uid, m, date) ->
  find (usage_key uid' m' date') (upsert_increment uid m date rows)
  = find (usage_key uid' m' date') rows.
Proof.
  intros Hne. induction rows as [| r rows IH]; simpl.
  - rewrite (usage_key_other uid uid' m m' date date' _ Hne
               (usage_key_new_row uid m date)). reflexivity.
  - destruct (usage_key uid m date r) eqn:E; simpl.
    + rewrite (usage_key_other uid uid' m m' date date' r Hne E).
      assert (E' : usage_key uid m date
                     {| um_userId := um_userId r;
                        um_metricType := um_metricType r;
                        um_date := um_date r; um_count := um_count r + 1 |}
                   = true) by exact E.
      rewrite (usage_key_other uid uid' m m' date date' _ Hne E').
      reflexivity.
    + destruct (usage_key uid' m' date' r); [reflexivity | exact IH].
Qed.

Lemma filter_upsert_same (uid : string) (m : UsageMetricType) (date : Z)
    (rows : list UsageMetric) :
  List.length (filter (usage_key uid m date) (upsert_increment uid m date rows))
  = Nat.max 1 (List.length (filter (usage_key uid m date) rows)).
Proof.
  induction rows as [| r rows IH]; simpl.
  - rewrite usage_key_new_row. reflexivity.
  - destruct (usage_key uid m date r) eqn:E; simpl.
    + assert (E' : usage_key uid m date
                     {| um_userId := um_userId r;
                        um_metricType := um_metricType r;
                        um_date := um_date r; um_count := um_count r + 1 |}
                   = true) by exact E.
      rewrite E'. simpl. reflexivity.
    + rewrite E. exact IH.
Qed.

Lemma key_eq_dec (k k' : string * UsageMetricType * Z) : {k = k'} + {k <> k'}.
Proof.
  destruct k as [[a b] c], k' as [[a' b'] c'].
  destruct (string_dec a a'); [| right; congruence].
  destruct (Z.eq_dec c c'); [| right; congruence].
  destruct (metric_eqb b b') eqn:E.
  - apply metric_eqb_eq in E. left. congruence.
  - right. intros H. injection H as _ Hb _. apply metric_eqb_eq in Hb.
    congruence.
Qed.

(** X22.  [recordUsage] moves exactly one counter.  The counter of
    (subscriber, metric, local day of the call) goes up by one, being
    created at 1 when there was no row; the counter stored under any other
    subscriber, metric or day keeps its value; and if no two rows shared a
    key before the call, none do after it (the table's unique constraint is
    preserved).  Users and ledger are not touched. *)
Theorem recordUsage_moves_one_counter
    (cfg : Config) (uid : string) (m : UsageMetricType) (t : Z) (w : World) :
  let today := setHours0 cfg t in
  let w' := snd (recordUsage cfg uid m t w) in
  count_at uid m today (usageMetrics w')
  = count_at uid m today (usageMetrics w) + 1
  /\ (forall uid' m' date',
         (uid', m', date') <> (uid, m, today) ->
         count_at uid' m' date' (usageMetrics w')
         = count_at uid' m' date' (usageMetrics w))
  /\ (usage_keys_unique (usageMetrics w) -> usage_keys_unique (usageMetrics w'))
  /\ users w' = users w
  /\ billingEvents w' = billingEvents w.
Proof.
  cbv zeta. simpl. split; [| split; [| split; [| split; reflexivity]]].
  - unfold count_at.
    destruct (find_upsert_increment uid m (setHours0 cfg t) (usageMetrics w))
      as [r [Hr Hc]].
    rewrite Hr. exact Hc.
  - intros uid' m' date' Hne. unfold count_at.
    rewrite find_upsert_other by exact Hne. reflexivity.
  - intros Hu uid' m' date'.
    destruct (key_eq_dec (uid', m', date') (uid, m, setHours0 cfg t)) as [E | E].
    + injection E as -> -> ->. rewrite filter_upsert_same.
      specialize (Hu uid m (setHours0 cfg t)). lia.
    + rewrite filter_upsert_other by exact E. apply Hu.
Qed.

Lemma find_filter {A : Type} (p q : A -> bool) (l : list A) :
  find p (filter q l) = find (fun x => q x && p x) l.
Proof.
  induction l as [| a l IH]; simpl; [reflexivity |].
  destruct (q a); simpl; [destruct (p a); [reflexivity | exact IH] | exact IH].
Qed.

Lemma find_ext {A : Type} (p q : A -> bool) (l : list A) :
  (forall x, p x = q x) -> find p l = find q l.
Proof.
  intros H. induction l as [| a l IH]; simpl; [reflexivity |].
  rewrite H, IH. reflexivity.
Qed.

(** X23.  The usage report and the limit check agree.  For every metric,
    [getUserUsage] shows as [used] the very counter [checkUsageLimit]
    compares, and as [limit] the cap it compares with (-1 for unlimited);
    for a stored user the check answers true exactly when the reported limit
    is -1, or is not 0 and exceeds the reported use.  For a user id that is
    not stored the report still shows the community caps, while the check
    refuses. *)
Theorem usage_report_agrees_with_limit_check
    (cfg : Config) (uid : string) (m : UsageMetricType) (now : Z) (w : World) :
  exists report b,
    getUserUsage cfg uid now w = (Return report, w)
    /\ bucket_of report m = Some b
    /\ used b = todays_count cfg uid m now w
    /\ fst (checkUsageLimit cfg uid m now w)
       = Return match subscriber uid w with
                | Some _ => (limit b =? -1)
                            || (negb (limit b =? 0) && (used b <? limit b))
                | None => false
                end
    /\ (subscriber uid w = None ->
        usage_tier report = "community"
        /\ limit b = reported_limit (usageLimits_community m)).
Proof.
  unfold getUserUsage, bind, user_findUnique_id. cbv zeta.
  eexists. eexists. split; [reflexivity |].
  assert (Hused :
    match find (fun r => metric_eqb (um_metricType r) m)
            (filter (fun r => String.eqb (um_userId r) uid
                              && (um_date r =? setHours0 cfg now))
               (usageMetrics w)) with
    | Some r => um_count r
    | None => 0
    end = todays_count cfg uid m now w).
  { unfold todays_count. rewrite find_filter.
    rewrite (find_ext _ (usage_key uid m (setHours0 cfg now))); [reflexivity |].
    intros x. unfold usage_key.
    destruct (String.eqb (um_userId x) uid), (um_date x =? setHours0 cfg now),
      (metric_eqb (um_metricType x) m); reflexivity. }
  unfold bucket_of. cbn [usage].
  split; [destruct m; reflexivity |].
  split; [destruct m; exact Hused |].
  split.
  - destruct (subscriber uid w) as [u |] eqn:Hf.
    + rewrite (checkUsageLimit_found cfg uid m now w u Hf).
      unfold subscriber in Hf. rewrite Hf. cbn [fst]. f_equal.
      replace (used _) with (todays_count cfg uid m now w)
        by (destruct m; symmetry; exact Hused).
      replace (limit _)
        with (reported_limit (limit_for (subscriptionTier u) m))
        by (destruct m; reflexivity).
      unfold allowed.
      destruct (String.eqb (subscriptionTier u) "pro") eqn:Ep.
      * apply String.eqb_eq in Ep. rewrite Ep. reflexivity.
      * unfold limit_for, usageLimits, or_else.
        repeat match goal with
               | |- context [String.eqb ?a ?b] =>
                   lazymatch b with
                   | "pro" => fail
                   | _ => destruct (String.eqb a b) eqn:?
                   end
               end;
          try rewrite Ep; destruct m; simpl; try reflexivity;
          destruct (todays_count cfg uid _ now w <? _); reflexivity.
    + unfold subscriber in Hf.
      unfold checkUsageLimit, bind, user_findUnique_id. rewrite Hf. reflexivity.
  - intros Hn. unfold subscriber in Hn. rewrite Hn. simpl.
    split; [reflexivity | destruct m; reflexivity].
Qed.

(** *** Expiry *)

(** A write that leaves [januaCustomerId] alone does not change which row a
    Janua customer id resolves to. *)
Lemma find_janua_update (cid uid : string) (d : UserData) (us : list User) :
  set_januaCustomerId d = None ->
  find (fun x => opt_eqb (januaCustomerId x) cid) (update_where_id uid d us)
  = option_map (fun x => if String.eqb (id x) uid then apply_data d x else x)
      (find (fun x => opt_eqb (januaCustomerId x) cid) us).
Proof.
  intros Hd. induction us as [| a us IH]; simpl; [reflexivity |].
  assert (Hsame : opt_eqb (januaCustomerId
                    (if String.eqb (id a) uid then apply_data d a else a)) cid
                  = opt_eqb (januaCustomerId a) cid).
  { destruct (String.eqb (id a) uid); [| reflexivity].
    simpl. rewrite Hd. reflexivity. }
  rewrite Hsame. destruct (opt_eqb (januaCustomerId a) cid); [reflexivity | exact IH].
Qed.

(** X24.  A Janua cancellation leaves an expiry that a later Janua
    subscription does not clear.  After subscription.cancelled at instant
    [t1] and a subscription.created for the same customer afterwards, the
    subscriber is on ['pro'] again but tier-expires-at still holds [t1], so
    [getSubscriptionStatus] reports the subscription as not active at every
    instant from [t1] on. *)
Theorem janua_resubscription_keeps_stale_expiry
    (cfg : Config) (out : Outside) (cancel created : JanuaPayload)
    (t1 t2 : Z) (w : World) (u : User) :
  by_janua_customer (customer_id (payload_data cancel)) w = Some u ->
  customer_id (payload_data created) = customer_id (payload_data cancel) ->
  let w1 := snd (handleJanuaSubscriptionCancelled cancel t1 w) in
  let w2 := snd (handleJanuaSubscriptionCreated cfg out created t2 w1) in
  exists r,
    subscriber (id u) w2 = Some r
    /\ subscriptionTier r = "pro"
    /\ subscriptionStartedAt r = Some t2
    /\ subscriptionExpiresAt r = Some t1
    /\ forall now, t1 <= now -> isActive (getSubscriptionStatus r now) = false.
Proof.
  unfold by_janua_customer. intros Hf Hsame. cbv zeta.
  pose proof (found_user_has_row _ _ _ Hf) as Hrow.
  destruct (row_exists_found _ _ Hrow) as [r0 Hr0].
  set (dc := {| set_subscriptionTier := Some "community";
                set_subscriptionStartedAt := None;
                set_subscriptionExpiresAt := Some (Some t1);
                set_stripeCustomerId := None; set_stripeSubscriptionId := None;
                set_januaCustomerId := None; set_billingProvider := None |}).
  assert (H1 : users (snd (handleJanuaSubscriptionCancelled cancel t1 w))
               = update_where_id (id u) dc (users w)).
  { unfold handleJanuaSubscriptionCancelled, bind, user_findFirst_januaCustomerId.
    rewrite Hf. unfold user_update. rewrite Hrow. reflexivity. }
  set (w1 := snd (handleJanuaSubscriptionCancelled cancel t1 w)) in *.
  assert (Hf1 : find (fun x => opt_eqb (januaCustomerId x)
                                 (customer_id (payload_data created)))
                  (users w1) = Some (apply_data dc u)).
  { rewrite H1, Hsame, find_janua_update by reflexivity.
    rewrite Hf. simpl. rewrite String.eqb_refl. reflexivity. }
  pose proof (found_user_has_row _ _ _ Hf1) as Hrow1.
  assert (H2 : exists d2,
             users (snd (handleJanuaSubscriptionCreated cfg out created t2 w1))
             = update_where_id (id u) d2 (users w1)
             /\ set_subscriptionTier d2 = Some "pro"
             /\ set_subscriptionStartedAt d2 = Some (Some t2)
             /\ set_subscriptionExpiresAt d2 = None).
  { exists {| set_subscriptionTier := Some "pro";
              set_subscriptionStartedAt := Some (Some t2);
              set_subscriptionExpiresAt := None;
              set_stripeCustomerId := None; set_stripeSubscriptionId := None;
              set_januaCustomerId := None;
              set_billingProvider :=
                option_map Some (data_provider (payload_data created)) |}.
    unfold handleJanuaSubscriptionCreated, bind, user_findFirst_januaCustomerId.
    rewrite Hf1. unfold user_update. rewrite Hrow1.
    unfold notifyJanuaOfTierChange, bind.
    split; [| repeat split; reflexivity].
    destruct (truthy (data_metadata_orgId (payload_data created)));
      [destruct (negb (truthy (JANUA_API_URL cfg))
                 || negb (truthy (DHANAM_WEBHOOK_SECRET cfg)));
       [| destruct (janua_post_tier_change out _ _ _)] |];
      reflexivity. }
  destruct H2 as [d2 [H2 [Ht [Hs He]]]].
  exists (apply_data d2 (apply_data dc r0)).
  unfold subscriber. rewrite H2, H1, !find_id_update, Hr0.
  split; [reflexivity |].
  unfold getSubscriptionStatus, apply_data. cbn [subscriptionTier
    subscriptionStartedAt subscriptionExpiresAt isActive].
  rewrite Ht, Hs, He. cbn.
  repeat split.
  intros now Hnow. apply Z.ltb_ge. exact Hnow.
Qed.

Lemma janua_resubscription_keeps_stale_expiry_witness :
  let out := mockOutside (mockEvent (other_event "none")) in
  let w1 := snd (handleJanuaSubscriptionCancelled
                   (januaPayload SUBSCRIPTION_CANCELLED (Some "cancelled"))
                   1700000000000 (world_of [januaSubscriber])) in
  let w2 := snd (handleJanuaSubscriptionCreated testConfig out
                   (januaPayload SUBSCRIPTION_CREATED (Some "active"))
                   1700000600000 w1) in
  option_map (fun r => (subscriptionTier r,
                        isActive (getSubscriptionStatus r 1700000600000)))
    (subscriber "user-janua" w2)
  = Some ("pro", false).
Proof.
  cbv zeta.
  destruct (janua_resubscription_keeps_stale_expiry testConfig
              (mockOutside (mockEvent (other_event "none")))
              (januaPayload SUBSCRIPTION_CANCELLED (Some "cancelled"))
              (januaPayload SUBSCRIPTION_CREATED (Some "active"))
              1700000000000 1700000600000
              (world_of [januaSubscriber]) januaSubscriber eq_refl eq_refl)
    as [r [Hr [Ht [_ [_ Ha]]]]].
  simpl id in Hr. rewrite Hr. unfold option_map.
  rewrite Ht, Ha by lia. reflexivity.
Defined.

(** Off the names of [Object.prototype] every requested rank is a number,
    at most that of ['pro']. *)
Lemma requestedRank_le_2 (options : UpgradeOptions) :
  inheritedKey (or_else (plan options) "pro") = false ->
  exists r, requestedRank options = Own r /\ r <= 2.
Proof.
  intros Hin. unfold requestedRank, tierRank, lookup. rewrite Hin.
  unfold tierRank_own.
  destruct (String.eqb _ "community"); [eexists; split; [reflexivity | lia] |].
  destruct (String.eqb _ "essentials"); [eexists; split; [reflexivity | lia] |].
  destruct (String.eqb _ "pro"); eexists; (split; [reflexivity | lia]).
Qed.

(** X25.  Nothing in the service enforces tier-expires-at.  For a stored
    subscriber on ['pro'] whose expiry has passed, the status endpoint
    reports the subscription as not active, yet every usage check still
    answers true without reading a counter, and every upgrade request for a
    plan that is not a name inherited from [Object.prototype] is refused
    with the already-on-tier error. *)
Theorem expired_pro_keeps_pro_entitlements
    (cfg : Config) (out : Outside) (uid : string) (w : World) (u : User)
    (expires now : Z) :
  subscriber uid w = Some u ->
  subscriptionTier u = "pro" ->
  subscriptionExpiresAt u = Some expires ->
  expires <= now ->
  isActive (getSubscriptionStatus u now) = false
  /\ (forall m, checkUsageLimit cfg uid m now w = (Return true, w))
  /\ (forall options,
         inheritedKey (or_else (plan options) "pro") = false ->
         upgradeToPremium cfg out uid options w
         = (Throw (Error "User is already on pro tier"), w)).
Proof.
  intros Hf Ht He Hle. split; [| split].
  - unfold getSubscriptionStatus. simpl. rewrite Ht, He. simpl.
    apply Z.ltb_ge. exact Hle.
  - intros m. unfold subscriber in Hf.
    unfold checkUsageLimit, bind, user_findUnique_id.
    rewrite Hf, Ht. reflexivity.
  - intros options Hin.
    rewrite (upgradeToPremium_decides cfg out uid options w u Hf).
    destruct (requestedRank_le_2 options Hin) as [r [Hr Hle2]].
    unfold currentRank. rewrite Ht, Hr. simpl.
    assert (Hge : (2 >=? r) = true) by (apply Z.geb_le; lia).
    rewrite Hge. reflexivity.
Qed.

Lemma expired_pro_keeps_pro_entitlements_witness :
  let out := mockOutside (mockEvent (other_event "none")) in
  let w := world_of [mockProUser] in
  isActive (getSubscriptionStatus mockProUser 1800000000000) = false
  /\ checkUsageLimit testConfig "user-pro" monte_carlo_simulation
       1800000000000 w = (Return true, w).
Proof.
  cbv zeta.
  destruct (expired_pro_keeps_pro_entitlements testConfig
              (mockOutside (mockEvent (other_event "none"))) "user-pro"
              (world_of [mockProUser]) mockProUser 1735689600000 1800000000000
              eq_refl eq_refl eq_refl) as [Ha [Hc _]].
  - lia.
  - split; [exact Ha | apply Hc].
Defined.

(** *** The redirect allow-list, exactly *)

Lemma substring_split (k : nat) (s : string) :
  (k <= String.length s)%nat ->
  s = (substring 0 k s ++ substring k (String.length s - k) s)%string.
Proof.
  revert s. induction k as [| k IH]; intros s Hk.
  - rewrite Nat.sub_0_r.
    pose proof (substring_all_of_suffix "" s) as H. simpl in H.
    rewrite H. destruct s; reflexivity.
  - destruct s as [| c s]; simpl in Hk; [lia |].
    simpl. f_equal. apply IH. lia.
Qed.

Lemma endsWith_iff (suffix s : string) :
  endsWith suffix s = true <-> exists p, s = (p ++ suffix)%string.
Proof.
  split.
  - unfold endsWith. intros H. apply andb_true_iff in H. destruct H as [Hn He].
    apply Nat.leb_le in Hn. apply String.eqb_eq in He.
    exists (substring 0 (String.length s - String.length suffix) s).
    rewrite <- He at 2.
    rewrite (substring_split (String.length s - String.length suffix) s) at 1
      by lia.
    f_equal. f_equal. lia.
  - intros [p ->]. apply endsWith_append.
Qed.

Lemma isLocalhost_iff (s : string) :
  isLocalhost s = true
  <-> s = "localhost"
      \/ exists port, s = ("localhost:" ++ port)%string /\ port <> ""
                      /\ forallb isDigit (list_ascii_of_string port) = true.
Proof.
  unfold isLocalhost. rewrite orb_true_iff, !andb_true_iff, String.eqb_eq.
  split.
  - intros [H | [[Hp Hl] Hd]]; [left; exact H | right].
    apply String.eqb_eq in Hp. apply Nat.ltb_lt in Hl.
    exists (substring 10 (String.length s - 10) s).
    split; [| split; [| exact Hd]].
    + rewrite <- Hp. apply substring_split. lia.
    + intros He.
      pose proof (substring_split 10 s ltac:(lia)) as Hs.
      rewrite He, Hp in Hs. rewrite Hs in Hl. simpl in Hl. lia.
  - intros [H | [port [-> [Hne Hd]]]]; [left; exact H | right].
    assert (Hsub : substring 10 (String.length ("localhost:" ++ port) - 10)
                     ("localhost:" ++ port) = port).
    { rewrite length_append. simpl String.length.
      replace (10 + String.length port - 10)%nat with (String.length port) by lia.
      exact (substring_all_of_suffix "localhost:" port). }
    split; [split |].
    + apply String.eqb_eq. simpl. destruct port; reflexivity.
    + apply Nat.ltb_lt. rewrite length_append. simpl String.length.
      destruct port; [contradiction | simpl; lia].
    + rewrite Hsub. exact Hd.
Qed.

(** X26.  The redirect allow-list, exactly.  A host is allowed if and only
    if it is some text followed by [.madfam.io], [.dhan.am] or
    [.enclii.com], or, outside production, it is [localhost] optionally
    followed by a colon and one or more digits.  So the bare domains
    (without a leading label and dot) and look-alikes such as
    [evilmadfam.io] are refused, and in production so is [localhost]. *)
Theorem allowed_hosts_exactly (cfg : Config) (host : string) :
  (existsb (fun re => re host) (allowedHosts cfg) = true
   <-> (exists sub, host = (sub ++ ".madfam.io")%string
                    \/ host = (sub ++ ".dhan.am")%string
                    \/ host = (sub ++ ".enclii.com")%string)
       \/ (opt_eqb (NODE_ENV cfg) "production" = false
           /\ (host = "localhost"
               \/ exists port,
                    host = ("localhost:" ++ port)%string /\ port <> ""
                    /\ forallb isDigit (list_ascii_of_string port) = true)))
  /\ existsb (fun re => re "madfam.io") (allowedHosts cfg) = false
  /\ existsb (fun re => re "evilmadfam.io") (allowedHosts cfg) = false
  /\ (NODE_ENV cfg = Some "production" ->
      existsb (fun re => re "localhost") (allowedHosts cfg) = false).
Proof.
  split; [| split; [| split]].
  - unfold allowedHosts. rewrite existsb_app. simpl.
    rewrite !orb_true_iff, !endsWith_iff. split.
    + intros [[[sub H] | [[sub H] | [[sub H] | H]]] | H].
      * left. exists sub. auto.
      * left. exists sub. auto.
      * left. exists sub. auto.
      * discriminate.
      * right. destruct (opt_eqb (NODE_ENV cfg) "production"); simpl in H;
          [discriminate |].
        split; [reflexivity |]. apply isLocalhost_iff.
        rewrite orb_false_r in H. exact H.
    + intros [[sub [H | [H | H]]] | [Hp H]].
      * left. left. exists sub. exact H.
      * left. right. left. exists sub. exact H.
      * left. right. right. left. exists sub. exact H.
      * right. rewrite Hp. simpl. rewrite orb_false_r.
        apply isLocalhost_iff. exact H.
  - unfold allowedHosts.
    destruct (opt_eqb (NODE_ENV cfg) "production"); reflexivity.
  - unfold allowedHosts.
    destruct (opt_eqb (NODE_ENV cfg) "production"); reflexivity.
  - intros Hp. unfold allowedHosts. rewrite Hp. reflexivity.
Qed.

(** *** The web gate and the server *)

(** X27.  The web app's [PremiumGate] and the server's [upgradeToPremium]
    rank tiers the same way.  Whenever the gate grants a stored subscriber
    access to a feature requiring tier [required], an upgrade request to
    that tier is refused with the already-on-tier error; and whenever both
    lookups of the gate answer something (the three known tiers, and also
    names inherited from [Object.prototype]) the gate grants access exactly
    when the server's rank comparison refuses the upgrade. *)
Theorem gate_access_means_upgrade_refused
    (cfg : Config) (out : Outside) (uid required : string)
    (options : UpgradeOptions) (w : World) (u : User) :
  subscriber uid w = Some u ->
  plan options = Some required ->
  (hasAccess (Some (subscriptionTier u)) required = true ->
   upgradeToPremium cfg out uid options w
   = (Throw (Error ("User is already on " ++ subscriptionTier u ++ " tier")), w))
  /\ (TIER_RANK (subscriptionTier u) <> None ->
      TIER_RANK required <> None ->
      hasAccess (Some (subscriptionTier u)) required
      = geb (currentRank u) (requestedRank options)).
Proof.
  intros Hf Hp.
  assert (Hsame : forall t, tierRank t = TIER_RANK t) by reflexivity.
  assert (Hne : forall t, TIER_RANK t <> None -> t <> "").
  { intros t Ht ->. apply Ht. reflexivity. }
  assert (Hor : forall t, t <> "" -> forall d, or_else (Some t) d = t).
  { intros t Ht d. unfold or_else. apply String.eqb_neq in Ht.
    rewrite Ht. reflexivity. }
  assert (Hreq : forall r, r = required -> TIER_RANK r <> None ->
                 requestedRank options = nullish_or (TIER_RANK r) 2).
  { intros r -> Hr. unfold requestedRank.
    rewrite Hp, (Hor required (Hne _ Hr)), Hsame. reflexivity. }
  split.
  - intros Ha.
    rewrite (upgradeToPremium_decides cfg out uid options w u Hf).
    assert (Hge : geb (currentRank u) (requestedRank options) = true).
    { unfold hasAccess, rank_geb in Ha.
      destruct (TIER_RANK (or_else (Some (subscriptionTier u)) "community"))
        as [x |] eqn:Ex; [| discriminate].
      destruct (TIER_RANK required) as [y |] eqn:Ey; [| discriminate].
      assert (Hy : requestedRank options = y).
      { rewrite (Hreq required eq_refl) by (rewrite Ey; discriminate).
        rewrite Ey. reflexivity. }
      rewrite Hy.
      unfold currentRank.
      change (tierRank (subscriptionTier u)) with (TIER_RANK (subscriptionTier u)).
      destruct (String.eqb (subscriptionTier u) "") eqn:Ee.
      - apply String.eqb_eq in Ee. rewrite Ee in *. simpl in Ex.
        injection Ex as <-. exact Ha.
      - apply String.eqb_neq in Ee. rewrite (Hor _ Ee) in Ex.
        rewrite Ex. exact Ha. }
    rewrite Hge. reflexivity.
  - intros Ht Hr.
    unfold hasAccess. rewrite (Hor _ (Hne _ Ht)), (Hreq required eq_refl Hr).
    unfold currentRank.
    change (tierRank (subscriptionTier u)) with (TIER_RANK (subscriptionTier u)).
    destruct (TIER_RANK (subscriptionTier u)); [| contradiction].
    destruct (TIER_RANK required); [| contradiction].
    reflexivity.
Qed.

Lemma gate_access_means_upgrade_refused_witness :
  let out := mockOutside (mockEvent (other_event "none")) in
  let options := {| orgId := None; plan := Some "essentials";
                    successUrl := None; cancelUrl := None;
                    opt_countryCode := None |} in
  hasAccess (Some "pro") "essentials" = true
  /\ fst (upgradeToPremium testConfig out "user-pro" options
            (world_of [mockProUser]))
     = Throw (Error "User is already on pro tier").
Proof.
  cbv zeta. split; [reflexivity |].
  rewrite (proj1 (gate_access_means_upgrade_refused testConfig
                    (mockOutside (mockEvent (other_event "none")))
                    "user-pro" "essentials"
                    {| orgId := None; plan := Some "essentials";
                       successUrl := None; cancelUrl := None;
                       opt_countryCode := None |}
                    (world_of [mockProUser]) mockProUser eq_refl eq_refl)
             eq_refl).
  reflexivity.
Defined.

(** *** Reading back: history and portal *)

Lemma In_firstn {A : Type} (n : nat) (l : list A) (x : A) :
  In x (firstn n l) -> In x l.
Proof.
  revert l. induction n as [| n IH]; intros [| a l]; simpl; try tauto.
  intros [H | H]; [left; exact H | right; apply IH; exact H].
Qed.

(** X28.  [getBillingHistory] returns at most [limit] rows, all of them
    rows of the ledger that belong to the subscriber, and changes nothing;
    and it lists the newest first: right after a payment-failed event for a
    found subscriber, the first row of that subscriber's history is the row
    the event wrote, followed by what the history showed before. *)
Theorem history_lists_newest_first
    (eid : string) (i : Invoice) (w : World) (u : User) (n : nat) :
  by_customer (inv_customer i) w = Some u ->
  (forall uid limit w0,
      exists rows,
        getBillingHistory uid limit w0 = (Return rows, w0)
        /\ (List.length rows <= limit)%nat
        /\ forall e, In e rows -> userId e = uid /\ In e (billingEvents w0))
  /\ fst (getBillingHistory (id u) (S n) (snd (handlePaymentFailed eid i w)))
     = Return (payment_failed_row (id u) eid i :: firstn n (history_of (id u) w)).
Proof.
  unfold by_customer. intros Hf. split.
  - intros uid limit w0. eexists. split; [reflexivity |]. split.
    + rewrite length_firstn. lia.
    + intros e He. apply In_firstn in He. apply in_rev in He.
      apply filter_In in He. destruct He as [Hin Hid].
      apply String.eqb_eq in Hid. split; assumption.
  - unfold handlePaymentFailed, bind, user_findUnique_stripeCustomerId.
    rewrite Hf. unfold getBillingHistory, history_of. simpl.
    rewrite filter_app. simpl. rewrite String.eqb_refl.
    rewrite rev_app_distr. reflexivity.
Qed.

Lemma history_lists_newest_first_witness :
  let w' := snd (handlePaymentFailed "evt_test123" mockInvoice
                   (world_of [userWithStripe])) in
  option_map (map status)
    match fst (getBillingHistory "user-123" 20 w') with
    | Return rows => Some rows
    | Throw _ => None
    end
  = Some [failed].
Proof.
  cbv zeta.
  pose proof (proj2 (history_lists_newest_first "evt_test123" mockInvoice
                       (world_of [userWithStripe]) userWithStripe 19 eq_refl))
    as H.
  simpl id in H. rewrite H. reflexivity.
Defined.

(** X29.  [createPortalSession] needs a customer id on file.  For a user id
    that is not stored, or whose stored Stripe customer id is missing or
    empty, it throws ['No Stripe customer found for this user'] and leaves
    the world as it was, log included, so Stripe was not asked.  Otherwise
    its outcome is exactly that of Stripe's portal API called for the stored
    customer with return URL [WEB_URL/billing], and no stored record
    changes. *)
Theorem portal_needs_stored_customer
    (portal : string -> string -> Completion string) (cfg : Config)
    (uid : string) (w : World) :
  (match subscriber uid w with
   | Some u => truthy (stripeCustomerId u)
   | None => false
   end = false ->
   createPortalSession portal cfg uid w
   = (Throw (Error "No Stripe customer found for this user"), w))
  /\ (forall u,
         subscriber uid w = Some u ->
         truthy (stripeCustomerId u) = true ->
         fst (createPortalSession portal cfg uid w)
         = portal (or_else (stripeCustomerId u) "")
             (config_get (WEB_URL cfg) "http://localhost:3000" ++ "/billing")%string
         /\ same_records w (snd (createPortalSession portal cfg uid w))
         /\ outbound (snd (createPortalSession portal cfg uid w)) = outbound w).
Proof.
  unfold subscriber, createPortalSession, bind, user_findUnique_id. split.
  - destruct (find _ (users w)) as [u |]; intros H; cbv zeta.
    + rewrite H. reflexivity.
    + reflexivity.
  - intros u Hf Ht. rewrite Hf. cbv zeta. rewrite Ht. cbn [negb].
    unfold StripeService_createPortalSession, bind, logger, lift, same_records.
    destruct (portal _ _); simpl; repeat split; reflexivity.
Qed.

(** *** A handler that fails half-way *)

(** X30.  Handlers write the user row before the ledger row, and nothing
    undoes the first when the second fails.  A verified subscription-created
    event whose subscription carries no items, for a found subscriber: the
    subscriber's record already holds tier ['pro'] and the new subscription
    id, yet no ledger row and no audit entry is written, and the endpoint
    answers [received: false] with the error's message. *)
Theorem created_without_items_grants_but_reports_failure
    (cfg : Config) (out : Outside) (body signature : string) (now : Z)
    (w : World) (event : StripeEvent) (s : Subscription) (u : User) :
  truthy (STRIPE_WEBHOOK_SECRET cfg) = true ->
  stripe_constructEvent out body signature
    (or_else (STRIPE_WEBHOOK_SECRET cfg) "") = Return event ->
  event_data event = customer_subscription_created s ->
  items_data s = [] ->
  by_customer (sub_customer s) w = Some u ->
  let r := handleWebhook cfg out body signature now w in
  fst r = Return {| received := false;
                    error := Some "Cannot read properties of undefined (reading 'price')" |}
  /\ (exists r', subscriber (id u) (snd r) = Some r'
                 /\ subscriptionTier r' = "pro"
                 /\ stripeSubscriptionId r' = Some (sub_id s))
  /\ billingEvents (snd r) = billingEvents w
  /\ auditLog (snd r) = auditLog w.
Proof.
  unfold by_customer. intros Hs He Hd Hi Hf. cbv zeta.
  rewrite (handleWebhook_verified cfg out body signature now w event Hs He).
  unfold dispatch_event. rewrite Hd.
  remember (logged log_info
              [Txt "Received Stripe webhook: "; Txt (event_type event)] w)
    as w0 eqn:Hw0.
  assert (Hu0 : users w0 = users w) by (subst w0; reflexivity).
  assert (Hb0 : billingEvents w0 = billingEvents w) by (subst w0; reflexivity).
  assert (Ha0 : auditLog w0 = auditLog w) by (subst w0; reflexivity).
  rewrite <- Hu0 in Hf. clear Hw0.
  unfold handleSubscriptionCreated, bind, user_findUnique_stripeCustomerId.
  rewrite Hf. unfold user_update. rewrite (found_user_has_row _ _ _ Hf), Hi.
  simpl. split; [reflexivity |].
  split; [| split; [exact Hb0 | exact Ha0]].
  destruct (row_exists_found _ _ (found_user_has_row _ _ _ Hf)) as [r0 Hr0].
  unfold subscriber. simpl. rewrite find_id_update, Hr0. simpl.
  eexists. split; [reflexivity |]. split; reflexivity.
Qed.

Lemma created_without_items_grants_but_reports_failure_witness :
  let event := mockEvent (customer_subscription_created subscriptionWithoutItems) in
  let r := handleWebhook testConfig (mockOutside event) "{}" "valid_signature" 0
             (world_of [userWithStripe]) in
  option_map received
    match fst r with Return a => Some a | Throw _ => None end = Some false
  /\ option_map subscriptionTier (subscriber "user-123" (snd r)) = Some "pro"
  /\ billingEvents (snd r) = [].
Proof.
  cbv zeta.
  destruct (created_without_items_grants_but_reports_failure testConfig
              (mockOutside
                 (mockEvent (customer_subscription_created subscriptionWithoutItems)))
              "{}" "valid_signature" 0 (world_of [userWithStripe])
              (mockEvent (customer_subscription_created subscriptionWithoutItems))
              subscriptionWithoutItems userWithStripe
              eq_refl eq_refl eq_refl eq_refl eq_refl)
    as [Hr [[r' [Hu [Ht _]]] [Hb _]]].
  rewrite Hr. split; [reflexivity |]. split; [| exact Hb].
  simpl id in Hu. rewrite Hu. simpl. rewrite Ht. reflexivity.
Defined.
